(** * Fraud QA pipeline: risk aggregation and result classification

    A shallow embedding of the quantitative core of the repository:

    - [fraud_qa_agent.py]        data model, [FraudQAAgent.get_deployment_recommendation]
    - [fraud_risk_analyzer.py]   [FraudRiskAnalyzer]
    - [test_summary_generator.py] [TestSummaryGenerator._calculate_accuracy_metrics]
    - [test_execution_engine.py] [TestExecutionEngine._validate_result]

    and, under "More of the pipeline", of the code around it: the rest of
    [TestSummaryGenerator], the dashboard bars of the risk analyzer, the
    sections of [test_report_builder.py], [hallucination_checker.py], and
    the simulated runs of [test_execution_engine.py], whose random draws
    and clock readings are read from an explicit world state.

    Numbers.  Python [int] counts are [nat]; Python [float]s are modelled as
    exact rationals ([Q]), so a decimal literal such as [0.35] denotes 35/100
    and arithmetic does not round.  Equality of scores is [Qeq] ([==]).
    The code computes in binary64, where a ratio or a product can fall an
    ulp to either side of its exact value and so round the other way at a
    tie; where that matters a theorem relates a stored figure to its exact
    formula to within a hundredth, and states an order or a threshold only
    where monotone rounding keeps it.

    Exceptions.  Python's true division raises [ZeroDivisionError]; code that
    divides lives in the error monad [py] (ExtLib's [sum] monad, [inl] is a
    raised exception, [inr] a returned value).

    Strings.  Identifiers and error texts are byte strings; [lower] is
    [str.lower] on ASCII letters. *)

From Stdlib Require Import String Ascii List Bool Arith ZArith QArith Qround Qabs Lia Lqa.
From Stdlib Require Import Sorting.Mergesort Sorting.Sorted Sorting.Permutation Orders DecimalString.
From ExtLib Require Import Structures.Monad Structures.MonadExc Data.Monads.EitherMonad.
From ExtLib Require Import Data.Monads.StateMonad.
Import ListNotations.
Import MonadNotation.
Local Open Scope monad_scope.
Local Open Scope string_scope.
Local Open Scope Q_scope.

(** ** Python primitives *)

Module Py.

Inductive exn : Type :=
| ZeroDivisionError.

(** A computation that returns an [A] or raises. *)
Definition py : Type -> Type := sum exn.

#[global] Instance Monad_py : Monad py := Monad_either exn.
#[global] Instance Exception_py : MonadExc exn py := Exception_either exn.

(** [int -> float] conversion of a count. *)
Definition of_int (n : nat) : Q := inject_Z (Z.of_nat n).

(** [a / b] *)
Definition truediv (a b : Q) : py Q :=
  if Qeq_bool b 0 then raise ZeroDivisionError else ret (a / b).

(** [a < b], [a >= b], [a > b] on numbers. *)
Definition ltb (a b : Q) : bool := negb (Qle_bool b a).
Definition geb (a b : Q) : bool := Qle_bool b a.
Definition gtb (a b : Q) : bool := negb (Qle_bool a b).

(** [min(a, b)]: the first argument unless the second is strictly smaller. *)
Definition min (a b : Q) : Q := if ltb b a then b else a.

(** [abs(x)] *)
Definition abs (x : Q) : Q := Qabs x.

(** Rounding of a rational to the nearest integer, ties to even. *)
Definition round_half_even (x : Q) : Z :=
  let f := Qfloor x in
  match Qcompare (x - inject_Z f) (1 # 2) with
  | Lt => f
  | Gt => (f + 1)%Z
  | Eq => if Z.even f then f else (f + 1)%Z
  end.

(** [round(x, 2)] *)
Definition round2 (x : Q) : Q := inject_Z (round_half_even (x * 100)) / 100.

(** [needle in hay] for strings. *)
Fixpoint contains (needle hay : string) : bool :=
  if String.prefix needle hay then true
  else match hay with
       | EmptyString => false
       | String _ rest => contains needle rest
       end.

Definition lower_char (c : ascii) : ascii :=
  let n := nat_of_ascii c in
  if (65 <=? n)%nat && (n <=? 90)%nat then ascii_of_nat (n + 32) else c.

(** [s.lower()] *)
Fixpoint lower (s : string) : string :=
  match s with
  | EmptyString => EmptyString
  | String c rest => String (lower_char c) (lower rest)
  end.

(** [sep.join(parts)] *)
Definition join (sep : string) (parts : list string) : string :=
  String.concat sep parts.

(** [sum(1 for x in xs if p(x))] *)
Definition count {A : Type} (p : A -> bool) (xs : list A) : nat :=
  length (filter p xs).

(** [not xs] for a list. *)
Definition is_empty {A : Type} (xs : list A) : bool :=
  match xs with [] => true | _ :: _ => false end.

(** [xs.append(x)], returning the updated list. *)
Definition append {A : Type} (xs : list A) (x : A) : list A := (xs ++ [x])%list.

(** [d.get(key, default)] on an optional key. *)
Definition get {A : Type} (entry : option A) (default : A) : A :=
  match entry with Some v => v | None => default end.

(** [any(p(x) for x in xs)] *)
Definition any {A : Type} (p : A -> bool) (xs : list A) : bool := existsb p xs.

End Py.
Import Py.

(** ** Data model ([fraud_qa_agent.py]) *)

Inductive RiskLevel : Type := LOW | MEDIUM | HIGH | CRITICAL.

Inductive TestStatus : Type := PASSED | FAILED | BLOCKED | SKIPPED.

Definition TestStatus_eqb (a b : TestStatus) : bool :=
  match a, b with
  | PASSED, PASSED | FAILED, FAILED | BLOCKED, BLOCKED | SKIPPED, SKIPPED => true
  | _, _ => false
  end.

Definition RiskLevel_eqb (a b : RiskLevel) : bool :=
  match a, b with
  | LOW, LOW | MEDIUM, MEDIUM | HIGH, HIGH | CRITICAL, CRITICAL => true
  | _, _ => false
  end.

(** [TestCase.expected_result]: the keys the validator reads; [None] is an
    absent key. *)
Record ExpectedResult : Type := {
  exp_fraud_alert_triggered : option bool;
  exp_risk_score : option Q;
  exp_alert_priority : option string;
  exp_action : option string
}.

(** [TestCase.test_data]: the key the validator reads. *)
Record TestData : Type := {
  max_allowed_response_time_ms : option Q
}.

(** The oracle's answer: the keys the validator reads. *)
Record ActualResult : Type := {
  act_fraud_alert_triggered : option bool;
  act_risk_score : option Q;
  act_max_response_time_ms : option Q;
  act_compliance_met : option bool;
  act_violations : option (list string)
}.

Record TestCase : Type := {
  tc_test_case_id : string;
  category : string;
  priority : string;
  description : string;
  preconditions : list string;
  test_data : TestData;
  expected_result : ExpectedResult;
  fraud_patterns_tested : list string;
  validation_points : list string
}.

Record TestResult : Type := {
  test_case_id : string;
  status : TestStatus;
  actual_result : ActualResult;
  execution_time_ms : Q;
  timestamp : string;
  errors : list string;
  warnings : list string
}.

Record RiskAssessment : Type := {
  overall_risk_score : Q;
  risk_level : RiskLevel;
  detection_risk : Q;
  false_positive_risk : Q;
  compliance_risk : Q;
  system_risk : Q;
  recommendations : list string
}.

(** ** [FraudRiskAnalyzer] ([fraud_risk_analyzer.py]) *)

Module FraudRiskAnalyzer.

(** [self.risk_weights] *)
Record RiskWeights : Type := {
  w_detection_risk : Q;
  w_false_positive_risk : Q;
  w_compliance_risk : Q;
  w_system_risk : Q
}.

Definition risk_weights : RiskWeights := {|
  w_detection_risk := 0.35;
  w_false_positive_risk := 0.20;
  w_compliance_risk := 0.30;
  w_system_risk := 0.15
|}.

(** The comprehension of lines 72-78. *)
Definition fraud_tests (test_results : list TestResult) : list TestResult :=
  filter (fun r =>
            contains "fraud" (lower (test_case_id r))
            && negb (contains "neg" (lower (test_case_id r)))
            && negb (contains "Performance" (test_case_id r))
            && negb (contains "Compliance" (test_case_id r)))
         test_results.

(** Lines 95-100: the score of a false-negative rate, before the cap. *)
Definition detection_risk_curve (fn_rate : Q) : Q :=
  if ltb fn_rate 0.05 then fn_rate * 400
  else if ltb fn_rate 0.10 then 20 + (fn_rate - 0.05) * 1200
  else 80 + (fn_rate - 0.10) * 200.

Definition _calculate_detection_risk (test_results : list TestResult) : py Q :=
  let fraud_tests := fraud_tests test_results in
  if is_empty fraud_tests then ret 0
  else
    let false_negatives :=
      count (fun r => TestStatus_eqb (status r) FAILED
                      && contains "FALSE NEGATIVE" (join " " (errors r)))
            fraud_tests in
    fn_rate <- (if negb (is_empty fraud_tests)
                then truediv (of_int false_negatives) (of_int (length fraud_tests))
                else ret 0) ;;
    let risk_score := detection_risk_curve fn_rate in
    ret (min 100 risk_score).

(** The comprehension of lines 109-112. *)
Definition negative_tests (test_results : list TestResult) : list TestResult :=
  filter (fun r => contains "neg" (lower (test_case_id r))) test_results.

(** Lines 128-133. *)
Definition false_positive_risk_curve (fp_rate : Q) : Q :=
  if ltb fp_rate 0.10 then fp_rate * 300
  else if ltb fp_rate 0.20 then 30 + (fp_rate - 0.10) * 500
  else 80 + (fp_rate - 0.20) * 100.

Definition _calculate_false_positive_risk (test_results : list TestResult) : py Q :=
  let negative_tests := negative_tests test_results in
  if is_empty negative_tests then ret 0
  else
    let false_positives :=
      count (fun r => TestStatus_eqb (status r) FAILED
                      && contains "FALSE POSITIVE" (join " " (errors r)))
            negative_tests in
    fp_rate <- (if negb (is_empty negative_tests)
                then truediv (of_int false_positives) (of_int (length negative_tests))
                else ret 0) ;;
    let risk_score := false_positive_risk_curve fp_rate in
    ret (min 100 risk_score).

Definition _calculate_compliance_risk (test_results : list TestResult) : Q :=
  let compliance_tests :=
    filter (fun r => contains "Compliance" (test_case_id r)
                     || contains "COMP" (test_case_id r))
           test_results in
  if is_empty compliance_tests then 0
  else
    let failed_compliance :=
      count (fun r => TestStatus_eqb (status r) FAILED) compliance_tests in
    match failed_compliance with
    | 0%nat => 0
    | 1%nat => 60
    | 2%nat => 85
    | _ => 100
    end.

(** Lines 195-200: each branch returns, so the [min(100, ...)] of line 202
    is never reached. *)
Definition system_risk_curve (failure_rate : Q) : Q :=
  if ltb failure_rate 0.02 then failure_rate * 1000
  else if ltb failure_rate 0.05 then 20 + (failure_rate - 0.02) * 1333
  else 60 + (failure_rate - 0.05) * 800.

Definition _calculate_system_risk (test_results : list TestResult) : py Q :=
  let performance_tests :=
    filter (fun r => contains "Performance" (test_case_id r)
                     || contains "PERF" (test_case_id r))
           test_results in
  if is_empty performance_tests then ret 0
  else
    let perf_failures :=
      count (fun r => TestStatus_eqb (status r) FAILED) performance_tests in
    let blocked_tests :=
      count (fun r => TestStatus_eqb (status r) BLOCKED) test_results in
    let total_tests := length test_results in
    failure_rate <- (if negb (total_tests =? 0)%nat
                     then truediv (of_int (perf_failures + blocked_tests))
                                  (of_int total_tests)
                     else ret 0) ;;
    ret (system_risk_curve failure_rate).

Definition _categorize_risk (risk_score : Q) : RiskLevel :=
  if geb risk_score 75 then CRITICAL
  else if geb risk_score 50 then HIGH
  else if geb risk_score 25 then MEDIUM
  else LOW.

Definition _generate_recommendations
    (detection_risk false_positive_risk compliance_risk system_risk : Q)
    (test_results : list TestResult) : py (list string) :=
  let recommendations : list string := [] in
  (* Detection risk recommendations *)
  let recommendations :=
    if geb detection_risk 75 then
      append recommendations "🔴 CRITICAL: High false negative rate detected. Immediately review and retrain fraud detection models. Consider deploying ensemble models for improved detection."
    else if geb detection_risk 50 then
      append recommendations "⚠️ HIGH: Elevated false negative rate. Review detection rules and thresholds. Analyze missed fraud patterns and update algorithms."
    else if geb detection_risk 25 then
      append recommendations "⚠️ MEDIUM: Some fraud patterns being missed. Fine-tune detection rules for identified gaps."
    else recommendations in
  (* False positive recommendations *)
  let recommendations :=
    if geb false_positive_risk 75 then
      append recommendations "🔴 CRITICAL: High false positive rate causing customer friction. Implement adaptive thresholds based on customer risk profiles. Review and adjust overly aggressive rules."
    else if geb false_positive_risk 50 then
      append recommendations "⚠️ HIGH: Elevated false positive rate. Optimize risk scoring algorithm to reduce false alerts. Consider implementing customer behavior learning."
    else recommendations in
  (* Compliance recommendations *)
  let recommendations :=
    if geb compliance_risk 60 then
      append recommendations "🛑 BLOCKING: Compliance violations detected. Fix all compliance gaps before production deployment. This is a go/no-go blocker."
    else if geb compliance_risk 30 then
      append recommendations "⚠️ Compliance concerns identified. Address all compliance issues and re-validate before deployment."
    else recommendations in
  (* System risk recommendations *)
  let recommendations :=
    if geb system_risk 60 then
      append recommendations "🔴 CRITICAL: System reliability issues detected. Performance degradation or failures under load. Conduct capacity planning and optimize critical paths."
    else if geb system_risk 30 then
      append recommendations "⚠️ System performance concerns. Optimize slow queries and implement caching strategies."
    else recommendations in
  (* General recommendations *)
  let failed_count := count (fun r => TestStatus_eqb (status r) FAILED) test_results in
  let total_count := length test_results in
  fail_ratio <- truediv (of_int failed_count) (of_int total_count) ;;
  let recommendations :=
    if gtb fail_ratio 0.15 then
      append recommendations "⚠️ Overall test pass rate below 85%. Comprehensive review and remediation required before deployment."
    else recommendations in
  (* If no major issues *)
  let recommendations :=
    if is_empty recommendations then
      append recommendations "✅ All risk metrics within acceptable ranges. System appears ready for deployment pending final approvals."
    else recommendations in
  ret recommendations.

(** Lines 36-41: the weighted sum, before it is rounded. *)
Definition weighted_risk_score
    (detection_risk false_positive_risk compliance_risk system_risk : Q) : Q :=
  detection_risk * w_detection_risk risk_weights
  + false_positive_risk * w_false_positive_risk risk_weights
  + compliance_risk * w_compliance_risk risk_weights
  + system_risk * w_system_risk risk_weights.

Definition calculate_risk (test_results : list TestResult) : py RiskAssessment :=
  (* Calculate individual risk components *)
  detection_risk <- _calculate_detection_risk test_results ;;
  false_positive_risk <- _calculate_false_positive_risk test_results ;;
  let compliance_risk := _calculate_compliance_risk test_results in
  system_risk <- _calculate_system_risk test_results ;;
  (* Calculate weighted overall risk score *)
  let overall_risk_score :=
    weighted_risk_score detection_risk false_positive_risk compliance_risk system_risk in
  (* Determine risk level *)
  let risk_level := _categorize_risk overall_risk_score in
  (* Generate recommendations *)
  recommendations <-
    _generate_recommendations detection_risk false_positive_risk
                              compliance_risk system_risk test_results ;;
  ret {| overall_risk_score := round2 overall_risk_score;
         risk_level := risk_level;
         detection_risk := round2 detection_risk;
         false_positive_risk := round2 false_positive_risk;
         compliance_risk := round2 compliance_risk;
         system_risk := round2 system_risk;
         recommendations := recommendations |}.

Definition _get_deployment_recommendation (assessment : RiskAssessment) : string :=
  if geb (compliance_risk assessment) 60 then
    "🛑 DO NOT DEPLOY - Compliance violations (BLOCKING)"
  else if RiskLevel_eqb (risk_level assessment) CRITICAL then
    "🛑 DO NOT DEPLOY - Critical risk level"
  else if RiskLevel_eqb (risk_level assessment) HIGH then
    "⚠️ DEPLOY WITH CAUTION - High risk, requires executive approval"
  else if RiskLevel_eqb (risk_level assessment) MEDIUM then
    "⚠️ CONDITIONAL APPROVAL - Medium risk, monitor closely post-deployment"
  else
    "✅ APPROVED FOR DEPLOYMENT - Low risk".

(** One entry of the report's ['risk_breakdown']. *)
Record BreakdownEntry : Type := {
  score : Q;
  weight : Q;
  contribution : Q
}.

Record OverallAssessment : Type := {
  risk_score : Q;
  oa_risk_level : RiskLevel;
  deployment_recommendation : string
}.

Record RiskBreakdown : Type := {
  rb_detection_risk : BreakdownEntry;
  rb_false_positive_risk : BreakdownEntry;
  rb_compliance_risk : BreakdownEntry;
  rb_system_risk : BreakdownEntry
}.

(** The report of [generate_risk_report]; the text dashboard under
    ['risk_visualization'] is presentation only and is left out. *)
Record RiskReport : Type := {
  overall_assessment : OverallAssessment;
  risk_breakdown : RiskBreakdown;
  report_recommendations : list string
}.

Definition generate_risk_report (assessment : RiskAssessment) : RiskReport := {|
  overall_assessment := {|
    risk_score := overall_risk_score assessment;
    oa_risk_level := risk_level assessment;
    deployment_recommendation := _get_deployment_recommendation assessment |};
  risk_breakdown := {|
    rb_detection_risk := {|
      score := detection_risk assessment;
      weight := w_detection_risk risk_weights;
      contribution := detection_risk assessment * w_detection_risk risk_weights |};
    rb_false_positive_risk := {|
      score := false_positive_risk assessment;
      weight := w_false_positive_risk risk_weights;
      contribution := false_positive_risk assessment * w_false_positive_risk risk_weights |};
    rb_compliance_risk := {|
      score := compliance_risk assessment;
      weight := w_compliance_risk risk_weights;
      contribution := compliance_risk assessment * w_compliance_risk risk_weights |};
    rb_system_risk := {|
      score := system_risk assessment;
      weight := w_system_risk risk_weights;
      contribution := system_risk assessment * w_system_risk risk_weights |} |};
  report_recommendations := recommendations assessment |}.

(** The sum of the four ['contribution'] entries of a report. *)
Definition contributions_total (report : RiskReport) : Q :=
  contribution (rb_detection_risk (risk_breakdown report))
  + contribution (rb_false_positive_risk (risk_breakdown report))
  + contribution (rb_compliance_risk (risk_breakdown report))
  + contribution (rb_system_risk (risk_breakdown report)).

End FraudRiskAnalyzer.

(** ** [FraudQAAgent] ([fraud_qa_agent.py]) *)

Module FraudQAAgent.

(** The count of lines 239-242. *)
Definition critical_failures (test_results : list TestResult) : nat :=
  count (fun r => TestStatus_eqb (status r) FAILED
                  && any (fun e => contains "CRITICAL" e) (errors r))
        test_results.

(** [get_deployment_recommendation], with the two attributes of [self] it
    reads passed as arguments. *)
Definition get_deployment_recommendation
    (risk_assessment : option RiskAssessment) (test_results : list TestResult) : string :=
  match risk_assessment with
  | None => "UNKNOWN - Risk assessment not completed"
  | Some assessment =>
      let risk_score := overall_risk_score assessment in
      let critical_failures := critical_failures test_results in
      if (0 <? critical_failures)%nat then
        "🛑 DO NOT DEPLOY - Critical failures detected"
      else if geb risk_score 75 then
        "⚠️ DO NOT DEPLOY - High risk score"
      else if geb risk_score 50 then
        "⚠️ DEPLOY WITH CAUTION - Medium risk, requires approval"
      else
        "✅ APPROVED FOR DEPLOYMENT - Low risk"
  end.

(** [analyze_fraud_risk] *)
Definition analyze_fraud_risk (test_results : list TestResult) : py RiskAssessment :=
  FraudRiskAnalyzer.calculate_risk test_results.

End FraudQAAgent.

(** ** [TestSummaryGenerator] ([test_summary_generator.py]) *)

Module TestSummaryGenerator.

Record ConfusionMatrix : Type := {
  true_positives : nat;
  false_positives : nat;
  true_negatives : nat;
  false_negatives : nat
}.

Record AccuracyMetrics : Type := {
  confusion_matrix : ConfusionMatrix;
  total_fraud_tests : nat;
  total_legitimate_tests : nat;
  precision : Q;
  recall : Q;
  f1_score : Q;
  false_positive_rate : Q;
  false_negative_rate : Q
}.

(** The comprehension of lines 98-104. *)
Definition fraud_tests (test_results : list TestResult) : list TestResult :=
  filter (fun r =>
            contains "fraud" (lower (test_case_id r))
            && negb (contains "neg" (lower (test_case_id r)))
            && negb (contains "Performance" (test_case_id r))
            && negb (contains "Compliance" (test_case_id r)))
         test_results.

(** The comprehension of lines 106-109. *)
Definition legit_tests (test_results : list TestResult) : list TestResult :=
  filter (fun r => contains "neg" (lower (test_case_id r))) test_results.

Definition _calculate_accuracy_metrics (test_results : list TestResult)
  : py AccuracyMetrics :=
  (* Separate fraud and legitimate test cases *)
  let fraud_tests := fraud_tests test_results in
  let legit_tests := legit_tests test_results in
  (* Calculate confusion matrix *)
  let true_positives := count (fun r => TestStatus_eqb (status r) PASSED) fraud_tests in
  let false_negatives := count (fun r => TestStatus_eqb (status r) FAILED) fraud_tests in
  let true_negatives := count (fun r => TestStatus_eqb (status r) PASSED) legit_tests in
  let false_positives := count (fun r => TestStatus_eqb (status r) FAILED) legit_tests in
  (* Calculate derived metrics *)
  let total_fraud := length fraud_tests in
  let total_legit := length legit_tests in
  precision <- (if (0 <? true_positives + false_positives)%nat
                then truediv (of_int true_positives)
                             (of_int (true_positives + false_positives))
                else ret 0) ;;
  recall <- (if (0 <? true_positives + false_negatives)%nat
             then truediv (of_int true_positives)
                          (of_int (true_positives + false_negatives))
             else ret 0) ;;
  f1_score <- (if gtb (precision + recall) 0
               then truediv (2 * precision * recall) (precision + recall)
               else ret 0) ;;
  false_positive_rate <-
    (if (0 <? total_legit)%nat
     then q <- truediv (of_int false_positives) (of_int total_legit) ;;
          ret (round2 (q * 100))
     else ret 0) ;;
  false_negative_rate <-
    (if (0 <? total_fraud)%nat
     then q <- truediv (of_int false_negatives) (of_int total_fraud) ;;
          ret (round2 (q * 100))
     else ret 0) ;;
  ret {| confusion_matrix := {| true_positives := true_positives;
                                false_positives := false_positives;
                                true_negatives := true_negatives;
                                false_negatives := false_negatives |};
         total_fraud_tests := total_fraud;
         total_legitimate_tests := total_legit;
         precision := round2 (precision * 100);
         recall := round2 (recall * 100);
         f1_score := round2 (f1_score * 100);
         false_positive_rate := false_positive_rate;
         false_negative_rate := false_negative_rate |}.

End TestSummaryGenerator.

(** ** [TestExecutionEngine] ([test_execution_engine.py]) *)

Module TestExecutionEngine.

(** The dictionary returned by [_validate_result]. *)
Record ValidationResult : Type := {
  v_status : TestStatus;
  v_errors : list string;
  v_warnings : list string
}.

Section Validator.

(** How an f-string renders a number and a list of strings. *)
Variable str_of_number : Q -> string.
Variable str_of_list : list string -> string.

Definition _validate_result (test_case : TestCase) (actual_result : ActualResult)
  : ValidationResult :=
  let expected := expected_result test_case in
  let errors : list string := [] in
  let warnings : list string := [] in
  (* Validate fraud detection accuracy *)
  let errors :=
    match exp_fraud_alert_triggered expected with
    | Some expected_alert =>
        let actual_alert := get (act_fraud_alert_triggered actual_result) false in
        if negb (Bool.eqb expected_alert actual_alert) then
          if expected_alert then
            append errors "FALSE NEGATIVE: Fraud not detected (expected alert, got none)"
          else
            append errors "FALSE POSITIVE: Legitimate transaction flagged (expected no alert, got alert)"
        else errors
    | None => errors
    end in
  (* Validate risk score *)
  let warnings :=
    match exp_risk_score expected with
    | Some expected_score =>
        let actual_score := get (act_risk_score actual_result) 0 in
        (* Allow 15-point variance *)
        if gtb (abs (expected_score - actual_score)) 15 then
          append warnings ("Risk score variance: expected ~"
                           ++ str_of_number expected_score
                           ++ ", got " ++ str_of_number actual_score)
        else warnings
    | None => warnings
    end in
  (* Validate performance metrics *)
  let errors :=
    if contains "Performance" (category test_case) then
      let max_allowed := get (max_allowed_response_time_ms (test_data test_case)) 5000 in
      let actual_max := get (act_max_response_time_ms actual_result) 0 in
      if gtb actual_max max_allowed then
        append errors ("Performance SLA violation: " ++ str_of_number actual_max
                       ++ "ms > " ++ str_of_number max_allowed ++ "ms")
      else errors
    else errors in
  (* Validate compliance *)
  let errors :=
    if contains "Compliance" (category test_case) then
      if negb (get (act_compliance_met actual_result) false) then
        append errors ("Compliance validation failed: "
                       ++ str_of_list (get (act_violations actual_result) []))
      else errors
    else errors in
  (* Determine overall status *)
  let status :=
    if negb (is_empty errors) then
      if any (fun err => contains "CRITICAL" err || contains "FALSE NEGATIVE" err) errors
      then FAILED
      else FAILED
    else if negb (is_empty warnings) then PASSED (* Pass with warnings *)
    else PASSED in
  {| v_status := status; v_errors := errors; v_warnings := warnings |}.

End Validator.

End TestExecutionEngine.

(** ** Status tests of the comprehensions *)

Definition is_passed (r : TestResult) : bool := TestStatus_eqb (status r) PASSED.
Definition is_failed (r : TestResult) : bool := TestStatus_eqb (status r) FAILED.

(** Neither passed nor failed: blocked or skipped. *)
Definition is_unfinished (r : TestResult) : bool :=
  TestStatus_eqb (status r) BLOCKED || TestStatus_eqb (status r) SKIPPED.

(** ** Accuracy formulas as the specification words them *)

Module AccuracySpec.

(** [precision = TP/(TP+FP)], 0 when the denominator is 0. *)
Definition precision (tp fp : nat) : Q :=
  if (tp + fp =? 0)%nat then 0 else of_int tp / of_int (tp + fp).

(** [recall = TP/(TP+FN)], 0 when the denominator is 0. *)
Definition recall (tp fn : nat) : Q :=
  if (tp + fn =? 0)%nat then 0 else of_int tp / of_int (tp + fn).

(** [f1 = 2PR/(P+R)], 0 when the denominator is 0. *)
Definition f1 (p r : Q) : Q :=
  if Qeq_bool (p + r) 0 then 0 else 2 * p * r / (p + r).

End AccuracySpec.

(** ** Sample runs *)

Module Samples.

(** An oracle answer with no recognised key. *)
Definition no_answer : ActualResult := {|
  act_fraud_alert_triggered := None;
  act_risk_score := None;
  act_max_response_time_ms := None;
  act_compliance_met := None;
  act_violations := None
|}.

Definition result (id : string) (st : TestStatus) (errs : list string) : TestResult := {|
  test_case_id := id;
  status := st;
  actual_result := no_answer;
  execution_time_ms := 100;
  timestamp := "2026-02-15T03:45:00";
  errors := errs;
  warnings := []
|}.

Definition false_negative_error : string :=
  "FALSE NEGATIVE: Fraud not detected (expected alert, got none)".

Definition false_positive_error : string :=
  "FALSE POSITIVE: Legitimate transaction flagged (expected no alert, got alert)".

(** A run of one compliance test, which failed. *)
Definition one_compliance_failure : list TestResult :=
  [result "TC-COMP-001" FAILED
          ["Compliance validation failed: ['Missing encryption on PII fields']"]].

(** A run of one performance test, which failed. *)
Definition one_performance_failure : list TestResult :=
  [result "TC-PERF-001" FAILED ["Performance SLA violation: 6000ms > 5000ms"]].

(** A run of one fraud-positive test whose oracle call raised. *)
Definition one_blocked_fraud_test : list TestResult :=
  [result "TC-CARD_FRAUD-001" BLOCKED ["Test execution failed: timeout"]].

(** Ten fraud-positive tests, one of them missed. *)
Definition ten_fraud_one_missed : list TestResult :=
  result "TC-CARD_FRAUD-001" FAILED [false_negative_error]
  :: repeat (result "TC-CARD_FRAUD-002" PASSED []) 9.

(** [n] failed compliance tests. *)
Definition failed_compliance_tests (n : nat) : list TestResult :=
  repeat (result "TC-COMP-001" FAILED ["Compliance validation failed: []"]) n.

(** Seven legitimate transactions, one of them flagged. *)
Definition seven_legitimate_one_flagged : list TestResult :=
  result "TC-NEG-001" FAILED [false_positive_error]
  :: repeat (result "TC-NEG-002" PASSED []) 6.



(** A legitimate transaction of a fraud scenario: the id has both markers. *)
Definition legitimate_card_fraud_test : TestResult :=
  result "TC-CARD_FRAUD-NEG-001" PASSED [].


(** Stand-ins for the text an f-string puts for a number and for a list. *)
Definition render_number (x : Q) : string := "<number>".


End Samples.

(** * More of the pipeline *)

(** ** More Python primitives *)

(** Rationals under [<=], for [list.sort]. *)
Module QOrder <: TotalLeBool.

Definition t : Type := Q.

Definition leb (x y : Q) : bool := Qle_bool x y.

Lemma leb_total (x y : Q) : leb x y = true \/ leb y x = true.
Proof.
  unfold leb. rewrite !Qle_bool_iff.
  destruct (Qlt_le_dec x y); [left; lra | right; assumption].
Qed.

End QOrder.

Module QSort := Sort QOrder.

Module PyMore.

(** The exceptions of the built-ins used below; [Arithmetic] wraps the
    division error of [Py]. *)
Inductive exc : Type :=
| Arithmetic (e : exn)
| ValueError
| IndexError.

Definition pyx : Type -> Type := sum exc.

#[global] Instance Monad_pyx : Monad pyx := Monad_either exc.
#[global] Instance Exception_pyx : MonadExc exc pyx := Exception_either exc.

(** A computation of [Py] run where more can go wrong. *)
Definition lift {A : Type} (c : py A) : pyx A :=
  match c with
  | inl e => inl (Arithmetic e)
  | inr v => inr v
  end.

(** [int(x)]: truncation towards zero. *)
Definition trunc (x : Q) : Z := Z.quot (Qnum x) (Zpos (Qden x)).

(** [a % b] on floats: the remainder has the sign of [b]. *)
Definition fmod (a b : Q) : Q := a - b * inject_Z (Qfloor (a / b)).

(** [sum(xs)] *)
Definition sum (xs : list Q) : Q := fold_left Qplus xs 0.

(** [min(xs)]: the first smallest item; [ValueError] on an empty list. *)
Definition list_min (xs : list Q) : pyx Q :=
  match xs with
  | [] => raise ValueError
  | x :: rest => ret (fold_left (fun best y => if ltb y best then y else best) rest x)
  end.

(** [max(xs)]: the first largest item; [ValueError] on an empty list. *)
Definition list_max (xs : list Q) : pyx Q :=
  match xs with
  | [] => raise ValueError
  | x :: rest => ret (fold_left (fun best y => if gtb y best then y else best) rest x)
  end.

(** [xs[i]], with Python's negative indices; [IndexError] out of range. *)
Definition getitem {A : Type} (xs : list A) (i : Z) : pyx A :=
  let n := Z.of_nat (length xs) in
  let j := if (i <? 0)%Z then (i + n)%Z else i in
  if ((j <? 0) || (n <=? j))%Z then raise IndexError
  else match nth_error xs (Z.to_nat j) with
       | Some v => ret v
       | None => raise IndexError
       end.

(** [xs.sort()] on numbers: a stable sort. *)
Definition sort (xs : list Q) : list Q := QSort.sort xs.

(** [str(n)] for an integer. *)
Definition str_of_int (n : Z) : string :=
  match n with
  | Z0 => "0"
  | Zpos p => NilZero.string_of_uint (Pos.to_uint p)
  | Zneg p => "-" ++ NilZero.string_of_uint (Pos.to_uint p)
  end.

(** [s.split(sep)] for a one-character separator: [cur] holds the part
    being read, reversed. *)
Fixpoint split_from (sep : ascii) (cur : list ascii) (s : string) : list string :=
  match s with
  | EmptyString => [string_of_list_ascii (rev cur)]
  | String c rest =>
      if Ascii.eqb c sep
      then string_of_list_ascii (rev cur) :: split_from sep [] rest
      else split_from sep (c :: cur) rest
  end.

Definition split (sep : ascii) (s : string) : list string := split_from sep [] s.

(** A [dict] with string keys, in insertion order. *)
Definition dict (V : Type) : Type := list (string * V).

(** [d.get(key, default)] *)
Fixpoint dict_get {V : Type} (d : dict V) (key : string) (default : V) : V :=
  match d with
  | [] => default
  | (k, v) :: rest => if String.eqb k key then v else dict_get rest key default
  end.

(** [d[key] = value]: an existing key keeps its place, a new one goes last. *)
Fixpoint dict_set {V : Type} (d : dict V) (key : string) (value : V) : dict V :=
  match d with
  | [] => [(key, value)]
  | (k, v) :: rest =>
      if String.eqb k key then (k, value) :: rest
      else (k, v) :: dict_set rest key value
  end.

(** [d[key] = d.get(key, 0) + 1] *)
Definition dict_incr (d : dict nat) (key : string) : dict nat :=
  dict_set d key (dict_get d key 0%nat + 1)%nat.

(** [sum(d.values())] *)
Definition dict_total (d : dict nat) : nat :=
  fold_right (fun kv acc => (snd kv + acc)%nat) 0%nat d.

(** [glyph * n]: nothing for a negative [n]. *)
Definition repeat_str (glyph : string) (n : Z) : string :=
  String.concat "" (repeat glyph (Z.to_nat n)).

End PyMore.
Import PyMore.

(** ** Hallucination checks ([fraud_qa_agent.py]) *)

(** One finding: the dictionary with keys ['type'], ['description'],
    ['severity'] and ['field']. *)
Record Hallucination : Type := {
  h_type : string;
  h_description : string;
  h_severity : string;
  h_field : string
}.

Record HallucinationCheck : Type := {
  hc_test_case_id : string;
  hallucinations_detected : list Hallucination;
  severity : string;
  confidence_score : Q
}.

(** ** The rest of [TestSummaryGenerator] ([test_summary_generator.py]) *)

Module SummaryMetrics.

Record OverallMetrics : Type := {
  total_test_cases : nat;
  passed : nat;
  failed : nat;
  blocked : nat;
  skipped : nat;
  pass_rate : Q;
  fail_rate : Q;
  total_execution_time_ms : Q;
  avg_execution_time_ms : Q;
  execution_time_formatted : string
}.

Record PerformanceMetrics : Type := {
  avg_response_time_ms : Q;
  min_response_time_ms : Q;
  max_response_time_ms : Q;
  p95_response_time_ms : Q;
  p99_response_time_ms : Q
}.

(** An entry of ['critical_failures']. *)
Record CriticalFailure : Type := {
  cf_test_case_id : string;
  cf_errors : list string
}.

Record FailureAnalysis : Type := {
  total_failures : nat;
  by_category : dict nat;
  critical_failures : list CriticalFailure;
  critical_count : nat
}.

Record HallucinationSummary : Type := {
  total_checks : nat;
  hs_hallucinations_detected : nat;
  hallucination_rate : Q;
  by_severity : dict nat;
  hs_critical_count : nat
}.

Record RiskSummary : Type := {
  rs_overall_risk_score : Q;
  rs_risk_level : RiskLevel;
  top_risk : string;
  recommendations_count : nat
}.

(** Lines 204-205: the category is the second dash-separated part of the
    test id. *)
Definition category_of_id (id : string) : string :=
  let parts := split "-" id in
  if (1 <? length parts)%nat then nth 1 parts "UNKNOWN" else "UNKNOWN".

(** Line 210: an error text that marks a failure as critical. *)
Definition has_critical_error (result : TestResult) : bool :=
  any (fun err => contains "CRITICAL" err || contains "FALSE NEGATIVE" err)
      (errors result).

(** The loop body of [_analyze_failures], lines 202-214. *)
Definition analyze_step (acc : dict nat * list CriticalFailure) (result : TestResult)
  : dict nat * list CriticalFailure :=
  let '(categories, critical_failures) := acc in
  (* Extract category from test ID *)
  let category := category_of_id (test_case_id result) in
  let categories := dict_incr categories category in
  (* Check for critical failures *)
  let critical_failures :=
    if has_critical_error result
    then append critical_failures {| cf_test_case_id := test_case_id result;
                                     cf_errors := errors result |}
    else critical_failures in
  (categories, critical_failures).

Definition _analyze_failures (test_results : list TestResult) : FailureAnalysis :=
  let failed_tests := filter (fun r => TestStatus_eqb (status r) FAILED) test_results in
  let '(categories, critical_failures) := fold_left analyze_step failed_tests ([], []) in
  {| total_failures := length failed_tests;
     by_category := categories;
     critical_failures := critical_failures;
     critical_count := length critical_failures |}.

(** The loop of lines 238-240. *)
Definition count_by_severity (hallucination_checks : list HallucinationCheck) : dict nat :=
  fold_left (fun by_severity check => dict_incr by_severity (severity check))
            hallucination_checks [].

Definition _summarize_hallucinations (hallucination_checks : list HallucinationCheck)
  : py HallucinationSummary :=
  if is_empty hallucination_checks then
    ret {| total_checks := 0;
           hs_hallucinations_detected := 0;
           hallucination_rate := 0;
           by_severity := [];
           hs_critical_count := 0 |}
  else
    let total_hallucinations :=
      list_sum (map (fun c => length (hallucinations_detected c)) hallucination_checks) in
    let by_severity := count_by_severity hallucination_checks in
    let critical_count := dict_get by_severity "CRITICAL" 0%nat in
    per_check <- truediv (of_int total_hallucinations)
                         (of_int (length hallucination_checks)) ;;
    ret {| total_checks := length hallucination_checks;
           hs_hallucinations_detected := total_hallucinations;
           hallucination_rate := round2 (per_check * 100);
           by_severity := by_severity;
           hs_critical_count := critical_count |}.

Definition _calculate_performance_metrics (test_results : list TestResult)
  : pyx PerformanceMetrics :=
  (* Get response times *)
  let response_times :=
    map execution_time_ms
        (filter (fun r => gtb (execution_time_ms r) 0) test_results) in
  if is_empty response_times then
    ret {| avg_response_time_ms := 0;
           min_response_time_ms := 0;
           max_response_time_ms := 0;
           p95_response_time_ms := 0;
           p99_response_time_ms := 0 |}
  else
    let response_times := sort response_times in
    avg_response <- lift (truediv (PyMore.sum response_times)
                                  (of_int (length response_times))) ;;
    min_response <- list_min response_times ;;
    max_response <- list_max response_times ;;
    (* Calculate percentiles *)
    let p95_index := trunc (of_int (length response_times) * 0.95) in
    let p99_index := trunc (of_int (length response_times) * 0.99) in
    p95_response <- (if (p95_index <? Z.of_nat (length response_times))%Z
                     then getitem response_times p95_index
                     else ret max_response) ;;
    p99_response <- (if (p99_index <? Z.of_nat (length response_times))%Z
                     then getitem response_times p99_index
                     else ret max_response) ;;
    ret {| avg_response_time_ms := round2 avg_response;
           min_response_time_ms := round2 min_response;
           max_response_time_ms := round2 max_response;
           p95_response_time_ms := round2 p95_response;
           p99_response_time_ms := round2 p99_response |}.

Section Formatting.

(** How an f-string renders a number under the format [.1f]. *)
Variable format_1f : Q -> string.

Definition _format_duration (ms : Q) : string :=
  let seconds := ms / 1000 in
  if ltb seconds 60 then format_1f seconds ++ "s"
  else
    let minutes := trunc (seconds / 60) in
    let remaining_seconds := trunc (fmod seconds 60) in
    if (minutes <? 60)%Z then
      str_of_int minutes ++ "m " ++ str_of_int remaining_seconds ++ "s"
    else
      let hours := trunc (inject_Z minutes / 60) in
      let remaining_minutes := (minutes mod 60)%Z in
      str_of_int hours ++ "h " ++ str_of_int remaining_minutes ++ "m".

Definition _calculate_overall_metrics (test_results : list TestResult)
  : py OverallMetrics :=
  let total := length test_results in
  let passed := count (fun r => TestStatus_eqb (status r) PASSED) test_results in
  let failed := count (fun r => TestStatus_eqb (status r) FAILED) test_results in
  let blocked := count (fun r => TestStatus_eqb (status r) BLOCKED) test_results in
  let skipped := count (fun r => TestStatus_eqb (status r) SKIPPED) test_results in
  (* Calculate total execution time *)
  let total_time_ms := PyMore.sum (map execution_time_ms test_results) in
  avg_time_ms <- (if (0 <? total)%nat
                  then truediv total_time_ms (of_int total) else ret 0) ;;
  pass_rate <- (if (0 <? total)%nat
                then q <- truediv (of_int passed) (of_int total) ;; ret (round2 (q * 100))
                else ret 0) ;;
  fail_rate <- (if (0 <? total)%nat
                then q <- truediv (of_int failed) (of_int total) ;; ret (round2 (q * 100))
                else ret 0) ;;
  ret {| total_test_cases := total;
         passed := passed;
         failed := failed;
         blocked := blocked;
         skipped := skipped;
         pass_rate := pass_rate;
         fail_rate := fail_rate;
         total_execution_time_ms := round2 total_time_ms;
         avg_execution_time_ms := round2 avg_time_ms;
         execution_time_formatted := _format_duration total_time_ms |}.

(** [max(risks.items(), key=lambda x: x[1])]: the first item with the
    largest value. *)
Definition max_by_value (items : string * Q) (rest : list (string * Q)) : string * Q :=
  fold_left (fun best item => if gtb (snd item) (snd best) then item else best)
            rest items.

Definition _identify_top_risk (risk_assessment : RiskAssessment) : string :=
  let top_risk :=
    max_by_value ("Detection Risk", detection_risk risk_assessment)
                 [("False Positive Risk", false_positive_risk risk_assessment);
                  ("Compliance Risk", compliance_risk risk_assessment);
                  ("System Risk", system_risk risk_assessment)] in
  fst top_risk ++ " (" ++ format_1f (snd top_risk) ++ ")".

Definition _summarize_risk (risk_assessment : RiskAssessment) : RiskSummary := {|
  rs_overall_risk_score := overall_risk_score risk_assessment;
  rs_risk_level := risk_level risk_assessment;
  top_risk := _identify_top_risk risk_assessment;
  recommendations_count := length (recommendations risk_assessment)
|}.

End Formatting.

End SummaryMetrics.

(** ** The risk dashboard of [FraudRiskAnalyzer] ([fraud_risk_analyzer.py]) *)

Module RiskDashboard.

(** The cells of a bar, lines 363-364: [filled] full cells, then empty
    ones up to [width]; a negative count repeats nothing. *)
Definition bar_cells (score : Q) (width : Z) : list string :=
  let filled := trunc ((score / 100) * inject_Z width) in
  (repeat "█" (Z.to_nat filled) ++ repeat "░" (Z.to_nat (width - filled)))%list.

Section Formatting.

(** How an f-string renders a number under the format [.1f]. *)
Variable format_1f : Q -> string.

(** The nested function [risk_bar]. *)
Definition risk_bar (score : Q) (width : Z) : string :=
  let bar := String.concat "" (bar_cells score width) in
  let symbol :=
    if geb score 75 then "🔴"
    else if geb score 50 then "🟡"
    else "🟢" in
  symbol ++ " " ++ bar ++ " " ++ format_1f score ++ "/100".

End Formatting.

End RiskDashboard.

(** ** [TestReportBuilder] ([test_report_builder.py]) *)

Module TestReportBuilder.

(** The entries of the summary that the executive summary reads. *)
Record Summary : Type := {
  overall_metrics : SummaryMetrics.OverallMetrics;
  accuracy_metrics : TestSummaryGenerator.AccuracyMetrics;
  failure_analysis : SummaryMetrics.FailureAnalysis;
  insights : list string
}.

Record KeyMetrics : Type := {
  km_pass_rate : string;
  fraud_detection_accuracy : string;
  km_false_positive_rate : string;
  execution_time : string
}.

Record ExecutiveSummary : Type := {
  overall_status : string;
  es_deployment_recommendation : string;
  key_metrics : KeyMetrics;
  critical_issues : nat;
  top_insights : list string
}.

(** Lines 75-87 of [_create_executive_summary]. *)
Definition deployment_rec (risk_assessment : option RiskAssessment) : string :=
  match risk_assessment with
  | Some risk_assessment =>
      if geb (compliance_risk risk_assessment) 60 then
        "🛑 DO NOT DEPLOY - Compliance violations"
      else if RiskLevel_eqb (risk_level risk_assessment) CRITICAL then
        "🛑 DO NOT DEPLOY - Critical risk"
      else if RiskLevel_eqb (risk_level risk_assessment) HIGH then
        "⚠️ DEPLOY WITH CAUTION - High risk"
      else
        "✅ APPROVED FOR DEPLOYMENT"
  | None => "PENDING RISK ASSESSMENT"
  end.

Section Formatting.

(** How an f-string renders a number. *)
Variable str_of_number : Q -> string.

Definition _create_executive_summary
    (summary : Summary) (risk_assessment : option RiskAssessment) : ExecutiveSummary :=
  let overall := overall_metrics summary in
  let accuracy := accuracy_metrics summary in
  (* Determine overall status *)
  let '(status, status_icon) :=
    if geb (SummaryMetrics.pass_rate overall) 90
       && geb (TestSummaryGenerator.recall accuracy) 90
    then ("EXCELLENT", "✅")
    else if geb (SummaryMetrics.pass_rate overall) 75
            && geb (TestSummaryGenerator.recall accuracy) 75
         then ("GOOD", "⚠️")
         else ("NEEDS IMPROVEMENT", "🔴") in
  (* Create deployment recommendation *)
  let deployment_rec := deployment_rec risk_assessment in
  {| overall_status := status_icon ++ " " ++ status;
     es_deployment_recommendation := deployment_rec;
     key_metrics := {|
       km_pass_rate := str_of_number (SummaryMetrics.pass_rate overall) ++ "%";
       fraud_detection_accuracy :=
         str_of_number (TestSummaryGenerator.recall accuracy) ++ "%";
       km_false_positive_rate :=
         str_of_number (TestSummaryGenerator.false_positive_rate accuracy) ++ "%";
       execution_time := SummaryMetrics.execution_time_formatted overall |};
     critical_issues := SummaryMetrics.critical_count (failure_analysis summary);
     top_insights := firstn 3 (insights summary) |}.

End Formatting.

End TestReportBuilder.

(** ** Reading a verdict off a recommendation text *)

Definition blocks (recommendation : string) : bool :=
  contains "DO NOT DEPLOY" recommendation.

Definition approves (recommendation : string) : bool :=
  contains "APPROVED FOR DEPLOYMENT" recommendation.

(** A compliance test, by its id (lines 141-144 of the analyzer). *)
Definition is_compliance_test (r : TestResult) : bool :=
  contains "Compliance" (test_case_id r) || contains "COMP" (test_case_id r).

(** A result that counts against the system: failed or blocked. *)
Definition is_failed_or_blocked (r : TestResult) : bool :=
  TestStatus_eqb (status r) FAILED || TestStatus_eqb (status r) BLOCKED.

(** ** [HallucinationChecker] ([hallucination_checker.py]) *)

Module HallucinationChecker.

(** The keys of [actual_result] that the checker reads; [None] is an
    absent key. *)
Record Answer : Type := {
  fraud_indicators : option (list string);
  risk_score : option Q;
  fraud_alert_triggered : option bool;
  confidence : option Q
}.

(** A test result as the checker reads it: its id and its answer. *)
Record CheckedResult : Type := {
  cr_test_case_id : string;
  cr_actual_result : Answer
}.

(** The one-character string of a double quote. *)
Definition double_quote : string := String (ascii_of_nat 34) EmptyString.

(** [x in xs] for a list of strings. *)
Definition mem (x : string) (xs : list string) : bool := existsb (String.eqb x) xs.

Definition _load_hallucination_patterns : list string :=
  ["fabricated_transaction_details";
   "incorrect_calculations";
   "invalid_logic";
   "misattributed_factors";
   "contradictory_statements";
   "invented_historical_data";
   "false_pattern_recognition"].

Definition _calculate_severity (hallucinations : list Hallucination) : string :=
  if is_empty hallucinations then "NONE"
  else
    let severities := map h_severity hallucinations in
    if mem "CRITICAL" severities then "CRITICAL"
    else if mem "HIGH" severities then "HIGH"
    else if mem "MEDIUM" severities then "MEDIUM"
    else "LOW".

(** [severity_scores.get(severity, 0.5)] *)
Definition severity_score (severity : string) : Q :=
  if String.eqb severity "CRITICAL" then 0.95
  else if String.eqb severity "HIGH" then 0.85
  else if String.eqb severity "MEDIUM" then 0.70
  else if String.eqb severity "LOW" then 0.60
  else 0.5.

Definition _calculate_confidence (hallucinations : list Hallucination) : py Q :=
  if is_empty hallucinations then ret 0
  else
    avg_confidence <-
      truediv (PyMore.sum (map (fun h => severity_score (h_severity h)) hallucinations))
              (of_int (length hallucinations)) ;;
    ret (round2 avg_confidence).

Section Checker.

(** How an f-string renders a number. *)
Variable str_of_number : Q -> string.

(** The state of the [random] module, [random.random()], and the index
    that [random.choice] draws for a sequence of a given length. *)
Variable G : Type.
Variable random : G -> Q * G.
Variable randbelow : nat -> G -> nat * G.

#[local] Existing Instance Monad_stateT.

(** A computation that draws random numbers and may raise. *)
Definition rnd : Type -> Type := stateT G py.

Definition random_random : rnd Q := mkStateT (fun g => ret (random g)).

(** [random.choice(xs)] on a non-empty list. *)
Definition random_choice (xs : list string) : rnd string :=
  mkStateT (fun g => let '(i, g') := randbelow (length xs) g in
                     ret (nth i xs "", g')).

(** The loop of [_validate_fraud_indicators], lines 117-128. *)
Fixpoint validate_indicators_from (indicators invalid_indicators : list string)
  : rnd (list string) :=
  match indicators with
  | [] => ret invalid_indicators
  | indicator :: rest =>
      invalid_indicators <-
        (if String.eqb indicator "high_value" then
           x <- random_random ;;
           ret (if ltb x 0.10 then append invalid_indicators indicator
                else invalid_indicators)
         else if String.eqb indicator "unusual_time" then
           x <- random_random ;;
           ret (if ltb x 0.08 then append invalid_indicators indicator
                else invalid_indicators)
         else ret invalid_indicators) ;;
      validate_indicators_from rest invalid_indicators
  end.

Definition _validate_fraud_indicators (indicators : list string) (actual_result : Answer)
  : rnd (list string) :=
  validate_indicators_from indicators [].

Definition _validate_risk_score (score : Q) (actual_result : Answer)
  : option Hallucination :=
  (* Check if score is within valid range *)
  if ltb score 0 || gtb score 100 then
    Some {| h_type := "incorrect_calculations";
            h_description := "Risk score " ++ str_of_number score
                             ++ " outside valid range [0-100]";
            h_severity := "CRITICAL";
            h_field := "risk_score" |}
  else
    (* Check for unjustified high scores *)
    let alert_triggered := get (fraud_alert_triggered actual_result) false in
    if gtb score 90 && negb alert_triggered then
      Some {| h_type := "invalid_logic";
              h_description := "Risk score " ++ str_of_number score
                               ++ " very high but no alert triggered - logical inconsistency";
              h_severity := "HIGH";
              h_field := "risk_score" |}
    else if ltb score 30 && alert_triggered then
      Some {| h_type := "invalid_logic";
              h_description := "Risk score " ++ str_of_number score
                               ++ " low but alert triggered - logical inconsistency";
              h_severity := "HIGH";
              h_field := "risk_score" |}
    else None.

Definition _detect_contradictions (actual_result : Answer) : rnd (list Hallucination) :=
  let contradictions : list Hallucination := [] in
  (* Example: Check if fraud indicators contradict each other *)
  let contradictions :=
    match fraud_indicators actual_result with
    | Some indicators =>
        if mem "first_international" indicators
           && mem "high_international_volume" indicators
        then append contradictions
               {| h_type := "contradictory_statements";
                  h_description := "Claims both " ++ double_quote
                                   ++ "first international transfer" ++ double_quote
                                   ++ " and " ++ double_quote
                                   ++ "high international volume" ++ double_quote;
                  h_severity := "HIGH";
                  h_field := "fraud_indicators" |}
        else contradictions
    | None => contradictions
    end in
  (* Simulate additional contradiction detection (3% chance) *)
  x <- random_random ;;
  ret (if ltb x 0.03
       then append contradictions
              {| h_type := "contradictory_statements";
                 h_description := "Detected logical contradiction in fraud reasoning";
                 h_severity := "MEDIUM";
                 h_field := "explanation" |}
       else contradictions).

Definition _validate_confidence (actual_result : Answer) : option Hallucination :=
  let confidence := get (confidence actual_result) 0 in
  let risk_score := get (risk_score actual_result) 0 in
  if gtb risk_score 80 && ltb confidence 0.5 then
    Some {| h_type := "invalid_logic";
            h_description := "High risk score (" ++ str_of_number risk_score
                             ++ ") but low confidence (" ++ str_of_number confidence
                             ++ ") - poor calibration";
            h_severity := "MEDIUM";
            h_field := "confidence" |}
  else if ltb risk_score 30 && gtb confidence 0.9 then
    Some {| h_type := "invalid_logic";
            h_description := "Low risk score (" ++ str_of_number risk_score
                             ++ ") but very high confidence (" ++ str_of_number confidence
                             ++ ") - overconfident";
            h_severity := "MEDIUM";
            h_field := "confidence" |}
  else None.

Definition _detect_hallucinations (test_result : CheckedResult) : rnd (list Hallucination) :=
  let hallucinations : list Hallucination := [] in
  let actual := cr_actual_result test_result in
  (* Check 1: Validate fraud indicators against actual data *)
  hallucinations <-
    match fraud_indicators actual with
    | Some indicators =>
        invalid_indicators <- _validate_fraud_indicators indicators actual ;;
        ret (hallucinations
             ++ map (fun invalid =>
                       {| h_type := "misattributed_factors";
                          h_description := "Fraud indicator '" ++ invalid
                                           ++ "' cited but not present in data";
                          h_severity := "HIGH";
                          h_field := "fraud_indicators" |})
                    invalid_indicators)%list
    | None => ret hallucinations
    end ;;
  (* Check 2: Validate risk score calculation *)
  let hallucinations :=
    match risk_score actual with
    | Some score =>
        match _validate_risk_score score actual with
        | Some score_hallucination => append hallucinations score_hallucination
        | None => hallucinations
        end
    | None => hallucinations
    end in
  (* Check 3: Check for contradictory statements *)
  contradictions <- _detect_contradictions actual ;;
  let hallucinations := (hallucinations ++ contradictions)%list in
  (* Check 4: Validate confidence calibration *)
  let hallucinations :=
    match confidence actual with
    | Some _ =>
        match _validate_confidence actual with
        | Some confidence_issue => append hallucinations confidence_issue
        | None => hallucinations
        end
    | None => hallucinations
    end in
  (* Simulate realistic hallucination detection (5% hallucination rate) *)
  x <- random_random ;;
  if ltb x 0.05 && is_empty hallucinations then
    h_type <- random_choice _load_hallucination_patterns ;;
    h_severity <- random_choice ["LOW"; "MEDIUM"; "HIGH"] ;;
    ret (append hallucinations
           {| h_type := h_type;
              h_description := "Detected potential hallucination in AI reasoning";
              h_severity := h_severity;
              h_field := "explanation" |})
  else ret hallucinations.

(** The loop of [verify_results], lines 39-56. *)
Fixpoint verify_from (test_results : list CheckedResult) (checks : list HallucinationCheck)
  : rnd (list HallucinationCheck) :=
  match test_results with
  | [] => ret checks
  | result :: rest =>
      (* Skip non-fraud detection tests *)
      if contains "Performance" (cr_test_case_id result)
         || contains "Compliance" (cr_test_case_id result)
      then verify_from rest checks
      else
        hallucinations <- _detect_hallucinations result ;;
        checks <-
          (if negb (is_empty hallucinations) then
             let severity := _calculate_severity hallucinations in
             confidence <- mkStateT (fun g => c <- _calculate_confidence hallucinations ;;
                                              ret (c, g)) ;;
             ret (append checks
                    {| hc_test_case_id := cr_test_case_id result;
                       hallucinations_detected := hallucinations;
                       severity := severity;
                       confidence_score := confidence |})
           else ret checks) ;;
        verify_from rest checks
  end.

Definition verify_results (test_results : list CheckedResult)
  : rnd (list HallucinationCheck) :=
  verify_from test_results [].

End Checker.

End HallucinationChecker.

(** A result that [verify_results] does not skip (lines 41-42). *)
Definition is_checked (r : HallucinationChecker.CheckedResult) : bool :=
  negb (contains "Performance" (HallucinationChecker.cr_test_case_id r)
        || contains "Compliance" (HallucinationChecker.cr_test_case_id r)).

(** A check as [verify_results] builds them. *)
Definition well_formed_check (c : HallucinationCheck) : Prop :=
  hallucinations_detected c <> []
  /\ severity c = HallucinationChecker._calculate_severity (hallucinations_detected c)
  /\ severity c <> "NONE"
  /\ 0.5 <= confidence_score c <= 0.95.

(** ** [generate_hallucination_report] ([hallucination_checker.py]) *)

Module HallucinationReport.

(** The report dictionary; the key ['critical_issues'] is absent from the
    report of an empty list of checks. *)
Record Report : Type := {
  total_tests_checked : nat;
  hallucinations_found : nat;
  hallucination_rate : Q;
  by_severity : dict nat;
  by_type : dict nat;
  critical_issues : option nat
}.

(** The loop body of lines 278-284. *)
Definition report_step (acc : dict nat * dict nat) (check : HallucinationCheck)
  : dict nat * dict nat :=
  let '(by_severity, by_type) := acc in
  let by_severity := dict_incr by_severity (severity check) in
  let by_type :=
    fold_left (fun by_type h => dict_incr by_type (h_type h))
              (hallucinations_detected check) by_type in
  (by_severity, by_type).

Definition generate_hallucination_report (checks : list HallucinationCheck) : py Report :=
  let total_checks := length checks in
  if (total_checks =? 0)%nat then
    ret {| total_tests_checked := 0;
           hallucinations_found := 0;
           hallucination_rate := 0;
           by_severity := [];
           by_type := [];
           critical_issues := None |}
  else
    let total_hallucinations :=
      list_sum (map (fun c => length (hallucinations_detected c)) checks) in
    (* Group by severity *)
    let '(by_severity, by_type) := fold_left report_step checks ([], []) in
    per_check <- truediv (of_int total_hallucinations) (of_int total_checks) ;;
    ret {| total_tests_checked := total_checks;
           hallucinations_found := total_hallucinations;
           hallucination_rate := round2 (per_check * 100);
           by_severity := by_severity;
           by_type := by_type;
           critical_issues :=
             Some (count (fun c => String.eqb (severity c) "CRITICAL") checks) |}.

End HallucinationReport.

(** ** [_generate_insights] and [create_summary] ([test_summary_generator.py]) *)

Module SummaryDocument.

Record Summary : Type := {
  timestamp : string;
  overall_metrics : SummaryMetrics.OverallMetrics;
  accuracy_metrics : TestSummaryGenerator.AccuracyMetrics;
  performance_metrics : SummaryMetrics.PerformanceMetrics;
  failure_analysis : SummaryMetrics.FailureAnalysis;
  hallucination_summary : SummaryMetrics.HallucinationSummary;
  insights : list string;
  risk_assessment_summary : option SummaryMetrics.RiskSummary
}.

Section Formatting.

(** How an f-string renders a number, plainly and under [.1f]. *)
Variable str_of_number : Q -> string.
Variable format_1f : Q -> string.

Definition _generate_insights
    (test_results : list TestResult)
    (accuracy_metrics : TestSummaryGenerator.AccuracyMetrics)
    (hallucination_checks : list HallucinationCheck)
    (risk_assessment : option RiskAssessment) : py (list string) :=
  let insights : list string := [] in
  (* Insight 1: Overall health *)
  let pass_rate := TestSummaryGenerator.recall accuracy_metrics in
  let insights :=
    if geb pass_rate 95 then
      append insights ("âœ… Excellent fraud detection accuracy (>95% recall)")
    else if geb pass_rate 85 then
      append insights ("âš ï¸ Good fraud detection accuracy, but room for improvement")
    else
      append insights ("ğŸ”´ Fraud detection accuracy below target (<85% recall)") in
  (* Insight 2: False positive analysis *)
  let fp_rate := TestSummaryGenerator.false_positive_rate accuracy_metrics in
  let insights :=
    if gtb fp_rate 15 then
      append insights ("âš ï¸ High false positive rate (" ++ str_of_number fp_rate ++ "%) may cause customer friction")
    else if gtb fp_rate 10 then
      append insights ("âš ï¸ False positive rate (" ++ str_of_number fp_rate ++ "%) approaching threshold")
    else
      append insights ("âœ… False positive rate (" ++ str_of_number fp_rate ++ "%) within acceptable range") in
  (* Insight 3: False negative analysis *)
  let fn_rate := TestSummaryGenerator.false_negative_rate accuracy_metrics in
  let insights :=
    if gtb fn_rate 10 then
      append insights ("ğŸ”´ CRITICAL: High false negative rate (" ++ str_of_number fn_rate ++ "%) - significant fraud being missed")
    else if gtb fn_rate 5 then
      append insights ("âš ï¸ Elevated false negative rate (" ++ str_of_number fn_rate ++ "%) - some fraud patterns not detected")
    else insights in
  (* Insight 4: Hallucination analysis *)
  insights <-
    (if negb (is_empty hallucination_checks) then
       q <- truediv (of_int (length hallucination_checks))
                    (of_int (length test_results)) ;;
       let hallucination_rate := q * 100 in
       ret (if gtb hallucination_rate 10
            then append insights ("âš ï¸ High hallucination rate (" ++ format_1f hallucination_rate ++ "%) in AI outputs - review model reliability")
            else insights)
     else ret insights) ;;
  (* Insight 5: Performance insights *)
  let perf_failures :=
    count (fun r => contains "Performance" (test_case_id r)
                    && TestStatus_eqb (status r) FAILED) test_results in
  let insights :=
    if (0 <? perf_failures)%nat then
      append insights ("âš ï¸ Performance issues detected in " ++ str_of_int (Z.of_nat perf_failures) ++ " test(s)")
    else insights in
  (* Insight 6: Risk assessment *)
  let insights :=
    match risk_assessment with
    | Some risk_assessment =>
        if RiskLevel_eqb (risk_level risk_assessment) CRITICAL then
          append insights ("ğŸ”´ CRITICAL risk level - immediate action required before deployment")
        else if RiskLevel_eqb (risk_level risk_assessment) HIGH then
          append insights ("âš ï¸ HIGH risk level - careful review and mitigation required")
        else insights
    | None => insights
    end in
  ret insights.

(** [datetime.now().isoformat()] is the argument [now]. *)
Definition create_summary
    (now : string)
    (test_results : list TestResult)
    (hallucination_checks : list HallucinationCheck)
    (risk_assessment : option RiskAssessment) : pyx Summary :=
  (* Calculate overall metrics *)
  overall_metrics <- lift (SummaryMetrics._calculate_overall_metrics format_1f test_results) ;;
  (* Calculate accuracy metrics *)
  accuracy_metrics <- lift (TestSummaryGenerator._calculate_accuracy_metrics test_results) ;;
  (* Calculate performance metrics *)
  performance_metrics <- SummaryMetrics._calculate_performance_metrics test_results ;;
  (* Analyze failures *)
  let failure_analysis := SummaryMetrics._analyze_failures test_results in
  (* Analyze hallucinations *)
  hallucination_summary <-
    lift (SummaryMetrics._summarize_hallucinations hallucination_checks) ;;
  (* Generate insights *)
  insights <- lift (_generate_insights test_results accuracy_metrics
                                       hallucination_checks risk_assessment) ;;
  ret {| timestamp := now;
         overall_metrics := overall_metrics;
         accuracy_metrics := accuracy_metrics;
         performance_metrics := performance_metrics;
         failure_analysis := failure_analysis;
         hallucination_summary := hallucination_summary;
         insights := insights;
         risk_assessment_summary :=
           match risk_assessment with
           | Some risk_assessment =>
               Some (SummaryMetrics._summarize_risk format_1f risk_assessment)
           | None => None
           end |}.

End Formatting.

End SummaryDocument.

(** ** Sample inputs of the checker *)

Module CheckerSamples.

Import HallucinationChecker.

(** A random source that always draws 0.5 and index 0; its state counts
    the draws. *)
Definition draws_half (g : nat) : Q * nat := (0.5, S g).
Definition draws_first (n g : nat) : nat * nat := (0%nat, S g).

(** An answer whose risk score is 150. *)
Definition score_out_of_range : CheckedResult :=
  {| cr_test_case_id := "TC-FRAUD-001";
     cr_actual_result := {| fraud_indicators := None;
                            risk_score := Some 150;
                            fraud_alert_triggered := Some true;
                            confidence := None |} |}.

End CheckerSamples.

(** ** The sections of [TestReportBuilder] ([test_report_builder.py]) *)

Module ReportSections.

(** *** [_create_hallucination_report] *)

Record Example : Type := {
  ex_test_case_id : string;
  ex_type : string;
  ex_description : string;
  ex_severity : string
}.

(** The section dictionary; the key ['by_type'] is absent from the section
    of an empty list of checks. *)
Record HallucinationSection : Type := {
  total_checks : nat;
  issues_found : nat;
  hallucination_rate : Q;
  by_severity : dict nat;
  by_type : option (dict nat);
  examples : list Example
}.

(** The body of the inner loop (lines 257-268). *)
Definition example_step (check : HallucinationCheck)
    (acc : dict nat * list Example) (h : Hallucination) : dict nat * list Example :=
  let '(by_type, examples) := acc in
  let by_type := dict_incr by_type (h_type h) in
  (* Add examples (limit to 5) *)
  let examples :=
    if (length examples <? 5)%nat then
      append examples {| ex_test_case_id := hc_test_case_id check;
                         ex_type := h_type h;
                         ex_description := h_description h;
                         ex_severity := h_severity h |}
    else examples in
  (by_type, examples).

(** The body of the outer loop (lines 253-268). *)
Definition section_step (acc : dict nat * dict nat * list Example)
    (check : HallucinationCheck) : dict nat * dict nat * list Example :=
  let '(by_severity, by_type, examples) := acc in
  let by_severity := dict_incr by_severity (severity check) in
  let '(by_type, examples) :=
    fold_left (example_step check) (hallucinations_detected check)
              (by_type, examples) in
  (by_severity, by_type, examples).

Definition _create_hallucination_report (hallucination_checks : list HallucinationCheck)
  : py HallucinationSection :=
  if is_empty hallucination_checks then
    ret {| total_checks := 0;
           issues_found := 0;
           hallucination_rate := 0;
           by_severity := [];
           by_type := None;
           examples := [] |}
  else
    (* Calculate statistics *)
    let total_hallucinations :=
      list_sum (map (fun c => length (hallucinations_detected c)) hallucination_checks) in
    let '(by_severity, by_type, examples) :=
      fold_left section_step hallucination_checks ([], [], []) in
    per_check <- truediv (of_int total_hallucinations)
                         (of_int (length hallucination_checks)) ;;
    ret {| total_checks := length hallucination_checks;
           issues_found := total_hallucinations;
           hallucination_rate := round2 (per_check * 100);
           by_severity := by_severity;
           by_type := Some by_type;
           examples := examples |}.

(** *** [_create_compliance_section] *)

(** The section dictionary when ['available'] is [True]. *)
Record ComplianceSection : Type := {
  total_tests : nat;
  passed : nat;
  failed : nat;
  compliance_rate : Q;
  violations : list string;
  cs_status : string
}.

(** [None] is [{'available': False}]. *)
Definition _create_compliance_section (test_results : list TestResult)
  : py (option ComplianceSection) :=
  let compliance_tests :=
    filter (fun r => contains "Compliance" (test_case_id r)
                     || contains "COMP" (test_case_id r)) test_results in
  if is_empty compliance_tests then ret None
  else
    let passed := count (fun r => TestStatus_eqb (status r) PASSED) compliance_tests in
    let failed := count (fun r => TestStatus_eqb (status r) FAILED) compliance_tests in
    let violations :=
      fold_left (fun violations result =>
                   if TestStatus_eqb (status result) FAILED
                   then violations ++ errors result
                   else violations)%list
                compliance_tests [] in
    share <- truediv (of_int passed) (of_int (length compliance_tests)) ;;
    ret (Some {| total_tests := length compliance_tests;
                 passed := passed;
                 failed := failed;
                 compliance_rate := round2 (share * 100);
                 violations := violations;
                 cs_status := if (failed =? 0)%nat then "✅ COMPLIANT"
                              else "🔴 VIOLATIONS DETECTED" |}).

(** *** [_create_appendix], [_categorize_tests], [_create_timeline] *)

(** [status.value] *)
Definition status_value (s : TestStatus) : string :=
  match s with
  | PASSED => "PASSED"
  | FAILED => "FAILED"
  | BLOCKED => "BLOCKED"
  | SKIPPED => "SKIPPED"
  end.

Definition _categorize_tests (test_cases : list TestCase) : dict nat :=
  fold_left (fun categories tc => dict_incr categories (category tc)) test_cases [].

Record TimelineEntry : Type := {
  test_id : string;
  tl_timestamp : string;
  duration_ms : Q;
  tl_status : string
}.

Definition _create_timeline (test_results : list TestResult) : list TimelineEntry :=
  fold_left (fun timeline result =>
               append timeline {| test_id := test_case_id result;
                                  tl_timestamp := timestamp result;
                                  duration_ms := execution_time_ms result;
                                  tl_status := status_value (status result) |})
            (firstn 10 test_results) (* First 10 for brevity *)
            [].

Record Appendix : Type := {
  total_test_cases : nat;
  total_test_results : nat;
  test_categories : dict nat;
  execution_timeline : list TimelineEntry
}.

Definition _create_appendix (test_cases : list TestCase) (test_results : list TestResult)
  : Appendix :=
  {| total_test_cases := length test_cases;
     total_test_results := length test_results;
     test_categories := _categorize_tests test_cases;
     execution_timeline := _create_timeline test_results |}.

(** *** [_create_fraud_pattern_analysis] *)

Record PatternStats : Type := {
  total : nat;
  detected : nat;
  missed : nat
}.

Record PatternAnalysis : Type := {
  pa_test_cases : nat;
  pa_detected : nat;
  pa_missed : nat;
  detection_rate : Q;
  pa_status : string
}.

(** [key in d] *)
Definition dict_mem {V : Type} (d : dict V) (key : string) : bool :=
  existsb (fun kv => String.eqb (fst kv) key) d.

(** The body of the loop over the patterns of one test case (lines 168-181). *)
Definition pattern_step (result : TestResult)
    (pattern_stats : dict PatternStats) (pattern : string) : dict PatternStats :=
  let fresh := {| total := 0; detected := 0; missed := 0 |} in
  let pattern_stats :=
    if negb (dict_mem pattern_stats pattern)
    then dict_set pattern_stats pattern fresh
    else pattern_stats in
  let stats := dict_get pattern_stats pattern fresh in
  let stats := {| total := total stats + 1;
                  detected := detected stats;
                  missed := missed stats |} in
  let stats :=
    if TestStatus_eqb (status result) PASSED
    then {| total := total stats; detected := detected stats + 1; missed := missed stats |}
    else {| total := total stats; detected := detected stats; missed := missed stats + 1 |} in
  dict_set pattern_stats pattern stats.

(** The first loop (lines 159-181): test case [i] is read with result [i],
    and is passed over when there is no such result or when it tests no
    pattern. *)
Fixpoint group_by_pattern (test_cases : list TestCase) (i : nat)
    (test_results : list TestResult) (pattern_stats : dict PatternStats)
  : dict PatternStats :=
  match test_cases with
  | [] => pattern_stats
  | test_case :: rest =>
      let pattern_stats :=
        match nth_error test_results i with
        | None => pattern_stats
        | Some result =>
            (* Skip non-fraud tests *)
            if is_empty (fraud_patterns_tested test_case) then pattern_stats
            else fold_left (pattern_step result) (fraud_patterns_tested test_case)
                           pattern_stats
        end in
      group_by_pattern rest (S i) test_results pattern_stats
  end.

(** The second loop (lines 184-195), for one entry. *)
Definition analyse_pattern (stats : PatternStats) : py PatternAnalysis :=
  detection_rate <-
    (if (0 <? total stats)%nat
     then q <- truediv (of_int (detected stats)) (of_int (total stats)) ;;
          ret (q * 100)
     else ret 0) ;;
  ret {| pa_test_cases := total stats;
         pa_detected := detected stats;
         pa_missed := missed stats;
         detection_rate := round2 detection_rate;
         pa_status := if geb detection_rate 90 then "✅"
                      else if geb detection_rate 75 then "⚠️"
                      else "🔴" |}.

Fixpoint analyse_patterns (entries : dict PatternStats) : py (dict PatternAnalysis) :=
  match entries with
  | [] => ret []
  | (pattern, stats) :: rest =>
      analysis <- analyse_pattern stats ;;
      pattern_analysis <- analyse_patterns rest ;;
      ret ((pattern, analysis) :: pattern_analysis)
  end.

Definition _create_fraud_pattern_analysis
    (test_cases : list TestCase) (test_results : list TestResult)
  : py (dict PatternAnalysis) :=
  (* Group by fraud pattern *)
  let pattern_stats := group_by_pattern test_cases 0 test_results [] in
  (* Calculate detection rates *)
  analyse_patterns pattern_stats.

End ReportSections.

(** ** The simulated runs of [TestExecutionEngine] ([test_execution_engine.py]) *)

Module Simulation.

(** The dictionary returned by [_simulate_performance_test]. *)
Record PerformanceAnswer : Type := {
  perf_avg_response_time_ms : Q;
  perf_p95_response_time_ms : Q;
  perf_p99_response_time_ms : Q;
  perf_max_response_time_ms : Q;
  perf_transactions_processed : nat;
  perf_errors : nat;
  perf_timeouts : nat
}.

(** The dictionary returned by [_simulate_compliance_test]. *)
Record ComplianceAnswer : Type := {
  comp_compliance_met : bool;
  comp_compliance_standard : string;
  comp_audit_trail_complete : bool;
  comp_data_encrypted : bool;
  comp_violations : list string;
  comp_last_audit_date : string;
  comp_compliance_score : Z
}.

(** The dictionary returned by [_simulate_fraud_test]; [None] is an absent
    key. *)
Record FraudAnswer : Type := {
  fr_fraud_alert_triggered : bool;
  fr_risk_score : Q;
  fr_alert_priority : string;
  fr_timestamp : string;
  fr_model_version : string;
  fr_processing_time_ms : Q;
  fr_fraud_indicators : option (list string);
  fr_action : option string;
  fr_confidence : option Q;
  fr_warnings : option (list string)
}.

(** The answer of [_simulate_fraud_detection]: one of the three. *)
Inductive Answer : Type :=
| PerformanceRun (a : PerformanceAnswer)
| ComplianceRun (a : ComplianceAnswer)
| FraudRun (a : FraudAnswer).

(** The keys of [test_case.test_data] that only the simulation reads. *)
Record SimulationData : Type := {
  transaction_count : option nat;
  compliance_standard : option string
}.

(** The answer as the validator reads it: its keys by name. *)
Definition as_actual_result (answer : Answer) : ActualResult :=
  match answer with
  | PerformanceRun a =>
      {| act_fraud_alert_triggered := None;
         act_risk_score := None;
         act_max_response_time_ms := Some (perf_max_response_time_ms a);
         act_compliance_met := None;
         act_violations := None |}
  | ComplianceRun a =>
      {| act_fraud_alert_triggered := None;
         act_risk_score := None;
         act_max_response_time_ms := None;
         act_compliance_met := Some (comp_compliance_met a);
         act_violations := Some (comp_violations a) |}
  | FraudRun a =>
      {| act_fraud_alert_triggered := Some (fr_fraud_alert_triggered a);
         act_risk_score := Some (fr_risk_score a);
         act_max_response_time_ms := None;
         act_compliance_met := None;
         act_violations := None |}
  end.

(** [max(a, b)]: the first argument unless the second is strictly larger. *)
Definition max (a b : Q) : Q := if gtb b a then b else a.

Definition possible_violations : list string :=
  ["Missing encryption on PII fields";
   "Incomplete audit log for transaction XYZ";
   "Data retention policy not enforced";
   "Access control misconfiguration"].

Section World.

(** The world outside the engine: the state [G] of the random generator
    and of the clock, read by the library calls below. *)
Variable G : Type.
(** [random.random()], [random.uniform(a, b)], [random.randint(a, b)],
    [random.sample(population, k)] *)
Variable random : G -> Q * G.
Variable uniform : Q -> Q -> G -> Q * G.
Variable randint : Z -> Z -> G -> Z * G.
Variable sample : list string -> Z -> G -> list string * G.
(** [time.time()], [datetime.now().isoformat()], [time.sleep(s)] *)
Variable time : G -> Q * G.
Variable now : G -> string * G.
Variable sleep : Q -> G -> G.

(** How an f-string renders a number and a list of strings. *)
Variable str_of_number : Q -> string.
Variable str_of_list : list string -> string.

Definition world : Type -> Type := state G.

Definition _simulate_fraud_test (test_case : TestCase) (expected : ExpectedResult)
  : world FraudAnswer :=
  (* Determine if this should be a true positive, false positive, etc. *)
  let expected_alert := get (exp_fraud_alert_triggered expected) false in
  let expected_score := get (exp_risk_score expected) 50 in
  (* Introduce some realistic variance and occasional errors *)
  variance <- mkState (uniform (-10) 10) ;;
  let actual_score := max 0 (min 100 (expected_score + variance)) in
  (* 95% accuracy rate - occasionally misclassify *)
  draw <- mkState random ;;
  let correct_classification := ltb draw 0.95 in
  let actual_alert :=
    if correct_classification then expected_alert
    else negb expected_alert in
  (* Build result *)
  timestamp <- mkState now ;;
  processing_time_ms <- mkState (uniform 100 4000) ;;
  let result :=
    {| fr_fraud_alert_triggered := actual_alert;
       fr_risk_score := round2 actual_score;
       fr_alert_priority := get (exp_alert_priority expected) "MEDIUM";
       fr_timestamp := timestamp;
       fr_model_version := "2.5.0";
       fr_processing_time_ms := processing_time_ms;
       fr_fraud_indicators := None;
       fr_action := None;
       fr_confidence := None;
       fr_warnings := None |} in
  (* Add fraud-specific indicators *)
  result <-
    (if actual_alert then
       confidence <- mkState (uniform 0.75 0.99) ;;
       ret {| fr_fraud_alert_triggered := fr_fraud_alert_triggered result;
              fr_risk_score := fr_risk_score result;
              fr_alert_priority := fr_alert_priority result;
              fr_timestamp := fr_timestamp result;
              fr_model_version := fr_model_version result;
              fr_processing_time_ms := fr_processing_time_ms result;
              fr_fraud_indicators := Some (fraud_patterns_tested test_case);
              fr_action := Some (get (exp_action expected) "review");
              fr_confidence := Some confidence;
              fr_warnings := fr_warnings result |}
     else ret result) ;;
  (* Simulate some edge cases and errors *)
  result <-
    (if contains "EDGE" (tc_test_case_id test_case) then
       (* Edge cases might have borderline scores *)
       risk_score <- mkState (uniform 45 55) ;;
       confidence <- mkState (uniform 0.50 0.70) ;;
       ret {| fr_fraud_alert_triggered := fr_fraud_alert_triggered result;
              fr_risk_score := risk_score;
              fr_alert_priority := fr_alert_priority result;
              fr_timestamp := fr_timestamp result;
              fr_model_version := fr_model_version result;
              fr_processing_time_ms := fr_processing_time_ms result;
              fr_fraud_indicators := fr_fraud_indicators result;
              fr_action := fr_action result;
              fr_confidence := Some confidence;
              fr_warnings := fr_warnings result |}
     else ret result) ;;
  draw <- mkState random ;;
  ret (if ltb draw 0.05 (* 5% chance of system issues *) then
         {| fr_fraud_alert_triggered := fr_fraud_alert_triggered result;
            fr_risk_score := fr_risk_score result;
            fr_alert_priority := fr_alert_priority result;
            fr_timestamp := fr_timestamp result;
            fr_model_version := fr_model_version result;
            fr_processing_time_ms := fr_processing_time_ms result;
            fr_fraud_indicators := fr_fraud_indicators result;
            fr_action := fr_action result;
            fr_confidence := fr_confidence result;
            fr_warnings := Some ["High system load detected";
                                 "Using cached risk model"] |}
       else result).

Definition _simulate_performance_test (test_case : TestCase) (data : SimulationData)
  : world PerformanceAnswer :=
  let max_response := get (max_allowed_response_time_ms (test_data test_case)) 5000 in
  (* Simulate response time distribution *)
  avg_response <- mkState (uniform (max_response * 0.4) (max_response * 0.7)) ;;
  p95_response <- mkState (uniform (max_response * 0.7) (max_response * 0.9)) ;;
  p99_response <- mkState (uniform (max_response * 0.85) (max_response * 1.0)) ;;
  (* Occasionally exceed limits (10% chance) *)
  draw <- mkState random ;;
  p99_response <-
    (if ltb draw 0.10 then
       factor <- mkState (uniform 1.05 1.2) ;;
       ret (max_response * factor)
     else ret p99_response) ;;
  ret {| perf_avg_response_time_ms := round2 avg_response;
         perf_p95_response_time_ms := round2 p95_response;
         perf_p99_response_time_ms := round2 p99_response;
         perf_max_response_time_ms := round2 (max p99_response (avg_response * 1.5));
         perf_transactions_processed := get (transaction_count data) 100%nat;
         perf_errors := 0;
         perf_timeouts := if gtb p99_response (max_response * 1.2) then 1 else 0 |}.

Definition _simulate_compliance_test (test_case : TestCase) (data : SimulationData)
  : world ComplianceAnswer :=
  let compliance_standard := get (compliance_standard data) "UNKNOWN" in
  (* 90% pass rate for compliance *)
  draw <- mkState random ;;
  let compliance_met := ltb draw 0.90 in
  violations <-
    (if negb compliance_met then
       (* Simulate compliance violations *)
       k <- mkState (randint 1 2) ;;
       mkState (sample possible_violations k)
     else ret []) ;;
  data_encrypted <-
    (if compliance_met then ret true
     else draw <- mkState random ;; ret (ltb draw 0.95)) ;;
  last_audit_date <- mkState now ;;
  compliance_score <-
    (if compliance_met then ret 100%Z else mkState (randint 60 85)) ;;
  ret {| comp_compliance_met := compliance_met;
         comp_compliance_standard := compliance_standard;
         comp_audit_trail_complete := compliance_met;
         comp_data_encrypted := data_encrypted;
         comp_violations := violations;
         comp_last_audit_date := last_audit_date;
         comp_compliance_score := compliance_score |}.

Definition _simulate_fraud_detection (test_case : TestCase) (data : SimulationData)
  : world Answer :=
  let expected := expected_result test_case in
  (* Simulate realistic behavior with some variance *)
  if contains "Performance" (category test_case) then
    a <- _simulate_performance_test test_case data ;; ret (PerformanceRun a)
  else if contains "Compliance" (category test_case) then
    a <- _simulate_compliance_test test_case data ;; ret (ComplianceRun a)
  else
    a <- _simulate_fraud_test test_case expected ;; ret (FraudRun a).

(** A test case as the engine meets it.  A [TestCase] has fields of the
    types its dataclass declares, and on such a case no step of the [try]
    raises.  A case from the generator may carry a field of another type (a
    null category, a text where a number is expected), and on it the body
    of the [try] raises: of such a case only the id and what the body does
    are kept, the text of its exception and the world as it leaves it. *)
Inductive SuiteCase : Type :=
| WellTyped (test_case : TestCase) (data : SimulationData)
| IllTyped (test_case_id : string) (body_raises : G -> string * G).

Definition case_id (case : SuiteCase) : string :=
  match case with
  | WellTyped test_case _ => tc_test_case_id test_case
  | IllTyped test_case_id _ => test_case_id
  end.

(** The two draws of ['performance_metrics'], a field that [TestResult]
    does not keep, are made. *)
Definition _execute_single_test (case : SuiteCase) : world TestResult :=
  start_time <- mkState time ;;
  match case with
  | WellTyped test_case data =>
      (* Simulate fraud detection system call *)
      actual_result <- _simulate_fraud_detection test_case data ;;
      (* Validate results *)
      let validation_result :=
        TestExecutionEngine._validate_result str_of_number str_of_list test_case
                                             (as_actual_result actual_result) in
      end_time <- mkState time ;;
      let execution_time_ms := (end_time - start_time) * 1000 in
      timestamp <- mkState now ;;
      cpu_usage <- mkState (uniform 10 60) ;;
      memory_mb <- mkState (uniform 100 500) ;;
      ret {| test_case_id := tc_test_case_id test_case;
             status := TestExecutionEngine.v_status validation_result;
             actual_result := as_actual_result actual_result;
             execution_time_ms := execution_time_ms;
             timestamp := timestamp;
             errors := TestExecutionEngine.v_errors validation_result;
             warnings := TestExecutionEngine.v_warnings validation_result |}
  | IllTyped test_case_id body_raises =>
      (* except Exception as e *)
      e <- mkState body_raises ;;
      end_time <- mkState time ;;
      let execution_time_ms := (end_time - start_time) * 1000 in
      timestamp <- mkState now ;;
      ret {| test_case_id := test_case_id;
             status := BLOCKED;
             actual_result := {| act_fraud_alert_triggered := None;
                                 act_risk_score := None;
                                 act_max_response_time_ms := None;
                                 act_compliance_met := None;
                                 act_violations := None |};
             execution_time_ms := execution_time_ms;
             timestamp := timestamp;
             errors := ["Test execution failed: " ++ e];
             warnings := [] |}
  end.

(** The loop of [execute_test_suite], from the results so far. *)
Fixpoint execute_from (test_cases : list SuiteCase)
    (results : list TestResult) : world (list TestResult) :=
  match test_cases with
  | [] => ret results
  | test_case :: rest =>
      result <- _execute_single_test test_case ;;
      let results := append results result in
      (* Small delay to simulate realistic execution *)
      _ <- mkState (fun g => (tt, sleep 0.1 g)) ;;
      execute_from rest results
  end.

Definition execute_test_suite (test_cases : list SuiteCase)
  : world (list TestResult) :=
  execute_from test_cases [].

End World.

End Simulation.

(** ** A sample world *)

Module WorldSamples.

(** A world in which every draw of [uniform] is its lower bound, every
    draw of [random] is 0.5, and the clock advances by a second per
    reading; the state counts the readings. *)
Definition steady_random (g : nat) : Q * nat := (0.5, S g).
Definition steady_uniform (a b : Q) (g : nat) : Q * nat := (a, S g).
Definition steady_randint (a b : Z) (g : nat) : Z * nat := (a, S g).
Definition steady_sample (population : list string) (k : Z) (g : nat)
  : list string * nat := (firstn (Z.to_nat k) population, S g).
Definition steady_time (g : nat) : Q * nat := (inject_Z (Z.of_nat g), S g).
Definition steady_now (g : nat) : string * nat := ("2024-01-01T00:00:00", S g).
Definition steady_sleep (seconds : Q) (g : nat) : nat := g.


Definition fraud_case : TestCase :=
  {| tc_test_case_id := "TC-FRAUD-001";
     category := "Card Fraud";
     priority := "CRITICAL";
     description := "Stolen card used abroad";
     preconditions := [];
     test_data := {| max_allowed_response_time_ms := None |};
     expected_result := {| exp_fraud_alert_triggered := Some true;
                           exp_risk_score := Some 85;
                           exp_alert_priority := Some "HIGH";
                           exp_action := Some "block" |};
     fraud_patterns_tested := ["card_not_present"];
     validation_points := [] |}.


End WorldSamples.

(** * Properties *)

(** ** Facts about the Python primitives *)

Section PyFacts.

Lemma ltb_true (a b : Q) : ltb a b = true <-> a < b.
Proof.
  unfold ltb. rewrite negb_true_iff, <- not_true_iff_false, Qle_bool_iff.
  split; [apply Qnot_le_lt | apply Qlt_not_le].
Qed.

Lemma ltb_false (a b : Q) : ltb a b = false <-> b <= a.
Proof. unfold ltb. rewrite negb_false_iff. apply Qle_bool_iff. Qed.

Lemma geb_true (a b : Q) : geb a b = true <-> b <= a.
Proof. apply Qle_bool_iff. Qed.

Lemma geb_false (a b : Q) : geb a b = false <-> a < b.
Proof.
  unfold geb. rewrite <- not_true_iff_false, Qle_bool_iff.
  split; [apply Qnot_le_lt | apply Qlt_not_le].
Qed.

Lemma gtb_true (a b : Q) : gtb a b = true <-> b < a.
Proof. apply ltb_true. Qed.

Lemma gtb_false (a b : Q) : gtb a b = false <-> a <= b.
Proof. apply ltb_false. Qed.

Lemma min_le_l (a b : Q) : min a b <= a.
Proof.
  unfold min. destruct (ltb b a) eqn:E.
  - apply ltb_true in E. lra.
  - lra.
Qed.

Lemma min_glb (a b c : Q) : c <= a -> c <= b -> c <= min a b.
Proof. unfold min. destruct (ltb b a); auto. Qed.

Lemma of_int_nonneg (n : nat) : 0 <= of_int n.
Proof.
  unfold of_int. change 0 with (inject_Z 0). rewrite <- Zle_Qle. lia.
Qed.

Lemma of_int_le (n m : nat) : (n <= m)%nat -> of_int n <= of_int m.
Proof. intros H. unfold of_int. rewrite <- Zle_Qle. lia. Qed.

Lemma of_int_pos (n : nat) : (0 < n)%nat -> 0 < of_int n.
Proof.
  intros H. unfold of_int. change 0 with (inject_Z 0). rewrite <- Zlt_Qlt. lia.
Qed.

Lemma of_int_zero (n : nat) : n = 0%nat -> of_int n == 0.
Proof. intros ->. reflexivity. Qed.

(** A returned value is passed on to the rest of the computation. *)
Lemma bind_returns {A B : Type} (x : A) (k : A -> py B) :
  bind (inr x : py A) k = k x.
Proof. reflexivity. Qed.

(** Division returns as soon as the divisor is not zero. *)
Lemma truediv_returns (a b : Q) : ~ b == 0 -> truediv a b = inr (a / b).
Proof.
  intros H. unfold truediv.
  destruct (Qeq_bool b 0) eqn:E; [| reflexivity].
  apply Qeq_bool_iff in E. contradiction.
Qed.

(** Division by zero raises. *)
Lemma truediv_raises (a b : Q) : b == 0 -> truediv a b = inl ZeroDivisionError.
Proof.
  intros H. unfold truediv. apply Qeq_bool_iff in H. rewrite H. reflexivity.
Qed.

Lemma truediv_count (k n : nat) :
  (0 < n)%nat -> truediv (of_int k) (of_int n) = inr (of_int k / of_int n).
Proof.
  intros H. apply truediv_returns. apply of_int_pos in H. lra.
Qed.

(** A proportion [k / n] with [k <= n] lies in the unit interval. *)
Lemma proportion_bounds (k n : nat) :
  (k <= n)%nat -> (0 < n)%nat -> 0 <= of_int k / of_int n <= 1.
Proof.
  intros Hk Hn.
  pose proof (of_int_nonneg k) as H0.
  pose proof (of_int_le _ _ Hk) as H1.
  pose proof (of_int_pos _ Hn) as H2.
  split.
  - apply Qle_shift_div_l; [assumption | lra].
  - apply Qle_shift_div_r; [assumption | lra].
Qed.

Lemma count_le_length {A : Type} (p : A -> bool) (xs : list A) :
  (count p xs <= length xs)%nat.
Proof. unfold count. apply filter_length_le. Qed.

Lemma is_empty_false_length {A : Type} (xs : list A) :
  is_empty xs = false -> (0 < length xs)%nat.
Proof. destruct xs; simpl; [discriminate | lia]. Qed.

(** *** Substring test *)

Lemma prefix_spec (n h : string) :
  String.prefix n h = true <-> exists b, h = n ++ b.
Proof.
  revert h. induction n as [| c n IH]; intros h.
  - destruct h; simpl; (split; [intros _; eexists; reflexivity | reflexivity]).
  - destruct h as [| d h]; simpl.
    + split; [discriminate | intros [b H]; discriminate].
    + destruct (ascii_dec c d) as [-> | N].
      * rewrite IH. split; intros [b H]; exists b.
        -- rewrite H. reflexivity.
        -- injection H as H. exact H.
      * split; [discriminate |].
        intros [b H]. injection H as Hc _. congruence.
Qed.

(** [contains] is the substring relation. *)
Lemma contains_spec (n h : string) :
  contains n h = true <-> exists a b, h = a ++ n ++ b.
Proof.
  induction h as [| d h IH]; cbn [contains].
  - destruct (String.prefix n "") eqn:E.
    + apply prefix_spec in E as [b E].
      split; [intros _; exists "", b; exact E | reflexivity].
    + split; [discriminate |].
      intros (a & b & H). destruct a; simpl in H; [| discriminate].
      assert (P : String.prefix n "" = true) by (apply prefix_spec; exists b; exact H).
      congruence.
  - destruct (String.prefix n (String d h)) eqn:E.
    + apply prefix_spec in E as [b E].
      split; [intros _; exists "", b; exact E | reflexivity].
    + rewrite IH. split.
      * intros (a & b & H). exists (String d a), b. simpl. rewrite H. reflexivity.
      * intros (a & b & H). destruct a as [| c a]; simpl in H.
        -- assert (P : String.prefix n (String d h) = true)
             by (apply prefix_spec; exists b; exact H).
           congruence.
        -- injection H as _ H. exists a, b. exact H.
Qed.

Example contains_neg_marker : contains "neg" (lower "TC-NEG-001") = true.
Proof. reflexivity. Qed.

Example contains_is_case_sensitive : contains "PERF" "tc-perf-001" = false.
Proof. reflexivity. Qed.

Example join_errors : join " " ["FALSE"; "NEGATIVE: x"] = "FALSE NEGATIVE: x".
Proof. reflexivity. Qed.

(** *** Rounding *)

Lemma round2_unfold (x : Q) :
  round2 x == inject_Z (round_half_even (x * 100)) * (1 # 100).
Proof. reflexivity. Qed.

Lemma round_half_even_cases (x : Q) :
  round_half_even x = Qfloor x \/ round_half_even x = (Qfloor x + 1)%Z.
Proof.
  unfold round_half_even.
  destruct (Qcompare _ _); [destruct (Z.even _) | |]; auto.
Qed.

(** The rounded integer is within one half of the argument. *)
Lemma round_half_even_close (x : Q) :
  x - (1 # 2) <= inject_Z (round_half_even x) <= x + (1 # 2).
Proof.
  pose proof (Qfloor_le x) as Hlo.
  pose proof (Qlt_floor x) as Hhi.
  rewrite inject_Z_plus in Hhi. change (inject_Z 1) with 1 in Hhi.
  unfold round_half_even.
  destruct (Qcompare (x - inject_Z (Qfloor x)) (1 # 2)) eqn:E.
  - apply Qeq_alt in E.
    destruct (Z.even (Qfloor x));
      [| rewrite inject_Z_plus; change (inject_Z 1) with 1]; lra.
  - apply Qlt_alt in E. lra.
  - apply Qgt_alt in E. rewrite inject_Z_plus. change (inject_Z 1) with 1. lra.
Qed.

Lemma round_half_even_mono (x y : Q) :
  x <= y -> (round_half_even x <= round_half_even y)%Z.
Proof.
  intros Hxy.
  pose proof (Qfloor_resp_le _ _ Hxy) as Hf.
  destruct (Z.eq_dec (Qfloor x) (Qfloor y)) as [Heq | Hne].
  - unfold round_half_even. rewrite <- Heq.
    destruct (Qcompare (x - inject_Z (Qfloor x)) (1 # 2)) eqn:Ex;
      destruct (Qcompare (y - inject_Z (Qfloor x)) (1 # 2)) eqn:Ey;
      try (destruct (Z.even (Qfloor x))); try lia;
      repeat match goal with
             | H : Qcompare _ _ = Eq |- _ => apply Qeq_alt in H
             | H : Qcompare _ _ = Lt |- _ => apply Qlt_alt in H
             | H : Qcompare _ _ = Gt |- _ => apply Qgt_alt in H
             end; lra.
  - destruct (round_half_even_cases x) as [-> | ->];
      destruct (round_half_even_cases y) as [-> | ->]; lia.
Qed.

Lemma round2_mono (x y : Q) : x <= y -> round2 x <= round2 y.
Proof.
  intros H. rewrite !round2_unfold.
  assert (Hm : x * 100 <= y * 100) by lra.
  apply round_half_even_mono in Hm.
  rewrite Zle_Qle in Hm. lra.
Qed.

Lemma round2_compat (x y : Q) : x == y -> round2 x == round2 y.
Proof.
  intros H. apply Qle_antisym; apply round2_mono; lra.
Qed.

(** [round(x, 2)] moves [x] by at most half a hundredth. *)
Lemma round2_close (x : Q) : x - (1 # 200) <= round2 x <= x + (1 # 200).
Proof.
  pose proof (round_half_even_close (x * 100)) as H.
  rewrite round2_unfold. lra.
Qed.

Lemma round2_within (x : Q) : Qabs (round2 x - x) <= 1 # 100.
Proof.
  pose proof (round2_close x) as H. apply Qabs_Qle_condition. lra.
Qed.

Example round2_ties_to_even :
  round2 (4375 # 1000) == 4.38 /\ round2 (4365 # 1000) == 4.36
  /\ round2 (46667 # 10000) == 4.67.
Proof. repeat split; reflexivity. Qed.

Lemma round2_nonneg (x : Q) : 0 <= x -> 0 <= round2 x.
Proof.
  intros H. apply (round2_mono 0 x) in H.
  assert (E : round2 0 == 0) by reflexivity. lra.
Qed.

End PyFacts.

(** Proof steps shared by the sections below: running the error monad, and
    case analysis on the comparisons of a threshold chain. *)

Ltac py_simpl :=
  cbn [bind ret raise Monad_py Exception_py Monad_either Exception_either] in *.

Ltac split_ltb :=
  repeat match goal with
         | |- context [ltb ?a ?b] =>
             let E := fresh "E" in
             destruct (ltb a b) eqn:E;
             [apply ltb_true in E | apply ltb_false in E]
         end.

Ltac split_geb :=
  repeat match goal with
         | |- context [geb ?a ?b] =>
             let E := fresh "E" in
             destruct (geb a b) eqn:E;
             [apply geb_true in E | apply geb_false in E]
         end.

(** ** The risk analyzer *)

Section RiskAnalyzerFacts.

Import FraudRiskAnalyzer.

Lemma detection_risk_curve_nonneg (r : Q) : 0 <= r -> 0 <= detection_risk_curve r.
Proof. intros H. unfold detection_risk_curve. split_ltb; lra. Qed.

Lemma false_positive_risk_curve_nonneg (r : Q) :
  0 <= r -> 0 <= false_positive_risk_curve r.
Proof. intros H. unfold false_positive_risk_curve. split_ltb; lra. Qed.

Lemma system_risk_curve_nonneg (r : Q) : 0 <= r -> 0 <= system_risk_curve r.
Proof. intros H. unfold system_risk_curve. split_ltb; lra. Qed.

(** Detection risk always returns, and its score is capped. *)
Lemma detection_risk_returns (l : list TestResult) :
  exists d, _calculate_detection_risk l = inr d /\ 0 <= d <= 100.
Proof.
  unfold _calculate_detection_risk.
  destruct (is_empty (fraud_tests l)) eqn:E.
  - exists 0. split; [reflexivity | lra].
  - pose proof (is_empty_false_length _ E) as Hn.
    cbn [negb]. rewrite truediv_count by exact Hn. py_simpl.
    eexists. split; [reflexivity |].
    split; [| apply min_le_l].
    apply min_glb; [lra |].
    apply detection_risk_curve_nonneg.
    apply proportion_bounds; [apply count_le_length | exact Hn].
Qed.

(** False-positive risk always returns, and its score is capped. *)
Lemma false_positive_risk_returns (l : list TestResult) :
  exists f, _calculate_false_positive_risk l = inr f /\ 0 <= f <= 100.
Proof.
  unfold _calculate_false_positive_risk.
  destruct (is_empty (negative_tests l)) eqn:E.
  - exists 0. split; [reflexivity | lra].
  - pose proof (is_empty_false_length _ E) as Hn.
    cbn [negb]. rewrite truediv_count by exact Hn. py_simpl.
    eexists. split; [reflexivity |].
    split; [| apply min_le_l].
    apply min_glb; [lra |].
    apply false_positive_risk_curve_nonneg.
    apply proportion_bounds; [apply count_le_length | exact Hn].
Qed.

(** Compliance risk is one of the four steps. *)
Lemma compliance_risk_bounds (l : list TestResult) :
  0 <= _calculate_compliance_risk l <= 100.
Proof.
  unfold _calculate_compliance_risk.
  destruct (is_empty _); [lra |].
  destruct (count _ _) as [| [| [| k]]]; lra.
Qed.

(** System risk always returns a non-negative score; no cap applies. *)
Lemma system_risk_returns (l : list TestResult) :
  exists y, _calculate_system_risk l = inr y /\ 0 <= y.
Proof.
  unfold _calculate_system_risk.
  destruct (is_empty (filter _ l)) eqn:E.
  - exists 0. split; [reflexivity | lra].
  - assert (Hn : (0 < length l)%nat).
    { destruct l; [discriminate E | simpl; lia]. }
    replace (length l =? 0)%nat with false
      by (symmetry; apply Nat.eqb_neq; lia).
    cbn [negb]. rewrite truediv_count by exact Hn. py_simpl.
    eexists. split; [reflexivity |].
    apply system_risk_curve_nonneg.
    apply Qle_shift_div_l; [apply of_int_pos; exact Hn |].
    pose proof (of_int_nonneg
                  (count (fun r => TestStatus_eqb (status r) FAILED)
                         (filter (fun r => contains "Performance" (test_case_id r)
                                           || contains "PERF" (test_case_id r)) l)
                   + count (fun r => TestStatus_eqb (status r) BLOCKED) l)).
    lra.
Qed.

(** The pass-rate ratio of the recommendations is taken without a guard. *)
Lemma generate_recommendations_returns (d f c y : Q) (l : list TestResult) :
  l <> [] -> exists recs, _generate_recommendations d f c y l = inr recs.
Proof.
  intros Hl. unfold _generate_recommendations.
  rewrite truediv_count by (destruct l; [contradiction | simpl; lia]).
  py_simpl. eexists. reflexivity.
Qed.

Lemma generate_recommendations_empty (d f c y : Q) :
  _generate_recommendations d f c y [] = inl ZeroDivisionError.
Proof. reflexivity. Qed.

(** What [calculate_risk] stores when it returns. *)
Lemma calculate_risk_inv (l : list TestResult) (a : RiskAssessment) :
  calculate_risk l = inr a ->
  exists d f y recs,
    _calculate_detection_risk l = inr d
    /\ _calculate_false_positive_risk l = inr f
    /\ _calculate_system_risk l = inr y
    /\ _generate_recommendations d f (_calculate_compliance_risk l) y l = inr recs
    /\ a = {| overall_risk_score :=
                round2 (weighted_risk_score d f (_calculate_compliance_risk l) y);
              risk_level :=
                _categorize_risk (weighted_risk_score d f (_calculate_compliance_risk l) y);
              detection_risk := round2 d;
              false_positive_risk := round2 f;
              compliance_risk := round2 (_calculate_compliance_risk l);
              system_risk := round2 y;
              recommendations := recs |}.
Proof.
  unfold calculate_risk. intros H.
  destruct (_calculate_detection_risk l) as [e | d]; py_simpl; [discriminate |].
  destruct (_calculate_false_positive_risk l) as [e | f]; py_simpl; [discriminate |].
  destruct (_calculate_system_risk l) as [e | y]; py_simpl; [discriminate |].
  destruct (_generate_recommendations d f (_calculate_compliance_risk l) y l)
    as [e | recs] eqn:Er; py_simpl; [discriminate |].
  injection H as <-. exists d, f, y, recs. rewrite Er. repeat split; reflexivity.
Qed.

(** On a non-empty run [calculate_risk] returns. *)
Lemma calculate_risk_returns (l : list TestResult) :
  l <> [] -> exists a, calculate_risk l = inr a.
Proof.
  intros Hl. unfold calculate_risk.
  destruct (detection_risk_returns l) as [d [-> _]].
  destruct (false_positive_risk_returns l) as [f [-> _]].
  destruct (system_risk_returns l) as [y [-> _]].
  py_simpl.
  destruct (generate_recommendations_returns d f (_calculate_compliance_risk l) y l Hl)
    as [recs ->].
  py_simpl. eexists. reflexivity.
Qed.

End RiskAnalyzerFacts.

(** ** Deployment decision *)

Section DeploymentDecision.

Import FraudRiskAnalyzer.
Import FraudQAAgent.

(** Without a critical failure the agent decides on the stored overall
    score alone: the compliance score is not consulted. *)
Lemma agent_recommendation_by_score (a : RiskAssessment) (l : list TestResult) :
  critical_failures l = 0%nat ->
  get_deployment_recommendation (Some a) l =
    if geb (overall_risk_score a) 75 then "⚠️ DO NOT DEPLOY - High risk score"
    else if geb (overall_risk_score a) 50 then
           "⚠️ DEPLOY WITH CAUTION - Medium risk, requires approval"
         else "✅ APPROVED FOR DEPLOYMENT - Low risk".
Proof. intros H. unfold get_deployment_recommendation. rewrite H. reflexivity. Qed.

(** So a low overall score is approved whatever the compliance score. *)
Lemma agent_ignores_compliance_risk (a : RiskAssessment) (l : list TestResult) :
  critical_failures l = 0%nat ->
  overall_risk_score a < 50 ->
  get_deployment_recommendation (Some a) l = "✅ APPROVED FOR DEPLOYMENT - Low risk".
Proof.
  intros Hc Hs. rewrite (agent_recommendation_by_score a l Hc).
  assert (E1 : geb (overall_risk_score a) 75 = false) by (apply geb_false; lra).
  assert (E2 : geb (overall_risk_score a) 50 = false) by (apply geb_false; lra).
  rewrite E1, E2. reflexivity.
Qed.

(** A critical failure blocks in the agent's decision. *)
Lemma agent_recommendation_critical (a : RiskAssessment) (l : list TestResult) :
  (0 < critical_failures l)%nat ->
  get_deployment_recommendation (Some a) l =
    "🛑 DO NOT DEPLOY - Critical failures detected".
Proof.
  intros H. unfold get_deployment_recommendation.
  apply Nat.ltb_lt in H. rewrite H. reflexivity.
Qed.

(** The risk report's decision blocks on compliance first. *)
Lemma report_recommendation_compliance (a : RiskAssessment) :
  60 <= compliance_risk a ->
  _get_deployment_recommendation a =
    "🛑 DO NOT DEPLOY - Compliance violations (BLOCKING)".
Proof.
  intros H. unfold _get_deployment_recommendation.
  apply geb_true in H. rewrite H. reflexivity.
Qed.

(** C1 (code defect).  The five ordered rules are not what the agent
    computes: on a run whose only compliance test failed, the compliance
    score is 60, no failure is tagged critical and the overall score is 18,
    yet [FraudQAAgent.get_deployment_recommendation] approves the
    deployment, while the risk report's [_get_deployment_recommendation]
    blocks it on the same assessment. *)
Theorem agent_approves_despite_compliance_block :
  exists a,
    calculate_risk Samples.one_compliance_failure = inr a
    /\ compliance_risk a == 60
    /\ overall_risk_score a == 18
    /\ critical_failures Samples.one_compliance_failure = 0%nat
    /\ get_deployment_recommendation (Some a) Samples.one_compliance_failure
       = "✅ APPROVED FOR DEPLOYMENT - Low risk"
    /\ _get_deployment_recommendation a
       = "🛑 DO NOT DEPLOY - Compliance violations (BLOCKING)".
Proof.
  eexists. split; [vm_compute; reflexivity |].
  repeat split; vm_compute; reflexivity.
Qed.

End DeploymentDecision.

(** ** Score ranges, empty input, curves *)

Section RiskScores.

Import FraudRiskAnalyzer.

(** C2 (code defect).  System risk is not capped: on a run of a single
    failed performance test the failure rate is 1, [calculate_risk] stores
    a system risk of 820 and an overall score of 123, both above 100. *)
Theorem system_risk_exceeds_hundred :
  exists a,
    calculate_risk Samples.one_performance_failure = inr a
    /\ system_risk a == 820
    /\ overall_risk_score a == 123
    /\ ~ system_risk a <= 100
    /\ ~ overall_risk_score a <= 100.
Proof.
  eexists. split; [vm_compute; reflexivity |].
  repeat split; vm_compute; congruence.
Qed.

(** Any failure rate above 10% scores above 100. *)
Lemma system_risk_curve_above_cap (r : Q) : 0.10 < r -> 100 < system_risk_curve r.
Proof. intros H. unfold system_risk_curve. split_ltb; lra. Qed.

(** With a performance test in the run, system risk is the curve's score of
    the failure rate, as it is. *)
Lemma system_risk_of_rate (l : list TestResult) :
  let performance_tests :=
    filter (fun r => contains "Performance" (test_case_id r)
                     || contains "PERF" (test_case_id r)) l in
  performance_tests <> [] ->
  _calculate_system_risk l
  = inr (system_risk_curve
           (of_int (count is_failed performance_tests
                    + count (fun r => TestStatus_eqb (status r) BLOCKED) l)
            / of_int (length l))).
Proof.
  intros performance_tests Hp. unfold _calculate_system_risk.
  fold performance_tests. fold is_failed.
  destruct performance_tests as [| p ps] eqn:E; [contradiction |].
  cbn [is_empty].
  assert (Hn : (0 < length l)%nat).
  { destruct l; [discriminate E | simpl; lia]. }
  replace (length l =? 0)%nat with false by (symmetry; apply Nat.eqb_neq; lia).
  cbn [negb]. rewrite truediv_count by exact Hn. reflexivity.
Qed.

(** The scenarios of the specification: one miss in ten fraud-positive
    tests scores a detection risk of 80; 0, 1, 2 and 3 failed compliance
    tests score 0, 60, 85 and 100. *)
Example scenario_one_miss_in_ten :
  exists d, _calculate_detection_risk Samples.ten_fraud_one_missed = inr d /\ d == 80.
Proof. eexists. split; [vm_compute; reflexivity | reflexivity]. Qed.

Example scenario_compliance_steps :
  _calculate_compliance_risk (Samples.failed_compliance_tests 0) == 0
  /\ _calculate_compliance_risk (Samples.failed_compliance_tests 1) == 60
  /\ _calculate_compliance_risk (Samples.failed_compliance_tests 2) == 85
  /\ _calculate_compliance_risk (Samples.failed_compliance_tests 3) == 100.
Proof. repeat split; reflexivity. Qed.

(** C3 (code defect).  On the empty run the four component scores are 0,
    but the pass-rate ratio of [_generate_recommendations] divides by the
    number of results, so [calculate_risk] raises [ZeroDivisionError]. *)
Theorem calculate_risk_empty_raises :
  _calculate_detection_risk [] = inr 0
  /\ _calculate_false_positive_risk [] = inr 0
  /\ _calculate_compliance_risk [] = 0
  /\ _calculate_system_risk [] = inr 0
  /\ _generate_recommendations 0 0 0 0 [] = inl ZeroDivisionError
  /\ calculate_risk [] = inl ZeroDivisionError.
Proof. repeat split; reflexivity. Qed.

(** The empty run is the only one on which [calculate_risk] raises. *)
Lemma calculate_risk_raises_iff (l : list TestResult) :
  calculate_risk l = inl ZeroDivisionError <-> l = [].
Proof.
  split.
  - intros H. destruct l as [| r l]; [reflexivity |].
    destruct (calculate_risk_returns (r :: l)) as [a Ha]; [discriminate |].
    rewrite Ha in H. discriminate.
  - intros ->. reflexivity.
Qed.

(** The value of each curve at its breakpoints. *)
Lemma risk_curve_breakpoint_values :
  detection_risk_curve 0.05 == 20
  /\ detection_risk_curve 0.10 == 80
  /\ false_positive_risk_curve 0.10 == 30
  /\ false_positive_risk_curve 0.20 == 80
  /\ system_risk_curve 0.02 == 20
  /\ system_risk_curve 0.05 == 60.
Proof. repeat split; reflexivity. Qed.

(** The detection curve has no jump: its slope is at most 1200. *)
Lemma detection_risk_curve_continuous (r r' : Q) :
  Qabs (detection_risk_curve r - detection_risk_curve r') <= 1200 * Qabs (r - r').
Proof.
  pose proof (Qle_Qabs (r - r')) as H1.
  pose proof (Qle_Qabs (- (r - r'))) as H2. rewrite Qabs_opp in H2.
  apply Qabs_Qle_condition.
  unfold detection_risk_curve. split_ltb; lra.
Qed.

(** The false-positive curve has no jump: its slope is at most 500. *)
Lemma false_positive_risk_curve_continuous (r r' : Q) :
  Qabs (false_positive_risk_curve r - false_positive_risk_curve r')
  <= 500 * Qabs (r - r').
Proof.
  pose proof (Qle_Qabs (r - r')) as H1.
  pose proof (Qle_Qabs (- (r - r'))) as H2. rewrite Qabs_opp in H2.
  apply Qabs_Qle_condition.
  unfold false_positive_risk_curve. split_ltb; lra.
Qed.

(** Below 5% the system curve has no jump: its pieces meet at 2%. *)
Lemma system_risk_curve_continuous_below (r r' : Q) :
  r < 0.05 -> r' < 0.05 ->
  Qabs (system_risk_curve r - system_risk_curve r') <= 1333 * Qabs (r - r').
Proof.
  intros Hr Hr'.
  pose proof (Qle_Qabs (r - r')) as H1.
  pose proof (Qle_Qabs (- (r - r'))) as H2. rewrite Qabs_opp in H2.
  apply Qabs_Qle_condition.
  unfold system_risk_curve. split_ltb; lra.
Qed.

(** C4 (code defect).  The system-risk curve is not continuous at 5%: the
    middle piece, with slope 1333, only reaches 59.99 there, so every
    failure rate below 5% scores at least 0.01 less than the 60 of a rate
    of exactly 5%. *)
Theorem system_risk_curve_jump_at_five_percent (r : Q) :
  r < 0.05 -> 0.01 <= system_risk_curve 0.05 - system_risk_curve r.
Proof.
  intros Hr. unfold system_risk_curve. split_ltb; lra.
Qed.

Lemma system_risk_curve_jump_at_five_percent_witness :
  499 # 10000 < 0.05
  /\ 0.01 <= system_risk_curve 0.05 - system_risk_curve (499 # 10000).
Proof.
  split; [reflexivity |].
  apply (system_risk_curve_jump_at_five_percent (499 # 10000)). reflexivity.
Defined.

End RiskScores.

(** ** Risk level, weights and the report's decomposition *)

Section WeightedScore.

Import FraudRiskAnalyzer.

(** The level is decided by the thresholds 75, 50 and 25. *)
Lemma categorize_risk_thresholds (s : Q) :
  (_categorize_risk s = CRITICAL <-> 75 <= s)
  /\ (_categorize_risk s = HIGH <-> 50 <= s /\ s < 75)
  /\ (_categorize_risk s = MEDIUM <-> 25 <= s /\ s < 50)
  /\ (_categorize_risk s = LOW <-> s < 25).
Proof.
  unfold _categorize_risk. split_geb;
    repeat split; intros; try discriminate; try reflexivity; try lra.
Qed.


Lemma weighted_risk_score_unfold (d f c y : Q) :
  weighted_risk_score d f c y == d * 0.35 + f * 0.20 + c * 0.30 + y * 0.15.
Proof. reflexivity. Qed.






Lemma risk_weights_sum :
  w_detection_risk risk_weights + w_false_positive_risk risk_weights
  + w_compliance_risk risk_weights + w_system_risk risk_weights == 1.
Proof. reflexivity. Qed.

Lemma contributions_total_unfold (a : RiskAssessment) :
  contributions_total (generate_risk_report a)
  == detection_risk a * 0.35 + false_positive_risk a * 0.20
     + compliance_risk a * 0.30 + system_risk a * 0.15.
Proof. reflexivity. Qed.

(** The claim of C8 fails on seven legitimate tests of which one is
    flagged: the stored false-positive score is 51.43, so the
    contributions add up to 10.286, and the stored overall score is the
    rounded 10.29. *)
Lemma contributions_differ_from_stored_score :
  exists a,
    calculate_risk Samples.seven_legitimate_one_flagged = inr a
    /\ contributions_total (generate_risk_report a) == 10.286
    /\ overall_risk_score a == 10.29
    /\ ~ contributions_total (generate_risk_report a) == overall_risk_score a.
Proof.
  eexists. split; [vm_compute; reflexivity |].
  repeat split; vm_compute; congruence.
Qed.

(** C8 (amended).  The four weights sum to exactly 1, and for every
    assessment returned by [calculate_risk] the contributions of the risk
    report sum back to the stored overall score up to the rounding of the
    stored values: the two differ by at most 0.01. *)
Theorem contributions_sum_to_stored_score_up_to_rounding
    (l : list TestResult) (a : RiskAssessment) :
  calculate_risk l = inr a ->
  w_detection_risk risk_weights + w_false_positive_risk risk_weights
  + w_compliance_risk risk_weights + w_system_risk risk_weights == 1
  /\ Qabs (contributions_total (generate_risk_report a) - overall_risk_score a)
     <= 0.01.
Proof.
  intros H. split; [exact risk_weights_sum |].
  destruct (calculate_risk_inv l a H) as (d & f & y & recs & _ & _ & _ & _ & ->).
  rewrite contributions_total_unfold.
  cbn [overall_risk_score detection_risk false_positive_risk compliance_risk
       system_risk].
  pose proof (round2_close d).
  pose proof (round2_close f).
  pose proof (round2_close (_calculate_compliance_risk l)).
  pose proof (round2_close y).
  pose proof (round2_close
                (weighted_risk_score d f (_calculate_compliance_risk l) y)) as Ho.
  pose proof (weighted_risk_score_unfold d f (_calculate_compliance_risk l) y) as Hw.
  set (w := weighted_risk_score d f (_calculate_compliance_risk l) y) in *.
  apply Qabs_Qle_condition. lra.
Qed.

Lemma contributions_sum_to_stored_score_up_to_rounding_witness :
  exists a,
    calculate_risk Samples.seven_legitimate_one_flagged = inr a
    /\ (w_detection_risk risk_weights + w_false_positive_risk risk_weights
        + w_compliance_risk risk_weights + w_system_risk risk_weights == 1
        /\ Qabs (contributions_total (generate_risk_report a)
                 - overall_risk_score a) <= 0.01).
Proof.
  eexists. split; [vm_compute; reflexivity |].
  apply (contributions_sum_to_stored_score_up_to_rounding
           Samples.seven_legitimate_one_flagged).
  vm_compute. reflexivity.
Defined.

End WeightedScore.

(** ** The accuracy aggregator *)

Section AccuracyMetrics.

Import TestSummaryGenerator.

(** Every result is passed, failed, or neither (blocked or skipped). *)
Lemma status_counts_partition (xs : list TestResult) :
  (count is_passed xs + count is_failed xs + count is_unfinished xs = length xs)%nat.
Proof.
  unfold count, is_passed, is_failed, is_unfinished.
  induction xs as [| r xs IH]; [reflexivity |].
  cbn [filter]. destruct (status r); cbn; lia.
Qed.

Lemma precision_nonneg (tp fp : nat) : 0 <= AccuracySpec.precision tp fp.
Proof.
  unfold AccuracySpec.precision.
  destruct (Nat.eqb_spec (tp + fp) 0) as [E | E]; [lra |].
  apply proportion_bounds; lia.
Qed.

Lemma recall_nonneg (tp fn : nat) : 0 <= AccuracySpec.recall tp fn.
Proof. apply precision_nonneg. Qed.

(** The guarded ratio of the code is the formula of the specification. *)
Lemma guarded_ratio (tp other : nat) :
  (if (0 <? tp + other)%nat
   then truediv (of_int tp) (of_int (tp + other))
   else ret 0) = inr (AccuracySpec.precision tp other).
Proof.
  unfold AccuracySpec.precision.
  destruct (Nat.eqb_spec (tp + other) 0) as [E | E].
  - rewrite E. reflexivity.
  - replace (0 <? tp + other)%nat with true
      by (symmetry; apply Nat.ltb_lt; lia).
    apply truediv_count. lia.
Qed.

Lemma guarded_f1 (p r : Q) :
  0 <= p -> 0 <= r ->
  (if gtb (p + r) 0 then truediv (2 * p * r) (p + r) else ret 0)
  = inr (AccuracySpec.f1 p r).
Proof.
  intros Hp Hr. unfold AccuracySpec.f1.
  destruct (gtb (p + r) 0) eqn:E.
  - apply gtb_true in E.
    assert (N : ~ p + r == 0) by lra.
    rewrite (truediv_returns _ _ N).
    destruct (Qeq_bool (p + r) 0) eqn:Eb; [| reflexivity].
    apply Qeq_bool_iff in Eb. contradiction.
  - apply gtb_false in E.
    assert (Z0 : p + r == 0) by lra.
    apply Qeq_bool_iff in Z0. rewrite Z0. reflexivity.
Qed.

Lemma guarded_rate (k n : nat) :
  exists x,
    (if (0 <? n)%nat
     then q <- truediv (of_int k) (of_int n) ;; ret (round2 (q * 100))
     else ret 0) = inr x.
Proof.
  destruct (0 <? n)%nat eqn:E.
  - apply Nat.ltb_lt in E. rewrite truediv_count by exact E.
    py_simpl. eexists. reflexivity.
  - eexists. reflexivity.
Qed.

(** The aggregator returns on every input, with these cells and ratios. *)
Lemma accuracy_metrics_returns (l : list TestResult) :
  exists m,
    _calculate_accuracy_metrics l = inr m
    /\ true_positives (confusion_matrix m) = count is_passed (fraud_tests l)
    /\ false_negatives (confusion_matrix m) = count is_failed (fraud_tests l)
    /\ true_negatives (confusion_matrix m) = count is_passed (legit_tests l)
    /\ false_positives (confusion_matrix m) = count is_failed (legit_tests l)
    /\ total_fraud_tests m = length (fraud_tests l)
    /\ total_legitimate_tests m = length (legit_tests l)
    /\ precision m
       = round2 (AccuracySpec.precision (count is_passed (fraud_tests l))
                                        (count is_failed (legit_tests l)) * 100)
    /\ recall m
       = round2 (AccuracySpec.recall (count is_passed (fraud_tests l))
                                     (count is_failed (fraud_tests l)) * 100)
    /\ f1_score m
       = round2 (AccuracySpec.f1
                   (AccuracySpec.precision (count is_passed (fraud_tests l))
                                           (count is_failed (legit_tests l)))
                   (AccuracySpec.recall (count is_passed (fraud_tests l))
                                        (count is_failed (fraud_tests l))) * 100).
Proof.
  unfold _calculate_accuracy_metrics.
  fold is_passed. fold is_failed.
  rewrite (guarded_ratio (count is_passed (fraud_tests l))
                         (count is_failed (legit_tests l))).
  rewrite bind_returns.
  rewrite (guarded_ratio (count is_passed (fraud_tests l))
                         (count is_failed (fraud_tests l))).
  rewrite bind_returns.
  fold (AccuracySpec.recall (count is_passed (fraud_tests l))
                            (count is_failed (fraud_tests l))).
  rewrite guarded_f1 by (apply precision_nonneg || apply recall_nonneg).
  rewrite bind_returns.
  destruct (guarded_rate (count is_failed (legit_tests l)) (length (legit_tests l)))
    as [fpr ->].
  rewrite bind_returns.
  destruct (guarded_rate (count is_failed (fraud_tests l)) (length (fraud_tests l)))
    as [fnr ->].
  rewrite bind_returns.
  eexists. split; [reflexivity |]. cbn. repeat split; reflexivity.
Qed.

(** The claim of C5 fails on a run of one blocked fraud-positive test: it
    is in neither cell of the matrix, so [TP + FN = 0] while one
    fraud-positive test was run. *)
Lemma blocked_test_breaks_confusion_total :
  exists m,
    _calculate_accuracy_metrics Samples.one_blocked_fraud_test = inr m
    /\ total_fraud_tests m = 1%nat
    /\ (true_positives (confusion_matrix m)
        + false_negatives (confusion_matrix m))%nat = 0%nat
    /\ (true_positives (confusion_matrix m)
        + false_negatives (confusion_matrix m))%nat <> total_fraud_tests m.
Proof.
  eexists. split; [vm_compute; reflexivity |].
  repeat split; cbn; discriminate.
Qed.

(** C5 (amended).  For every list of test results, [TP + FN] plus the
    number of blocked or skipped fraud-positive tests is the total of
    fraud-positive tests, and [TN + FP] plus the number of blocked or
    skipped legitimate tests is the total of legitimate tests; so the two
    sums equal the totals when no such test is blocked or skipped. *)
Theorem confusion_matrix_totals (l : list TestResult) :
  exists m,
    _calculate_accuracy_metrics l = inr m
    /\ (true_positives (confusion_matrix m) + false_negatives (confusion_matrix m)
        + count is_unfinished (fraud_tests l) = total_fraud_tests m)%nat
    /\ (true_negatives (confusion_matrix m) + false_positives (confusion_matrix m)
        + count is_unfinished (legit_tests l) = total_legitimate_tests m)%nat.
Proof.
  destruct (accuracy_metrics_returns l)
    as (m & Hm & Htp & Hfn & Htn & Hfp & Hf & Hl & _).
  exists m. split; [exact Hm |].
  rewrite Htp, Hfn, Htn, Hfp, Hf, Hl.
  split.
  - apply status_counts_partition.
  - rewrite <- (status_counts_partition (legit_tests l)). lia.
Qed.

(** C9.  The aggregator returns on every list of test results (no
    division by zero).  With TP, FP and FN counted from the list, its
    precision, recall and F1 are [TP/(TP+FP)], [TP/(TP+FN)] and
    [2PR/(P+R)], stored as percentages rounded to two decimals, so within
    a hundredth of the exact percentage, and each is 0 when its
    denominator is 0. *)
Theorem accuracy_ratios_guarded (l : list TestResult) :
  let tp := count is_passed (fraud_tests l) in
  let fn := count is_failed (fraud_tests l) in
  let fp := count is_failed (legit_tests l) in
  let p := AccuracySpec.precision tp fp in
  let r := AccuracySpec.recall tp fn in
  exists m,
    _calculate_accuracy_metrics l = inr m
    /\ true_positives (confusion_matrix m) = tp
    /\ false_positives (confusion_matrix m) = fp
    /\ false_negatives (confusion_matrix m) = fn
    /\ Qabs (precision m - p * 100) <= 1 # 100
    /\ Qabs (recall m - r * 100) <= 1 # 100
    /\ Qabs (f1_score m - AccuracySpec.f1 p r * 100) <= 1 # 100
    /\ ((tp + fp)%nat = 0%nat -> precision m == 0)
    /\ ((tp + fn)%nat = 0%nat -> recall m == 0)
    /\ (p + r == 0 -> f1_score m == 0).
Proof.
  cbv zeta.
  destruct (accuracy_metrics_returns l)
    as (m & Hm & Htp & Hfn & _ & Hfp & _ & _ & Hp & Hr & Hf).
  exists m. split; [exact Hm |].
  split; [exact Htp |]. split; [exact Hfp |]. split; [exact Hfn |].
  split; [rewrite Hp; apply round2_within |].
  split; [rewrite Hr; apply round2_within |].
  split; [rewrite Hf; apply round2_within |].
  split; [| split].
  - intros E. rewrite Hp. unfold AccuracySpec.precision. rewrite E. reflexivity.
  - intros E. rewrite Hr. unfold AccuracySpec.recall. rewrite E. reflexivity.
  - intros E. rewrite Hf. unfold AccuracySpec.f1.
    apply Qeq_bool_iff in E. rewrite E. reflexivity.
Qed.

Lemma accuracy_ratios_guarded_witness :
  exists m,
    _calculate_accuracy_metrics Samples.ten_fraud_one_missed = inr m
    /\ true_positives (confusion_matrix m) = 9%nat
    /\ false_positives (confusion_matrix m) = 0%nat
    /\ false_negatives (confusion_matrix m) = 1%nat
    /\ Qabs (precision m - AccuracySpec.precision 9 0 * 100) <= 1 # 100
    /\ Qabs (recall m - AccuracySpec.recall 9 1 * 100) <= 1 # 100.
Proof.
  destruct (accuracy_ratios_guarded Samples.ten_fraud_one_missed)
    as (m & Hm & Htp & Hfp & Hfn & Hp & Hr & _).
  exists m. split; [exact Hm |].
  split; [exact Htp |]. split; [exact Hfp |]. split; [exact Hfn |].
  split; [exact Hp | exact Hr].
Defined.

(** In both modules a result whose id has the marker of a legitimate test
    is not a fraud-positive test. *)
Lemma neg_marker_excludes (r : TestResult) (l : list TestResult) :
  contains "neg" (lower (test_case_id r)) = true ->
  ~ In r (fraud_tests l) /\ ~ In r (FraudRiskAnalyzer.fraud_tests l).
Proof.
  intros H.
  split; intros Hin; apply filter_In in Hin as [_ Hin];
    rewrite H in Hin; rewrite andb_false_r in Hin; discriminate.
Qed.

(** C10.  In the accuracy aggregator and in the risk analyzer alike, no
    result is in both the fraud-positive and the legitimate partition:
    a result whose lower-cased id contains "neg" is left out of the
    fraud-positive tests, also when the id contains "fraud". *)
Theorem fraud_and_legitimate_partitions_disjoint
    (l : list TestResult) (r : TestResult) :
  (In r (fraud_tests l) -> ~ In r (legit_tests l))
  /\ (In r (FraudRiskAnalyzer.fraud_tests l)
      -> ~ In r (FraudRiskAnalyzer.negative_tests l))
  /\ (contains "neg" (lower (test_case_id r)) = true ->
      ~ In r (fraud_tests l) /\ ~ In r (FraudRiskAnalyzer.fraud_tests l)).
Proof.
  split; [| split].
  - intros Hf Hl. apply filter_In in Hl as [_ Hl].
    exact (proj1 (neg_marker_excludes r l Hl) Hf).
  - intros Hf Hl. apply filter_In in Hl as [_ Hl].
    exact (proj2 (neg_marker_excludes r l Hl) Hf).
  - apply neg_marker_excludes.
Qed.

Lemma fraud_and_legitimate_partitions_disjoint_witness :
  contains "fraud" (lower (test_case_id Samples.legitimate_card_fraud_test)) = true
  /\ In Samples.legitimate_card_fraud_test
        (legit_tests [Samples.legitimate_card_fraud_test])
  /\ ~ In Samples.legitimate_card_fraud_test
          (fraud_tests [Samples.legitimate_card_fraud_test])
  /\ ~ In Samples.legitimate_card_fraud_test
          (FraudRiskAnalyzer.fraud_tests [Samples.legitimate_card_fraud_test]).
Proof.
  split; [reflexivity |].
  split; [left; reflexivity |].
  apply (proj2 (proj2 (fraud_and_legitimate_partitions_disjoint
                         [Samples.legitimate_card_fraud_test]
                         Samples.legitimate_card_fraud_test))).
  reflexivity.
Defined.

End AccuracyMetrics.

(** ** The result validator *)

Section Validator.

Import TestExecutionEngine.

Variable str_of_number : Q -> string.
Variable str_of_list : list string -> string.

(** The status test of lines 252-260 looks at the warnings and at the
    texts of the errors, but both arms of each of these tests agree. *)
Lemma status_of_errors (errors warnings : list string) :
  (if negb (is_empty errors) then
     if any (fun err => contains "CRITICAL" err || contains "FALSE NEGATIVE" err) errors
     then FAILED else FAILED
   else if negb (is_empty warnings) then PASSED else PASSED)
  = if is_empty errors then PASSED else FAILED.
Proof.
  destruct (is_empty errors); cbn [negb].
  - destruct (is_empty warnings); reflexivity.
  - destruct (any _ errors); reflexivity.
Qed.

Lemma validate_status (tc : TestCase) (ar : ActualResult) :
  v_status (_validate_result str_of_number str_of_list tc ar)
  = if is_empty (v_errors (_validate_result str_of_number str_of_list tc ar))
    then PASSED else FAILED.
Proof.
  unfold _validate_result. cbv zeta. cbn [v_status v_errors].
  apply status_of_errors.
Qed.


End Validator.


(** * Further properties of the risk analyzer *)

Section RiskAnalyzerMore.

Import FraudRiskAnalyzer.

(** A higher false-negative rate never lowers the detection score. *)
Lemma detection_risk_curve_mono (r r' : Q) :
  r <= r' -> detection_risk_curve r <= detection_risk_curve r'.
Proof. intros H. unfold detection_risk_curve. split_ltb; lra. Qed.

Lemma false_positive_risk_curve_mono (r r' : Q) :
  r <= r' -> false_positive_risk_curve r <= false_positive_risk_curve r'.
Proof. intros H. unfold false_positive_risk_curve. split_ltb; lra. Qed.

Lemma system_risk_curve_mono (r r' : Q) :
  r <= r' -> system_risk_curve r <= system_risk_curve r'.
Proof. intros H. unfold system_risk_curve. split_ltb; lra. Qed.

Lemma min_mono_r (a b b' : Q) : b <= b' -> min a b <= min a b'.
Proof.
  intros H. unfold min.
  destruct (ltb b a) eqn:E1; destruct (ltb b' a) eqn:E2;
    try apply ltb_true in E1; try apply ltb_false in E1;
    try apply ltb_true in E2; try apply ltb_false in E2; lra.
Qed.

(** The three rate-to-score maps are non-decreasing: a worse rate never
    scores lower, also across the breakpoints and under the cap. *)
Theorem risk_curves_monotone (r r' : Q) :
  r <= r' ->
  min 100 (detection_risk_curve r) <= min 100 (detection_risk_curve r')
  /\ min 100 (false_positive_risk_curve r) <= min 100 (false_positive_risk_curve r')
  /\ system_risk_curve r <= system_risk_curve r'.
Proof.
  intros H. repeat split.
  - apply min_mono_r, detection_risk_curve_mono, H.
  - apply min_mono_r, false_positive_risk_curve_mono, H.
  - apply system_risk_curve_mono, H.
Qed.

Lemma risk_curves_monotone_witness :
  4 # 100 <= 6 # 100
  /\ min 100 (detection_risk_curve (4 # 100)) <= min 100 (detection_risk_curve (6 # 100))
  /\ min 100 (false_positive_risk_curve (4 # 100))
     <= min 100 (false_positive_risk_curve (6 # 100))
  /\ system_risk_curve (4 # 100) <= system_risk_curve (6 # 100).
Proof.
  split; [discriminate |].
  apply (risk_curves_monotone (4 # 100) (6 # 100)). discriminate.
Defined.

Ltac split_gtb :=
  repeat match goal with
         | |- context [gtb ?a ?b] =>
             let E := fresh "E" in
             destruct (gtb a b) eqn:E;
             [apply gtb_true in E | apply gtb_false in E]
         end.

(* When [_generate_recommendations] returns, and how many recommendations. *)
Lemma generate_recommendations_spec
    (d f c y : Q) (l : list TestResult) :
  l <> [] ->
  exists recs,
    _generate_recommendations d f c y l = inr recs
    /\ (1 <= length recs <= 5)%nat
    /\ (recs = ["✅ All risk metrics within acceptable ranges. System appears ready for deployment pending final approvals."]
        <-> d < 25 /\ f < 50 /\ c < 30 /\ y < 30
            /\ of_int (count is_failed l) / of_int (length l) <= 0.15).
Proof.
  intros Hl. unfold _generate_recommendations. fold is_failed.
  rewrite truediv_count by (destruct l; [contradiction | simpl; lia]).
  rewrite bind_returns.
  set (ratio := of_int (count is_failed l) / of_int (length l)).
  (* the messages only matter through being different from the last one,
     which is told apart by its second byte *)
  assert (Hready : String.get 1 "✅ All risk metrics within acceptable ranges. System appears ready for deployment pending final approvals." = Some "156"%char) by reflexivity.
  revert Hready.
  generalize "✅ All risk metrics within acceptable ranges. System appears ready for deployment pending final approvals.".
  intros ready Hready.
  repeat match goal with
         | |- context [append _ ?m] =>
             first [ is_var m; fail 1
                   | let x := fresh "msg" in
                     let Hx := fresh "Hmsg" in
                     assert (Hx : String.get 1 m <> Some "156"%char)
                       by (cbv; congruence);
                     revert Hx; generalize m; intros x Hx ]
         end.
  split_geb; split_gtb;
    (eexists; split; [reflexivity |]);
    cbn [append app is_empty length];
    (split; [lia |]);
    (split; [intros HH; first [ discriminate HH
                              | injection HH; intros; subst; contradiction
                              | repeat split; lra ]
            | intros (H1 & H2 & H3 & H4 & H5); first [reflexivity | lra]]).
Qed.

(** The advisory list is never empty and has at most five entries, one per
    rule; it is the single "ready for deployment" message exactly when no
    rule fires: detection below 25, false-positive below 50, compliance and
    system below 30, and at most 15% of the results failed. *)
Theorem recommendations_between_one_and_five
    (d f c y : Q) (l : list TestResult) :
  l <> [] ->
  exists recs,
    _generate_recommendations d f c y l = inr recs
    /\ (1 <= length recs <= 5)%nat
    /\ (recs = ["✅ All risk metrics within acceptable ranges. System appears ready for deployment pending final approvals."]
        <-> d < 25 /\ f < 50 /\ c < 30 /\ y < 30
            /\ of_int (count is_failed l) / of_int (length l) <= 0.15).
Proof. exact (generate_recommendations_spec d f c y l). Qed.

Lemma recommendations_between_one_and_five_witness :
  Samples.one_compliance_failure <> []
  /\ exists recs,
       _generate_recommendations 0 0 60 0 Samples.one_compliance_failure = inr recs
       /\ (1 <= length recs <= 5)%nat
       /\ (recs = ["✅ All risk metrics within acceptable ranges. System appears ready for deployment pending final approvals."]
           <-> 0 < 25 /\ 0 < 50 /\ 60 < 30 /\ 0 < 30
               /\ of_int (count is_failed Samples.one_compliance_failure)
                  / of_int (length Samples.one_compliance_failure) <= 0.15).
Proof.
  split; [discriminate |].
  apply (recommendations_between_one_and_five 0 0 60 0 Samples.one_compliance_failure).
  discriminate.
Defined.

End RiskAnalyzerMore.

(** * Properties of the summary generator *)

Section DictFacts.

Lemma dict_get_set {V : Type} (d : dict V) (k k' : string) (v default : V) :
  dict_get (dict_set d k v) k' default
  = if String.eqb k k' then v else dict_get d k' default.
Proof.
  induction d as [| [k0 v0] d IH]; cbn [dict_set dict_get].
  - reflexivity.
  - destruct (String.eqb_spec k0 k) as [-> | Hk0]; cbn [dict_get].
    + destruct (String.eqb k k'); reflexivity.
    + rewrite IH. destruct (String.eqb_spec k0 k') as [-> | Hk0'].
      * destruct (String.eqb_spec k k') as [-> | _]; [congruence | reflexivity].
      * reflexivity.
Qed.

Lemma dict_total_set (d : dict nat) (k : string) (v : nat) :
  (dict_total (dict_set d k v) + dict_get d k 0 = dict_total d + v)%nat.
Proof.
  induction d as [| [k0 v0] d IH]; cbn [dict_set dict_get dict_total fold_right snd].
  - lia.
  - destruct (String.eqb k0 k); cbn [dict_total fold_right snd].
    + lia.
    + fold (dict_total (dict_set d k v)). fold (dict_total d). lia.
Qed.

Lemma dict_total_incr (d : dict nat) (k : string) :
  dict_total (dict_incr d k) = S (dict_total d).
Proof.
  unfold dict_incr.
  pose proof (dict_total_set d k (dict_get d k 0 + 1)%nat). lia.
Qed.

Lemma dict_get_incr (d : dict nat) (k k' : string) :
  dict_get (dict_incr d k) k' 0%nat
  = (dict_get d k' 0 + if String.eqb k k' then 1 else 0)%nat.
Proof.
  unfold dict_incr. rewrite dict_get_set.
  destruct (String.eqb_spec k k') as [-> | _]; lia.
Qed.

(** Counting the items of a list by key: every key's entry is the number of
    items with that key, and the entries add up to the number of items. *)
Lemma tally_spec {A : Type} (key : A -> string) (xs : list A) (d : dict nat) :
  let tally := fold_left (fun acc x => dict_incr acc (key x)) xs d in
  dict_total tally = (dict_total d + length xs)%nat
  /\ forall k, dict_get tally k 0%nat
               = (dict_get d k 0 + count (fun x => String.eqb (key x) k) xs)%nat.
Proof.
  revert d. induction xs as [| x xs IH]; intros d; cbn [fold_left length].
  - split; [lia | intros k; unfold count; cbn; lia].
  - destruct (IH (dict_incr d (key x))) as [Ht Hg]. split.
    + rewrite Ht, dict_total_incr. lia.
    + intros k. rewrite Hg, dict_get_incr. unfold count. cbn [filter].
      destruct (String.eqb (key x) k); cbn [length]; lia.
Qed.

End DictFacts.

Section FailureAnalysisFacts.

Import SummaryMetrics.

Lemma analyze_fold (xs : list TestResult) (d : dict nat) (c : list CriticalFailure) :
  fold_left analyze_step xs (d, c)
  = (fold_left (fun acc r => dict_incr acc (category_of_id (test_case_id r))) xs d,
     (c ++ map (fun r => {| cf_test_case_id := test_case_id r; cf_errors := errors r |})
               (filter has_critical_error xs))%list).
Proof.
  revert d c. induction xs as [| r xs IH]; intros d c; cbn [fold_left filter map].
  - rewrite app_nil_r. reflexivity.
  - unfold analyze_step at 2. cbv zeta.
    destruct (has_critical_error r); rewrite IH; cbn [map]; unfold append.
    + rewrite <- app_assoc. reflexivity.
    + reflexivity.
Qed.

(** The failure analysis is consistent: the per-category counts add up to
    the number of failed tests, the entry of a category is the number of
    failed tests whose id has that category, and the critical failures are
    the failed tests with a critical error text, in order, so there are at
    most as many as failures. *)
Theorem failure_analysis_counts (l : list TestResult) :
  let fa := _analyze_failures l in
  let failed_tests := filter is_failed l in
  total_failures fa = count is_failed l
  /\ dict_total (by_category fa) = total_failures fa
  /\ (forall c : string,
        dict_get (by_category fa) c 0%nat
        = count (fun r => String.eqb (category_of_id (test_case_id r)) c) failed_tests)
  /\ map cf_test_case_id (critical_failures fa)
     = map test_case_id (filter has_critical_error failed_tests)
  /\ critical_count fa = length (critical_failures fa)
  /\ (critical_count fa <= total_failures fa)%nat.
Proof.
  cbv zeta. unfold _analyze_failures. fold is_failed.
  rewrite analyze_fold.
  destruct (tally_spec (fun r => category_of_id (test_case_id r)) (filter is_failed l) [])
    as [Ht Hg].
  cbn [total_failures by_category critical_failures critical_count app].
  split; [reflexivity |].
  split; [rewrite Ht; reflexivity |].
  split; [intros c; rewrite Hg; reflexivity |].
  split; [rewrite map_map; reflexivity |].
  split; [reflexivity |].
  rewrite length_map. apply filter_length_le.
Qed.

End FailureAnalysisFacts.

Section SummaryFacts.

Import SummaryMetrics.

(** The four statuses partition a run. *)
Lemma status_counts_four (xs : list TestResult) :
  (count (fun r => TestStatus_eqb (status r) PASSED) xs
   + count (fun r => TestStatus_eqb (status r) FAILED) xs
   + count (fun r => TestStatus_eqb (status r) BLOCKED) xs
   + count (fun r => TestStatus_eqb (status r) SKIPPED) xs = length xs)%nat.
Proof.
  unfold count. induction xs as [| r xs IH]; [reflexivity |].
  cbn [filter]. destruct (status r); cbn; lia.
Qed.

(** A guarded percentage [round(k / n * 100, 2) if n > 0 else 0] returns
    a value between 0 and 100 when [k <= n]. *)
Lemma guarded_percentage (k n : nat) :
  (k <= n)%nat ->
  exists x,
    (if (0 <? n)%nat
     then q <- truediv (of_int k) (of_int n) ;; ret (round2 (q * 100))
     else ret 0) = inr x
    /\ 0 <= x <= 100.
Proof.
  intros Hk. destruct (0 <? n)%nat eqn:E.
  - apply Nat.ltb_lt in E. rewrite truediv_count by exact E.
    rewrite bind_returns. eexists. split; [reflexivity |].
    destruct (proportion_bounds k n Hk E) as [H0 H1].
    split.
    + apply round2_nonneg. lra.
    + assert (H : round2 (of_int k / of_int n * 100) <= round2 100)
        by (apply round2_mono; lra).
      assert (E100 : round2 100 == 100) by reflexivity. lra.
  - exists 0. split; [reflexivity | lra].
Qed.

Section WithFormat.

Variable format_1f : Q -> string.

(* What [_calculate_overall_metrics] computes. *)
Lemma calculate_overall_metrics_spec (l : list TestResult) :
  exists m,
    _calculate_overall_metrics format_1f l = inr m
    /\ total_test_cases m = length l
    /\ (passed m + failed m + blocked m + skipped m = total_test_cases m)%nat
    /\ 0 <= pass_rate m <= 100
    /\ 0 <= fail_rate m <= 100.
Proof.
  unfold _calculate_overall_metrics.
  assert (Ha : exists avg,
             (if (0 <? length l)%nat
              then truediv (PyMore.sum (map execution_time_ms l)) (of_int (length l))
              else ret 0) = inr avg).
  { destruct (0 <? length l)%nat eqn:E.
    - apply Nat.ltb_lt in E. rewrite truediv_returns.
      + eexists. reflexivity.
      + apply of_int_pos in E. lra.
    - eexists. reflexivity. }
  destruct Ha as [avg ->]. rewrite bind_returns.
  destruct (guarded_percentage
              (count (fun r => TestStatus_eqb (status r) PASSED) l) (length l)
              (count_le_length _ _)) as (pr & -> & Hpr).
  rewrite bind_returns.
  destruct (guarded_percentage
              (count (fun r => TestStatus_eqb (status r) FAILED) l) (length l)
              (count_le_length _ _)) as (fr & -> & Hfr).
  rewrite bind_returns.
  eexists. split; [reflexivity |].
  cbn [total_test_cases passed failed blocked skipped pass_rate fail_rate].
  split; [reflexivity |].
  split; [apply status_counts_four |].
  split; assumption.
Qed.

(** The overall metrics are returned for every run, the empty one
    included; the four status counts add up to the total, and the pass
    and fail rates are percentages. *)
Theorem overall_metrics_consistent (l : list TestResult) :
  exists m,
    _calculate_overall_metrics format_1f l = inr m
    /\ total_test_cases m = length l
    /\ (passed m + failed m + blocked m + skipped m = total_test_cases m)%nat
    /\ 0 <= pass_rate m <= 100
    /\ 0 <= fail_rate m <= 100.
Proof. exact (calculate_overall_metrics_spec l). Qed.

End WithFormat.

Lemma list_sum_lengths_ge (checks : list HallucinationCheck) :
  Forall (fun c => hallucinations_detected c <> []) checks ->
  (length checks
   <= list_sum (map (fun c => length (hallucinations_detected c)) checks))%nat.
Proof.
  induction 1 as [| c cs Hc _ IH]; [cbn; lia |].
  cbn [map length]. change (list_sum (?x :: ?xs)) with (x + list_sum xs)%nat.
  destruct (hallucinations_detected c); [contradiction | cbn [length]; lia].
Qed.

(* What [_summarize_hallucinations] computes. *)
Lemma summarize_hallucinations_spec (checks : list HallucinationCheck) :
  exists s,
    _summarize_hallucinations checks = inr s
    /\ total_checks s = length checks
    /\ dict_total (by_severity s) = total_checks s
    /\ hs_critical_count s
       = count (fun c => String.eqb (severity c) "CRITICAL") checks
    /\ (checks <> [] ->
        Forall (fun c => hallucinations_detected c <> []) checks ->
        100 <= hallucination_rate s).
Proof.
  unfold _summarize_hallucinations.
  destruct checks as [| c cs] eqn:E.
  - eexists. split; [reflexivity |]. cbn.
    repeat split; try reflexivity. intros H. contradiction.
  - rewrite <- E. assert (Hn : (0 < length checks)%nat) by (subst; cbn; lia).
    replace (is_empty checks) with false by (subst; reflexivity).
    rewrite truediv_count by exact Hn. rewrite bind_returns.
    eexists. split; [reflexivity |].
    cbn [total_checks by_severity hs_critical_count hallucination_rate].
    destruct (tally_spec severity checks []) as [Ht Hg].
    split; [reflexivity |].
    split; [unfold count_by_severity; rewrite Ht; reflexivity |].
    split; [unfold count_by_severity; rewrite Hg; reflexivity |].
    intros _ Hall.
    apply list_sum_lengths_ge in Hall. apply of_int_le in Hall.
    pose proof (of_int_pos _ Hn) as Hp.
    assert (H1 : 1 <= of_int (list_sum (map (fun c0 => length (hallucinations_detected c0))
                                           checks)) / of_int (length checks)).
    { apply Qle_shift_div_l; [exact Hp | lra]. }
    assert (H : round2 100 <= round2 (of_int (list_sum (map (fun c0 => length (hallucinations_detected c0))
                                           checks)) / of_int (length checks) * 100))
      by (apply round2_mono; lra).
    assert (E100 : round2 100 == 100) by reflexivity. lra.
Qed.


End SummaryFacts.

(** * Properties of the performance metrics *)

Section PyMoreFacts.

Lemma bindx_returns {A B : Type} (x : A) (k : A -> pyx B) :
  bind (inr x : pyx A) k = k x.
Proof. reflexivity. Qed.

Lemma fold_min_spec (rest : list Q) (x : Q) :
  let m := fold_left (fun best y => if ltb y best then y else best) rest x in
  In m (x :: rest) /\ m <= x /\ forall y, In y rest -> m <= y.
Proof.
  revert x. induction rest as [| z rest IH]; intros x; cbn [fold_left].
  - split; [left; reflexivity |]. split; [lra | intros y []].
  - destruct (ltb z x) eqn:E;
      [apply ltb_true in E | apply ltb_false in E].
    + destruct (IH z) as (Hin & Hle & Hall).
      split; [right; exact Hin |]. split; [lra |].
      intros y [<- | Hy]; [exact Hle | apply Hall, Hy].
    + destruct (IH x) as (Hin & Hle & Hall).
      split; [destruct Hin as [<- | Hin]; [left; reflexivity | right; right; exact Hin] |].
      split; [exact Hle |].
      intros y [<- | Hy]; [lra | apply Hall, Hy].
Qed.

Lemma fold_max_spec (rest : list Q) (x : Q) :
  let m := fold_left (fun best y => if gtb y best then y else best) rest x in
  In m (x :: rest) /\ x <= m /\ forall y, In y rest -> y <= m.
Proof.
  revert x. induction rest as [| z rest IH]; intros x; cbn [fold_left].
  - split; [left; reflexivity |]. split; [lra | intros y []].
  - destruct (gtb z x) eqn:E;
      [apply gtb_true in E | apply gtb_false in E].
    + destruct (IH z) as (Hin & Hle & Hall).
      split; [right; exact Hin |]. split; [lra |].
      intros y [<- | Hy]; [exact Hle | apply Hall, Hy].
    + destruct (IH x) as (Hin & Hle & Hall).
      split; [destruct Hin as [<- | Hin]; [left; reflexivity | right; right; exact Hin] |].
      split; [exact Hle |].
      intros y [<- | Hy]; [lra | apply Hall, Hy].
Qed.

(** [min] of a non-empty list returns one of its items, below all. *)
Lemma list_min_spec (xs : list Q) :
  xs <> [] ->
  exists m, list_min xs = inr m /\ In m xs /\ forall y, In y xs -> m <= y.
Proof.
  destruct xs as [| x rest]; [contradiction |]. intros _.
  destruct (fold_min_spec rest x) as (Hin & Hle & Hall).
  eexists. split; [reflexivity |]. split; [exact Hin |].
  intros y [<- | Hy]; [exact Hle | apply Hall, Hy].
Qed.

(** [max] of a non-empty list returns one of its items, above all. *)
Lemma list_max_spec (xs : list Q) :
  xs <> [] ->
  exists m, list_max xs = inr m /\ In m xs /\ forall y, In y xs -> y <= m.
Proof.
  destruct xs as [| x rest]; [contradiction |]. intros _.
  destruct (fold_max_spec rest x) as (Hin & Hle & Hall).
  eexists. split; [reflexivity |]. split; [exact Hin |].
  intros y [<- | Hy]; [exact Hle | apply Hall, Hy].
Qed.

(** An index within range reads the item at that position. *)
Lemma getitem_in_range {A : Type} (xs : list A) (i : Z) (d : A) :
  (0 <= i < Z.of_nat (length xs))%Z ->
  getitem xs i = inr (nth (Z.to_nat i) xs d).
Proof.
  intros [H0 H1]. unfold getitem. cbv zeta.
  replace (i <? 0)%Z with false by (symmetry; apply Z.ltb_ge; lia).
  replace (i <? 0)%Z with false by (symmetry; apply Z.ltb_ge; lia).
  replace (Z.of_nat (length xs) <=? i)%Z with false by (symmetry; apply Z.leb_gt; lia).
  cbn [orb].
  rewrite (nth_error_nth' xs d) by lia. reflexivity.
Qed.

Lemma sum_from (xs : list Q) (a : Q) : fold_left Qplus xs a == a + PyMore.sum xs.
Proof.
  unfold PyMore.sum. revert a. induction xs as [| x xs IH]; intros a; cbn [fold_left].
  - lra.
  - rewrite (IH (a + x)), (IH (0 + x)). lra.
Qed.

(** The sum of [n] items between [lo] and [hi] is between [n * lo] and
    [n * hi]. *)
Lemma sum_bounds (xs : list Q) (lo hi : Q) :
  (forall x, In x xs -> lo <= x <= hi) ->
  of_int (length xs) * lo <= PyMore.sum xs <= of_int (length xs) * hi.
Proof.
  induction xs as [| x xs IH]; intros H.
  - unfold PyMore.sum. cbn [fold_left length]. change (of_int 0) with 0. lra.
  - assert (Hx : lo <= x <= hi) by (apply H; left; reflexivity).
    assert (Hxs : forall y, In y xs -> lo <= y <= hi) by (intros y Hy; apply H; right; exact Hy).
    specialize (IH Hxs).
    unfold PyMore.sum. cbn [fold_left]. rewrite sum_from.
    assert (E : of_int (length (x :: xs)) == of_int (length xs) + 1).
    { unfold of_int. cbn [length]. rewrite Nat2Z.inj_succ, <- Z.add_1_r, inject_Z_plus.
      reflexivity. }
    rewrite E. lra.
Qed.

(** [int] of a fraction [p / 100] of a count. *)
Lemma trunc_percent (n : nat) (p : positive) :
  trunc (of_int n * (Zpos p # 100)) = (Z.of_nat n * Zpos p / 100)%Z.
Proof.
  unfold trunc, of_int. cbn [Qmult Qnum Qden inject_Z].
  change (Zpos (1 * 100)) with 100%Z.
  apply Z.quot_div_nonneg; lia.
Qed.

Lemma percentile_index_in_range (n : nat) (p : positive) :
  (0 < n)%nat -> (Zpos p < 100)%Z ->
  (0 <= trunc (of_int n * (Zpos p # 100)) < Z.of_nat n)%Z.
Proof.
  intros Hn Hp. rewrite trunc_percent. split.
  - apply Z.div_pos; lia.
  - apply Z.div_lt_upper_bound; nia.
Qed.

Lemma Qle_bool_trans : Transitive (fun x y : Q => is_true (Qle_bool x y)).
Proof.
  intros x y z Hxy Hyz. unfold is_true in *.
  rewrite Qle_bool_iff in *. lra.
Qed.

(** In a sorted list a later position holds a larger item. *)
Lemma sorted_nth_le (xs : list Q) (i j : nat) :
  StronglySorted (fun x y : Q => is_true (Qle_bool x y)) xs ->
  (i <= j < length xs)%nat -> nth i xs 0 <= nth j xs 0.
Proof.
  intros Hs. revert i j. induction Hs as [| x xs Hs IH Hx]; intros i j Hij.
  - cbn in Hij. lia.
  - destruct i as [| i]; destruct j as [| j]; cbn [nth]; cbn [length] in Hij.
    + lra.
    + rewrite Forall_forall in Hx.
      apply Qle_bool_iff. apply Hx. apply nth_In. lia.
    + lia.
    + apply IH. lia.
Qed.

Lemma sort_in (xs : list Q) (x : Q) : In x (sort xs) <-> In x xs.
Proof.
  unfold sort. split; intros H.
  - apply (Permutation_in x (Permutation_sym (QSort.Permuted_sort xs))), H.
  - apply (Permutation_in x (QSort.Permuted_sort xs)), H.
Qed.

Lemma sort_length (xs : list Q) : length (sort xs) = length xs.
Proof. unfold sort. symmetry. apply Permutation_length, QSort.Permuted_sort. Qed.

End PyMoreFacts.

Section PerformanceFacts.

Import SummaryMetrics.

Lemma positive_times_in (l : list TestResult) (t : Q) :
  In t (map execution_time_ms (filter (fun r => gtb (execution_time_ms r) 0) l))
  <-> exists r, In r l /\ execution_time_ms r = t /\ 0 < t.
Proof.
  rewrite in_map_iff. split.
  - intros (r & <- & Hr). apply filter_In in Hr as [Hin Hpos].
    apply gtb_true in Hpos. exists r. repeat split; assumption.
  - intros (r & Hin & <- & Hpos). exists r. split; [reflexivity |].
    apply filter_In. split; [exact Hin | apply gtb_true; exact Hpos].
Qed.

(* What [_calculate_performance_metrics] computes, the mean taken exactly. *)
Lemma calculate_performance_metrics_spec (l : list TestResult) :
  exists m,
    _calculate_performance_metrics l = inr m
    /\ min_response_time_ms m <= p95_response_time_ms m
    /\ p95_response_time_ms m <= p99_response_time_ms m
    /\ p99_response_time_ms m <= max_response_time_ms m
    /\ min_response_time_ms m <= avg_response_time_ms m <= max_response_time_ms m
    /\ (forall r, In r l -> 0 < execution_time_ms r ->
                  min_response_time_ms m <= round2 (execution_time_ms r)
                  <= max_response_time_ms m)
    /\ ((forall r, In r l -> execution_time_ms r <= 0) ->
        avg_response_time_ms m == 0 /\ min_response_time_ms m == 0
        /\ max_response_time_ms m == 0 /\ p95_response_time_ms m == 0
        /\ p99_response_time_ms m == 0)
    /\ 0 <= min_response_time_ms m.
Proof.
  unfold _calculate_performance_metrics.
  set (times := map execution_time_ms
                    (filter (fun r => gtb (execution_time_ms r) 0) l)).
  destruct (is_empty times) eqn:E.
  - eexists. split; [reflexivity |].
    cbn [avg_response_time_ms min_response_time_ms max_response_time_ms
         p95_response_time_ms p99_response_time_ms].
    repeat split; try lra; try reflexivity.
    + exfalso. assert (Hin : In (execution_time_ms r) times)
        by (apply positive_times_in; exists r; repeat split; assumption).
      destruct times; [destruct Hin | discriminate E].
    + exfalso. assert (Hin : In (execution_time_ms r) times)
        by (apply positive_times_in; exists r; repeat split; assumption).
      destruct times; [destruct Hin | discriminate E].
  - pose proof (is_empty_false_length _ E) as Hn.
    set (ts := sort times).
    assert (Hlen : length ts = length times) by apply sort_length.
    assert (Hne : ts <> []) by (intros Hnil; rewrite Hnil in Hlen; cbn in Hlen; lia).
    rewrite Hlen.
    rewrite truediv_returns by (apply of_int_pos in Hn; lra).
    cbn [lift]. rewrite bindx_returns.
    destruct (list_min_spec ts Hne) as (mn & -> & Hmn_in & Hmn).
    rewrite bindx_returns.
    destruct (list_max_spec ts Hne) as (mx & -> & Hmx_in & Hmx).
    rewrite bindx_returns.
    pose proof (percentile_index_in_range (length times) 95 Hn eq_refl) as H95.
    pose proof (percentile_index_in_range (length times) 99 Hn eq_refl) as H99.
    change (95 # 100) with 0.95 in H95. change (99 # 100) with 0.99 in H99.
    set (i95 := trunc (of_int (length times) * 0.95)) in *.
    set (i99 := trunc (of_int (length times) * 0.99)) in *.
    replace (i95 <? Z.of_nat (length times))%Z with true
      by (symmetry; apply Z.ltb_lt; lia).
    replace (i99 <? Z.of_nat (length times))%Z with true
      by (symmetry; apply Z.ltb_lt; lia).
    rewrite (getitem_in_range ts i95 0) by (rewrite Hlen; exact H95).
    rewrite bindx_returns.
    rewrite (getitem_in_range ts i99 0) by (rewrite Hlen; exact H99).
    rewrite bindx_returns.
    eexists. split; [reflexivity |].
    cbn [avg_response_time_ms min_response_time_ms max_response_time_ms
         p95_response_time_ms p99_response_time_ms].
    assert (Hle : (i95 <= i99)%Z).
    { subst i95 i99. change 0.95 with (95 # 100). change 0.99 with (99 # 100).
      rewrite !trunc_percent. apply Z.div_le_mono; lia. }
    assert (Hin95 : In (nth (Z.to_nat i95) ts 0) ts) by (apply nth_In; lia).
    assert (Hin99 : In (nth (Z.to_nat i99) ts 0) ts) by (apply nth_In; lia).
    assert (Hsorted : nth (Z.to_nat i95) ts 0 <= nth (Z.to_nat i99) ts 0).
    { apply sorted_nth_le; [| lia].
      apply QSort.StronglySorted_sort, Qle_bool_trans. }
    assert (Hsum : of_int (length ts) * mn <= PyMore.sum ts <= of_int (length ts) * mx).
    { apply sum_bounds. intros x Hx. split; [apply Hmn | apply Hmx]; exact Hx. }
    rewrite Hlen in Hsum.
    pose proof (of_int_pos _ Hn) as Hpos.
    split; [apply round2_mono, Hmn, Hin95 |].
    split; [apply round2_mono, Hsorted |].
    split; [apply round2_mono, Hmx, Hin99 |].
    split.
    { split; apply round2_mono.
      - apply Qle_shift_div_l; [exact Hpos | lra].
      - apply Qle_shift_div_r; [exact Hpos | lra]. }
    split.
    { intros r Hr Hpos_r.
      assert (Hin : In (execution_time_ms r) ts).
      { apply sort_in. apply positive_times_in.
        exists r. repeat split; assumption. }
      split; apply round2_mono; [apply Hmn | apply Hmx]; exact Hin. }
    apply (proj1 (sort_in times mn)) in Hmn_in.
    apply (proj1 (positive_times_in l mn)) in Hmn_in as (r & Hr & <- & Hp).
    split.
    { intros Hnone. exfalso. specialize (Hnone r Hr). lra. }
    apply round2_nonneg. lra.
Qed.

(** The latency figures are returned for every run: no division by zero,
    no [min] or [max] of an empty list, no index out of range.  None is
    negative; the minimum, the two percentiles and the maximum are ordered,
    [min <= p95 <= p99 <= max]; every positive execution time, rounded,
    lies between the minimum and the maximum; and without a positive
    execution time all five figures are 0. *)
Theorem performance_metrics_ordered (l : list TestResult) :
  exists m,
    _calculate_performance_metrics l = inr m
    /\ 0 <= min_response_time_ms m
    /\ min_response_time_ms m <= p95_response_time_ms m
    /\ p95_response_time_ms m <= p99_response_time_ms m
    /\ p99_response_time_ms m <= max_response_time_ms m
    /\ 0 <= avg_response_time_ms m
    /\ (forall r, In r l -> 0 < execution_time_ms r ->
                  min_response_time_ms m <= round2 (execution_time_ms r)
                  <= max_response_time_ms m)
    /\ ((forall r, In r l -> execution_time_ms r <= 0) ->
        avg_response_time_ms m == 0 /\ min_response_time_ms m == 0
        /\ max_response_time_ms m == 0 /\ p95_response_time_ms m == 0
        /\ p99_response_time_ms m == 0).
Proof.
  destruct (calculate_performance_metrics_spec l)
    as (m & Hm & H95 & H99 & Hmax & [Havg _] & Hin & Hzero & Hmin).
  exists m. split; [exact Hm |]. split; [exact Hmin |].
  split; [exact H95 |]. split; [exact H99 |]. split; [exact Hmax |].
  split; [lra |]. split; [exact Hin | exact Hzero].
Qed.

End PerformanceFacts.

(** * Properties of the formatting helpers *)

Section DurationFacts.

Import SummaryMetrics.

Lemma trunc_nonneg_floor (x : Q) : 0 <= x -> trunc x = Qfloor x.
Proof.
  intros H. destruct x as [n d]. unfold trunc, Qfloor. cbn [Qnum Qden].
  apply Z.quot_div_nonneg; [| lia].
  unfold Qle in H. cbn in H. lia.
Qed.

Lemma floor_bounds (x : Q) : inject_Z (Qfloor x) <= x /\ x < inject_Z (Qfloor x) + 1.
Proof.
  split; [apply Qfloor_le |].
  pose proof (Qlt_floor x) as H. rewrite inject_Z_plus in H. exact H.
Qed.

Lemma inject_Z_lt_inv (a b : Z) : inject_Z a < inject_Z b + 1 -> (a <= b)%Z.
Proof.
  intros H. change 1 with (inject_Z 1) in H. rewrite <- inject_Z_plus in H.
  rewrite <- Zlt_Qlt in H. lia.
Qed.

Lemma div_sixty (x : Q) : x / 60 == x * (1 # 60).
Proof. reflexivity. Qed.

(** Whole minutes and remaining seconds of a duration of a minute or more. *)
Lemma duration_parts (seconds : Q) :
  60 <= seconds ->
  let minutes := trunc (seconds / 60) in
  let remaining := trunc (fmod seconds 60) in
  (1 <= minutes)%Z /\ (0 <= remaining < 60)%Z
  /\ inject_Z (60 * minutes + remaining) <= seconds
  /\ seconds < inject_Z (60 * minutes + remaining) + 1.
Proof.
  intros H. cbv zeta.
  pose proof (div_sixty seconds) as Hx.
  assert (Hx0 : 0 <= seconds / 60) by (rewrite Hx; lra).
  rewrite (trunc_nonneg_floor _ Hx0).
  destruct (floor_bounds (seconds / 60)) as [Hlo Hhi].
  unfold fmod.
  set (F := Qfloor (seconds / 60)) in *.
  assert (Hr0 : 0 <= seconds - 60 * inject_Z F) by lra.
  rewrite (trunc_nonneg_floor _ Hr0).
  destruct (floor_bounds (seconds - 60 * inject_Z F)) as [Hslo Hshi].
  set (s := Qfloor (seconds - 60 * inject_Z F)) in *.
  rewrite inject_Z_plus, inject_Z_mult. change (inject_Z 60) with 60.
  assert (HF : (1 <= F)%Z).
  { assert (HF' : inject_Z 0 < inject_Z F + 1) by (change (inject_Z 0) with 0; lra).
    apply inject_Z_lt_inv in HF'.
    assert (Hne : F <> 0%Z).
    { intros E0. rewrite E0 in Hhi. change (inject_Z 0) with 0 in Hhi. lra. }
    lia. }
  assert (Hs0 : (0 <= s)%Z).
  { apply inject_Z_lt_inv. change (inject_Z 0) with 0. lra. }
  assert (Hs60 : (s < 60)%Z).
  { rewrite Zlt_Qlt. change (inject_Z 60) with 60. lra. }
  repeat split; try assumption; lra.
Qed.

Variable format_1f : Q -> string.

(** A duration of a minute or more is rendered from its whole seconds
    [3600 h + 60 m + s] with [m, s < 60]: as minutes and seconds below one
    hour, and as hours and minutes, the seconds dropped, from one hour on. *)
Theorem format_duration_decomposes (ms : Q) :
  60000 <= ms ->
  exists h m s : Z,
    (0 <= h)%Z /\ (0 <= m < 60)%Z /\ (0 <= s < 60)%Z
    /\ inject_Z (3600 * h + 60 * m + s) <= ms / 1000
    /\ ms / 1000 < inject_Z (3600 * h + 60 * m + s) + 1
    /\ _format_duration format_1f ms
       = if (h =? 0)%Z
         then str_of_int m ++ "m " ++ str_of_int s ++ "s"
         else str_of_int h ++ "h " ++ str_of_int m ++ "m".
Proof.
  intros H.
  assert (Hsec : 60 <= ms / 1000).
  { assert (E : ms / 1000 == ms * (1 # 1000)) by reflexivity. rewrite E. lra. }
  destruct (duration_parts (ms / 1000) Hsec) as (HM & Hs & Hlo & Hhi).
  unfold _format_duration. cbv zeta.
  replace (ltb (ms / 1000) 60) with false by (symmetry; apply ltb_false; exact Hsec).
  set (M := trunc (ms / 1000 / 60)) in *.
  set (s := trunc (fmod (ms / 1000) 60)) in *.
  destruct (M <? 60)%Z eqn:E60.
  - apply Z.ltb_lt in E60.
    exists 0%Z, M, s.
    replace (3600 * 0 + 60 * M + s)%Z with (60 * M + s)%Z by lia.
    repeat split; try lia; assumption.
  - apply Z.ltb_ge in E60.
    assert (HM0 : 0 <= inject_Z M / 60).
    { assert (E : inject_Z M / 60 == inject_Z M * (1 # 60)) by reflexivity.
      rewrite E. assert (0 <= inject_Z M) by (change 0 with (inject_Z 0);
                                              rewrite <- Zle_Qle; lia).
      lra. }
    assert (Hh : trunc (inject_Z M / 60) = (M / 60)%Z).
    { rewrite (trunc_nonneg_floor _ HM0). unfold Qfloor, inject_Z, Qdiv, Qmult, Qinv.
      cbn [Qnum Qden]. f_equal; lia. }
    rewrite Hh.
    exists (M / 60)%Z, (M mod 60)%Z, s.
    pose proof (Z.div_mod M 60 ltac:(lia)) as Hdm.
    pose proof (Z.mod_pos_bound M 60 ltac:(lia)) as Hmod.
    assert (Hq : (1 <= M / 60)%Z) by (apply Z.div_le_lower_bound; lia).
    replace (3600 * (M / 60) + 60 * (M mod 60) + s)%Z with (60 * M + s)%Z by lia.
    replace (M / 60 =? 0)%Z with false by (symmetry; apply Z.eqb_neq; lia).
    repeat split; try lia; assumption.
Qed.

End DurationFacts.

Lemma format_duration_decomposes_witness :
  60000 <= 3725000
  /\ exists h m s : Z,
       (0 <= h)%Z /\ (0 <= m < 60)%Z /\ (0 <= s < 60)%Z
       /\ inject_Z (3600 * h + 60 * m + s) <= 3725000 / 1000
       /\ 3725000 / 1000 < inject_Z (3600 * h + 60 * m + s) + 1
       /\ SummaryMetrics._format_duration Samples.render_number 3725000
          = if (h =? 0)%Z
            then str_of_int m ++ "m " ++ str_of_int s ++ "s"
            else str_of_int h ++ "h " ++ str_of_int m ++ "m".
Proof.
  split; [discriminate |].
  apply (format_duration_decomposes Samples.render_number 3725000). discriminate.
Defined.

Example format_duration_samples :
  SummaryMetrics._format_duration Samples.render_number 3725000 = "1h 2m"
  /\ SummaryMetrics._format_duration Samples.render_number 125500 = "2m 5s"
  /\ SummaryMetrics._format_duration Samples.render_number 59999 = "<number>s".
Proof. repeat split; reflexivity. Qed.

Section TopRiskFacts.

Import SummaryMetrics.

Variable format_1f : Q -> string.

(** The top risk named in the summary is one of the four components, and
    no component has a larger stored score. *)
Theorem top_risk_is_maximal (a : RiskAssessment) :
  exists name score,
    _identify_top_risk format_1f a = name ++ " (" ++ format_1f score ++ ")"
    /\ In (name, score)
          [("Detection Risk", detection_risk a);
           ("False Positive Risk", false_positive_risk a);
           ("Compliance Risk", compliance_risk a);
           ("System Risk", system_risk a)]
    /\ detection_risk a <= score
    /\ false_positive_risk a <= score
    /\ compliance_risk a <= score
    /\ system_risk a <= score.
Proof.
  unfold _identify_top_risk, max_by_value. cbn [fold_left snd].
  destruct (gtb (false_positive_risk a) (detection_risk a)) eqn:E1; cbn [snd];
    [apply gtb_true in E1 | apply gtb_false in E1].
  - destruct (gtb (compliance_risk a) (false_positive_risk a)) eqn:E2; cbn [snd];
      [apply gtb_true in E2 | apply gtb_false in E2].
    + destruct (gtb (system_risk a) (compliance_risk a)) eqn:E3;
        [apply gtb_true in E3 | apply gtb_false in E3];
        do 2 eexists; (split; [reflexivity |]); cbn [In fst snd]; (split; [tauto |]);
        repeat split; lra.
    + destruct (gtb (system_risk a) (false_positive_risk a)) eqn:E3;
        [apply gtb_true in E3 | apply gtb_false in E3];
        do 2 eexists; (split; [reflexivity |]); cbn [In fst snd]; (split; [tauto |]);
        repeat split; lra.
  - destruct (gtb (compliance_risk a) (detection_risk a)) eqn:E2; cbn [snd];
      [apply gtb_true in E2 | apply gtb_false in E2].
    + destruct (gtb (system_risk a) (compliance_risk a)) eqn:E3;
        [apply gtb_true in E3 | apply gtb_false in E3];
        do 2 eexists; (split; [reflexivity |]); cbn [In fst snd]; (split; [tauto |]);
        repeat split; lra.
    + destruct (gtb (system_risk a) (detection_risk a)) eqn:E3;
        [apply gtb_true in E3 | apply gtb_false in E3];
        do 2 eexists; (split; [reflexivity |]); cbn [In fst snd]; (split; [tauto |]);
        repeat split; lra.
Qed.

End TopRiskFacts.

(** * Properties of the deployment verdicts *)

Section VerdictFacts.

Import FraudRiskAnalyzer.
Import FraudQAAgent.

(** The executive summary's verdict is the risk report's verdict cut
    short, with one exception: a MEDIUM risk level without a compliance
    block is approved outright by the executive summary, where the risk
    report gives a conditional approval. *)
Theorem executive_verdict_is_prefix_of_report_verdict (a : RiskAssessment) :
  (String.prefix (TestReportBuilder.deployment_rec (Some a))
                 (_get_deployment_recommendation a) = true
   <-> ~ (risk_level a = MEDIUM /\ compliance_risk a < 60))
  /\ blocks (TestReportBuilder.deployment_rec (Some a))
     = blocks (_get_deployment_recommendation a).
Proof.
  unfold TestReportBuilder.deployment_rec, _get_deployment_recommendation.
  destruct (geb (compliance_risk a) 60) eqn:E;
    [apply geb_true in E | apply geb_false in E];
    destruct (risk_level a); cbn [RiskLevel_eqb];
    (split; [| reflexivity]);
    (split; [intros H; first [discriminate H | intros [H1 H2]; first [discriminate H1 | lra]]
            | intros H; first [reflexivity | exfalso; apply H; split; [reflexivity | exact E]]]).
Qed.

Lemma round2_lt_inv (x y : Q) : round2 x < round2 y -> x < y.
Proof.
  intros H. destruct (Qlt_le_dec x y) as [Hlt | Hle]; [exact Hlt |].
  apply round2_mono in Hle. lra.
Qed.

(** The agent and the risk level agree in one direction: on an assessment
    returned by [calculate_risk], a CRITICAL level makes the agent's
    verdict a DO NOT DEPLOY, and the agent approves only at level LOW or
    MEDIUM (the level is taken before rounding, the agent reads the rounded
    score). *)
Theorem agent_verdict_respects_risk_level (l : list TestResult) (a : RiskAssessment) :
  calculate_risk l = inr a ->
  (risk_level a = CRITICAL ->
   blocks (get_deployment_recommendation (Some a) l) = true)
  /\ (approves (get_deployment_recommendation (Some a) l) = true ->
      risk_level a = LOW \/ risk_level a = MEDIUM).
Proof.
  intros H.
  destruct (calculate_risk_inv l a H) as (d & f & y & recs & _ & _ & _ & _ & ->).
  cbn [risk_level]. unfold get_deployment_recommendation. cbn [overall_risk_score].
  set (w := weighted_risk_score d f (_calculate_compliance_risk l) y).
  assert (E75 : round2 75 == 75) by reflexivity.
  assert (E50 : round2 50 == 50) by reflexivity.
  destruct (categorize_risk_thresholds w) as (Hc & Hh & Hm & Hl).
  split.
  - intros Hlevel. apply Hc in Hlevel.
    destruct (0 <? critical_failures l)%nat; [reflexivity |].
    assert (G : geb (round2 w) 75 = true).
    { apply geb_true. apply round2_mono in Hlevel. lra. }
    rewrite G. reflexivity.
  - destruct (0 <? critical_failures l)%nat; [discriminate |].
    destruct (geb (round2 w) 75) eqn:G75; [discriminate |].
    destruct (geb (round2 w) 50) eqn:G50; [discriminate |].
    intros _. apply geb_false in G50.
    assert (Hw : w < 50) by (apply round2_lt_inv; lra).
    destruct (Qlt_le_dec w 25) as [H25 | H25].
    + left. apply Hl. exact H25.
    + right. apply Hm. split; assumption.
Qed.

Lemma agent_verdict_respects_risk_level_witness :
  exists a,
    calculate_risk Samples.one_performance_failure = inr a
    /\ ((risk_level a = CRITICAL ->
         blocks (get_deployment_recommendation
                   (Some a) Samples.one_performance_failure) = true)
        /\ (approves (get_deployment_recommendation
                        (Some a) Samples.one_performance_failure) = true ->
            risk_level a = LOW \/ risk_level a = MEDIUM)).
Proof.
  eexists. split; [vm_compute; reflexivity |].
  apply (agent_verdict_respects_risk_level Samples.one_performance_failure).
  vm_compute. reflexivity.
Defined.

(** The compliance score of a run, by its number of failed compliance
    tests. *)
Lemma compliance_risk_by_count (l : list TestResult) :
  _calculate_compliance_risk l
  = match count is_failed (filter is_compliance_test l) with
    | 0%nat => 0
    | 1%nat => 60
    | 2%nat => 85
    | _ => 100
    end.
Proof.
  unfold _calculate_compliance_risk. fold is_failed.
  change (fun r : TestResult =>
            contains "Compliance" (test_case_id r) || contains "COMP" (test_case_id r))
    with is_compliance_test.
  destruct (filter is_compliance_test l); reflexivity.
Qed.

Lemma count_pos_iff {A : Type} (p : A -> bool) (xs : list A) :
  (0 < count p xs)%nat <-> exists x, In x xs /\ p x = true.
Proof.
  unfold count. split.
  - intros H. destruct (filter p xs) as [| x rest] eqn:E; [cbn in H; lia |].
    exists x. apply filter_In. rewrite E. left. reflexivity.
  - intros (x & Hin & Hp).
    assert (Hf : In x (filter p xs)) by (apply filter_In; split; assumption).
    destruct (filter p xs); [destruct Hf | cbn; lia].
Qed.

(* When the risk report blocks on compliance. *)
Lemma compliance_block_spec
    (l : list TestResult) (a : RiskAssessment) :
  calculate_risk l = inr a ->
  (_get_deployment_recommendation a
   = "🛑 DO NOT DEPLOY - Compliance violations (BLOCKING)"
   <-> exists r, In r l /\ is_compliance_test r = true /\ status r = FAILED).
Proof.
  intros H.
  destruct (calculate_risk_inv l a H) as (d & f & y & recs & _ & _ & _ & _ & ->).
  unfold _get_deployment_recommendation. cbn [compliance_risk risk_level].
  rewrite compliance_risk_by_count.
  assert (Hex : (0 < count is_failed (filter is_compliance_test l))%nat
                <-> exists r, In r l /\ is_compliance_test r = true /\ status r = FAILED).
  { rewrite count_pos_iff. split.
    - intros (r & Hin & Hf). apply filter_In in Hin as [Hin Hc].
      exists r. repeat split; try assumption.
      unfold is_failed in Hf. destruct (status r); try discriminate. reflexivity.
    - intros (r & Hin & Hc & Hs). exists r. split.
      + apply filter_In. split; assumption.
      + unfold is_failed. rewrite Hs. reflexivity. }
  rewrite <- Hex.
  destruct (count is_failed (filter is_compliance_test l)) as [| [| [| k]]].
  - change (geb (round2 0) 60) with false. cbv iota.
    split; [| lia].
    destruct (_categorize_risk (weighted_risk_score d f 0 y));
      cbn [RiskLevel_eqb]; intros Hd; discriminate Hd.
  - change (geb (round2 60) 60) with true. cbv iota. split; [lia | reflexivity].
  - change (geb (round2 85) 60) with true. cbv iota. split; [lia | reflexivity].
  - change (geb (round2 100) 60) with true. cbv iota. split; [lia | reflexivity].
Qed.

(** One failed compliance test is enough, and needed, for the risk report
    to block the deployment on compliance: on an assessment returned by
    [calculate_risk] the report's verdict is the compliance block exactly
    when some result with a compliance id has status FAILED. *)
Theorem compliance_block_iff_failed_compliance_test
    (l : list TestResult) (a : RiskAssessment) :
  calculate_risk l = inr a ->
  (_get_deployment_recommendation a
   = "🛑 DO NOT DEPLOY - Compliance violations (BLOCKING)"
   <-> exists r, In r l /\ is_compliance_test r = true /\ status r = FAILED).
Proof. exact (compliance_block_spec l a). Qed.

Lemma compliance_block_iff_failed_compliance_test_witness :
  exists a,
    calculate_risk Samples.one_compliance_failure = inr a
    /\ (_get_deployment_recommendation a
        = "🛑 DO NOT DEPLOY - Compliance violations (BLOCKING)"
        <-> exists r, In r Samples.one_compliance_failure
                      /\ is_compliance_test r = true /\ status r = FAILED).
Proof.
  eexists. split; [vm_compute; reflexivity |].
  apply (compliance_block_iff_failed_compliance_test Samples.one_compliance_failure).
  vm_compute. reflexivity.
Defined.

End VerdictFacts.

(** * Properties of the stored scores *)

Section StoredScores.

Import FraudRiskAnalyzer.
Import FraudQAAgent.

Lemma count_filter_le {A : Type} (p q : A -> bool) (xs : list A) :
  (count p (filter q xs) <= count p xs)%nat.
Proof.
  unfold count. induction xs as [| x xs IH]; [cbn; lia |].
  cbn [filter]. destruct (q x), (p x) eqn:E; cbn [filter length]; rewrite ?E;
    cbn [length]; lia.
Qed.

Lemma failed_plus_blocked_le (xs : list TestResult) :
  (count is_failed xs + count (fun r => TestStatus_eqb (status r) BLOCKED) xs
   <= length xs)%nat.
Proof.
  unfold count, is_failed. induction xs as [| r xs IH]; [cbn; lia |].
  cbn [filter]. destruct (status r); cbn [TestStatus_eqb length]; lia.
Qed.

(** System risk never exceeds the score of a failure rate of 1. *)
Lemma system_risk_upper_bound (l : list TestResult) (y : Q) :
  _calculate_system_risk l = inr y -> 0 <= y <= 820.
Proof.
  intros H. destruct (system_risk_returns l) as (y' & Hy' & Hnonneg).
  rewrite H in Hy'. injection Hy' as <-. split; [exact Hnonneg |].
  revert H. unfold _calculate_system_risk. fold is_failed.
  set (perf := filter _ l).
  destruct (is_empty perf) eqn:E.
  - intros H. injection H as <-. lra.
  - assert (Hn : (0 < length l)%nat).
    { destruct l; [discriminate E | simpl; lia]. }
    replace (length l =? 0)%nat with false by (symmetry; apply Nat.eqb_neq; lia).
    cbn [negb]. rewrite truediv_count by exact Hn. rewrite bind_returns.
    intros H. injection H as <-.
    assert (Hk : (count is_failed perf
                  + count (fun r => TestStatus_eqb (status r) BLOCKED) l
                  <= length l)%nat).
    { pose proof (count_filter_le is_failed
                    (fun r => contains "Performance" (test_case_id r)
                              || contains "PERF" (test_case_id r)) l).
      pose proof (failed_plus_blocked_le l). subst perf. lia. }
    destruct (proportion_bounds _ _ Hk Hn) as [_ H1].
    apply (system_risk_curve_mono _ 1) in H1.
    assert (E1 : system_risk_curve 1 == 820) by reflexivity. lra.
Qed.

(** The stored scores of every assessment returned by [calculate_risk]:
    detection, false-positive and compliance risk lie in [0, 100]; system
    risk, which has no cap, lies in [0, 820]; the overall score lies in
    [0, 208]. *)
Theorem stored_scores_ranges (l : list TestResult) (a : RiskAssessment) :
  calculate_risk l = inr a ->
  0 <= detection_risk a <= 100
  /\ 0 <= false_positive_risk a <= 100
  /\ 0 <= compliance_risk a <= 100
  /\ 0 <= system_risk a <= 820
  /\ 0 <= overall_risk_score a <= 208.
Proof.
  intros H.
  destruct (calculate_risk_inv l a H) as (d & f & y & recs & Hd & Hf & Hy & _ & ->).
  cbn [overall_risk_score detection_risk false_positive_risk compliance_risk system_risk].
  destruct (detection_risk_returns l) as (d' & Hd' & Bd).
  rewrite Hd in Hd'. injection Hd' as <-.
  destruct (false_positive_risk_returns l) as (f' & Hf' & Bf).
  rewrite Hf in Hf'. injection Hf' as <-.
  pose proof (compliance_risk_bounds l) as Bc.
  pose proof (system_risk_upper_bound l y Hy) as By.
  assert (E0 : round2 0 == 0) by reflexivity.
  assert (E100 : round2 100 == 100) by reflexivity.
  assert (E820 : round2 820 == 820) by reflexivity.
  assert (E208 : round2 208 == 208) by reflexivity.
  pose proof (weighted_risk_score_unfold d f (_calculate_compliance_risk l) y) as Ew.
  set (c := _calculate_compliance_risk l) in *.
  set (w := weighted_risk_score d f c y) in *.
  pose proof (round2_mono 0 d (proj1 Bd)). pose proof (round2_mono d 100 (proj2 Bd)).
  pose proof (round2_mono 0 f (proj1 Bf)). pose proof (round2_mono f 100 (proj2 Bf)).
  pose proof (round2_mono 0 c (proj1 Bc)). pose proof (round2_mono c 100 (proj2 Bc)).
  pose proof (round2_mono 0 y (proj1 By)). pose proof (round2_mono y 820 (proj2 By)).
  assert (Hw0 : 0 <= w) by lra. assert (Hw1 : w <= 208) by lra.
  pose proof (round2_mono 0 w Hw0). pose proof (round2_mono w 208 Hw1).
  repeat split; lra.
Qed.

Lemma stored_scores_ranges_witness :
  exists a,
    calculate_risk Samples.one_performance_failure = inr a
    /\ (0 <= detection_risk a <= 100
        /\ 0 <= false_positive_risk a <= 100
        /\ 0 <= compliance_risk a <= 100
        /\ 0 <= system_risk a <= 820
        /\ 0 <= overall_risk_score a <= 208).
Proof.
  eexists. split; [vm_compute; reflexivity |].
  apply (stored_scores_ranges Samples.one_performance_failure).
  vm_compute. reflexivity.
Defined.

End StoredScores.

(** * A clean run *)

Section CleanRun.

Import FraudRiskAnalyzer.
Import FraudQAAgent.

Lemma count_none {A : Type} (p : A -> bool) (xs : list A) :
  (forall x, In x xs -> p x = false) -> count p xs = 0%nat.
Proof.
  intros H. unfold count. induction xs as [| x xs IH]; [reflexivity |].
  cbn [filter]. rewrite (H x) by (left; reflexivity).
  apply IH. intros z Hz. apply H. right. exact Hz.
Qed.

Lemma zero_rate (n : nat) : of_int 0 / of_int n == 0.
Proof. unfold Qdiv. change (of_int 0) with 0. apply Qmult_0_l. Qed.

Lemma detection_score_of_zero (r : Q) : r == 0 -> min 100 (detection_risk_curve r) == 0.
Proof.
  intros H. unfold detection_risk_curve. split_ltb; unfold min; split_ltb; lra.
Qed.

Lemma false_positive_score_of_zero (r : Q) :
  r == 0 -> min 100 (false_positive_risk_curve r) == 0.
Proof.
  intros H. unfold false_positive_risk_curve. split_ltb; unfold min; split_ltb; lra.
Qed.

Lemma system_score_of_zero (r : Q) : r == 0 -> system_risk_curve r == 0.
Proof. intros H. unfold system_risk_curve. split_ltb; lra. Qed.

Variable l : list TestResult.
Hypothesis run_not_empty : l <> [].
Hypothesis run_clean : forall r, In r l -> is_failed_or_blocked r = false.

Lemma clean_not_failed (r : TestResult) : In r l -> TestStatus_eqb (status r) FAILED = false.
Proof.
  intros H. apply run_clean in H. unfold is_failed_or_blocked in H.
  apply orb_false_iff in H. tauto.
Qed.

Lemma clean_not_blocked (r : TestResult) :
  In r l -> TestStatus_eqb (status r) BLOCKED = false.
Proof.
  intros H. apply run_clean in H. unfold is_failed_or_blocked in H.
  apply orb_false_iff in H. tauto.
Qed.

Lemma clean_detection : exists d, _calculate_detection_risk l = inr d /\ d == 0.
Proof.
  unfold _calculate_detection_risk.
  destruct (is_empty (fraud_tests l)) eqn:E.
  - exists 0. split; reflexivity.
  - cbn [negb]. rewrite count_none.
    + rewrite truediv_count by (apply is_empty_false_length; exact E).
      rewrite bind_returns. eexists. split; [reflexivity |].
      apply detection_score_of_zero, zero_rate.
    + intros r Hr. apply filter_In in Hr as [Hr _].
      rewrite (clean_not_failed r Hr). reflexivity.
Qed.

Lemma clean_false_positive :
  exists f, _calculate_false_positive_risk l = inr f /\ f == 0.
Proof.
  unfold _calculate_false_positive_risk.
  destruct (is_empty (negative_tests l)) eqn:E.
  - exists 0. split; reflexivity.
  - cbn [negb]. rewrite count_none.
    + rewrite truediv_count by (apply is_empty_false_length; exact E).
      rewrite bind_returns. eexists. split; [reflexivity |].
      apply false_positive_score_of_zero, zero_rate.
    + intros r Hr. apply filter_In in Hr as [Hr _].
      rewrite (clean_not_failed r Hr). reflexivity.
Qed.

Lemma clean_compliance : _calculate_compliance_risk l = 0.
Proof.
  rewrite compliance_risk_by_count. rewrite count_none; [reflexivity |].
  intros r Hr. apply filter_In in Hr as [Hr _]. apply clean_not_failed, Hr.
Qed.

Lemma clean_system : exists y, _calculate_system_risk l = inr y /\ y == 0.
Proof.
  unfold _calculate_system_risk.
  destruct (is_empty (filter _ l)) eqn:E.
  - exists 0. split; reflexivity.
  - assert (Hn : (0 < length l)%nat) by (destruct l; [contradiction | simpl; lia]).
    replace (length l =? 0)%nat with false by (symmetry; apply Nat.eqb_neq; lia).
    cbn [negb].
    rewrite (count_none (fun r => TestStatus_eqb (status r) FAILED)).
    + rewrite (count_none (fun r => TestStatus_eqb (status r) BLOCKED))
        by apply clean_not_blocked.
      cbn [Nat.add]. rewrite truediv_count by exact Hn.
      rewrite bind_returns. eexists. split; [reflexivity |].
      apply system_score_of_zero, zero_rate.
    + intros r Hr. apply filter_In in Hr as [Hr _]. apply clean_not_failed, Hr.
Qed.

(** A run in which no test failed and none was blocked scores 0 on all
    four components and overall, has risk level LOW, gets the single
    "ready for deployment" message, and is approved by the agent. *)
Theorem clean_run_is_approved :
  exists a,
    calculate_risk l = inr a
    /\ overall_risk_score a == 0
    /\ detection_risk a == 0
    /\ false_positive_risk a == 0
    /\ compliance_risk a == 0
    /\ system_risk a == 0
    /\ risk_level a = LOW
    /\ recommendations a
       = ["✅ All risk metrics within acceptable ranges. System appears ready for deployment pending final approvals."]
    /\ get_deployment_recommendation (Some a) l
       = "✅ APPROVED FOR DEPLOYMENT - Low risk".
Proof.
  destruct clean_detection as (d & Hd & Ed).
  destruct clean_false_positive as (f & Hf & Ef).
  destruct clean_system as (y & Hy & Ey).
  pose proof clean_compliance as Hc.
  destruct (generate_recommendations_spec d f 0 y l run_not_empty)
    as (recs & Hrecs & _ & Hready).
  assert (Hfailed : count is_failed l = 0%nat) by (apply count_none, clean_not_failed).
  assert (Erecs : recs = ["✅ All risk metrics within acceptable ranges. System appears ready for deployment pending final approvals."]).
  { apply Hready. rewrite Hfailed.
    pose proof (zero_rate (length l)). repeat split; lra. }
  pose proof (weighted_risk_score_unfold d f 0 y) as Ew.
  assert (E0 : round2 0 == 0) by reflexivity.
  assert (Hw : weighted_risk_score d f 0 y == 0) by lra.
  unfold calculate_risk.
  rewrite Hd, bind_returns, Hf, bind_returns, Hy, bind_returns, Hc.
  rewrite Hrecs, bind_returns.
  eexists. split; [reflexivity |].
  cbn [overall_risk_score detection_risk false_positive_risk compliance_risk
       system_risk risk_level recommendations].
  assert (Ro : round2 (weighted_risk_score d f 0 y) == 0)
    by (rewrite (round2_compat _ 0 Hw); exact E0).
  split; [exact Ro |].
  split; [rewrite (round2_compat _ 0 Ed); exact E0 |].
  split; [rewrite (round2_compat _ 0 Ef); exact E0 |].
  split; [exact E0 |].
  split; [rewrite (round2_compat _ 0 Ey); exact E0 |].
  split; [apply categorize_risk_thresholds; lra |].
  split; [exact Erecs |].
  apply agent_ignores_compliance_risk.
  - unfold critical_failures. apply count_none. intros r Hr.
    rewrite (clean_not_failed r Hr). reflexivity.
  - cbn [overall_risk_score]. lra.
Qed.

End CleanRun.

Lemma clean_run_is_approved_witness :
  let l := [Samples.legitimate_card_fraud_test] in
  l <> []
  /\ (forall r, In r l -> is_failed_or_blocked r = false)
  /\ exists a,
       FraudRiskAnalyzer.calculate_risk l = inr a
       /\ overall_risk_score a == 0
       /\ detection_risk a == 0
       /\ false_positive_risk a == 0
       /\ compliance_risk a == 0
       /\ system_risk a == 0
       /\ risk_level a = LOW
       /\ recommendations a
          = ["✅ All risk metrics within acceptable ranges. System appears ready for deployment pending final approvals."]
       /\ FraudQAAgent.get_deployment_recommendation (Some a) l
          = "✅ APPROVED FOR DEPLOYMENT - Low risk".
Proof.
  assert (Hclean : forall r, In r [Samples.legitimate_card_fraud_test] ->
                             is_failed_or_blocked r = false).
  { intros r [<- | []]. reflexivity. }
  split; [discriminate |]. split; [exact Hclean |].
  apply (clean_run_is_approved [Samples.legitimate_card_fraud_test]);
    [discriminate | exact Hclean].
Defined.

(** * The dashboard bars *)

Section DashboardFacts.

Import RiskDashboard.

(* The cells of a bar in exact arithmetic. *)
Lemma bar_cells_spec (score : Q) (width : Z) :
  0 <= score <= 100 -> (0 <= width)%Z ->
  let filled := Qfloor (score / 100 * inject_Z width) in
  (0 <= filled <= width)%Z
  /\ bar_cells score width
     = (repeat "█" (Z.to_nat filled) ++ repeat "░" (Z.to_nat (width - filled)))%list
  /\ count_occ string_dec (bar_cells score width) "█" = Z.to_nat filled.
Proof.
  intros [H0 H1] Hw. unfold bar_cells. cbv zeta.
  assert (Hwq : 0 <= inject_Z width)
    by (change 0 with (inject_Z 0); rewrite <- Zle_Qle; exact Hw).
  assert (Es : score / 100 == score * (1 # 100)) by reflexivity.
  assert (Hx0 : 0 <= score / 100 * inject_Z width).
  { rewrite Es. apply Qmult_le_0_compat; lra. }
  assert (Hx1 : score / 100 * inject_Z width <= inject_Z width).
  { rewrite Es. rewrite <- (Qmult_1_l (inject_Z width)) at 2.
    apply Qmult_le_compat_r; lra. }
  rewrite (trunc_nonneg_floor _ Hx0).
  destruct (floor_bounds (score / 100 * inject_Z width)) as [Hlo Hhi].
  set (filled := Qfloor (score / 100 * inject_Z width)) in *.
  assert (Hf0 : (0 <= filled)%Z).
  { apply inject_Z_lt_inv. change (inject_Z 0) with 0. lra. }
  assert (Hf1 : (filled <= width)%Z).
  { rewrite Zle_Qle. lra. }
  split; [lia |]. split; [reflexivity |].
  rewrite count_occ_app.
  rewrite count_occ_repeat_eq by reflexivity.
  rewrite count_occ_repeat_neq by discriminate. lia.
Qed.

(** For a score between 0 and 100, and a width that a float holds exactly,
    a bar has exactly [width] cells: full ones, then empty ones.  A score
    of 0 gives no full cell, a score of 100 gives [width] of them, and a
    lower score never gives more full cells. *)
Theorem risk_bar_has_width_cells (score : Q) (width : Z) :
  0 <= score <= 100 -> (0 <= width <= 9007199254740992)%Z ->
  let full := count_occ string_dec (bar_cells score width) "█" in
  length (bar_cells score width) = Z.to_nat width
  /\ (full <= Z.to_nat width)%nat
  /\ bar_cells score width
     = (repeat "█" full ++ repeat "░" (Z.to_nat width - full))%list
  /\ (score == 0 -> full = 0%nat)
  /\ (score == 100 -> full = Z.to_nat width)
  /\ (forall lower : Q,
        0 <= lower <= score ->
        (count_occ string_dec (bar_cells lower width) "█" <= full)%nat).
Proof.
  intros Hs [Hw _]. cbv zeta.
  destruct (bar_cells_spec score width Hs Hw) as ([Hf0 Hf1] & Hcells & Hfull).
  cbv zeta in Hf0, Hf1, Hcells, Hfull.
  rewrite Hfull.
  split; [rewrite Hcells, length_app, !repeat_length; lia |].
  split; [lia |].
  split.
  { rewrite Hcells. f_equal. f_equal. lia. }
  split.
  { intros E.
    assert (Ex : score / 100 * inject_Z width == 0) by (rewrite E; reflexivity).
    rewrite (Qfloor_comp _ _ Ex). reflexivity. }
  split.
  { intros E.
    assert (Ex : score / 100 * inject_Z width == inject_Z width).
    { rewrite E. setoid_replace (100 / 100) with 1 by reflexivity.
      apply Qmult_1_l. }
    rewrite (Qfloor_comp _ _ Ex), Qfloor_Z. reflexivity. }
  intros lower [Hl0 Hl1].
  destruct (bar_cells_spec lower width) as (_ & _ & Hlow); [lra | exact Hw |].
  cbv zeta in Hlow. rewrite Hlow.
  apply Z2Nat.inj_le.
  - assert (Hx : 0 <= lower / 100 * inject_Z width).
    { assert (Es : lower / 100 == lower * (1 # 100)) by reflexivity. rewrite Es.
      apply Qmult_le_0_compat; [lra |].
      change 0 with (inject_Z 0). rewrite <- Zle_Qle. exact Hw. }
    apply Qfloor_resp_le in Hx. exact Hx.
  - exact Hf0.
  - apply Qfloor_resp_le.
    assert (E1 : lower / 100 == lower * (1 # 100)) by reflexivity.
    assert (E2 : score / 100 == score * (1 # 100)) by reflexivity.
    rewrite E1, E2. apply Qmult_le_compat_r; [lra |].
    change 0 with (inject_Z 0). rewrite <- Zle_Qle. exact Hw.
Qed.

Lemma risk_bar_has_width_cells_witness :
  0 <= 62.5 <= 100 /\ (0 <= 30 <= 9007199254740992)%Z
  /\ let full := count_occ string_dec (bar_cells 62.5 30) "█" in
     length (bar_cells 62.5 30) = Z.to_nat 30
     /\ (full <= Z.to_nat 30)%nat
     /\ bar_cells 62.5 30
        = (repeat "█" full ++ repeat "░" (Z.to_nat 30 - full))%list
     /\ (62.5 == 0 -> full = 0%nat)
     /\ (62.5 == 100 -> full = Z.to_nat 30)
     /\ (forall lower : Q,
           0 <= lower <= 62.5 ->
           (count_occ string_dec (bar_cells lower 30) "█" <= full)%nat).
Proof.
  split; [split; discriminate |]. split; [split; discriminate |].
  apply (risk_bar_has_width_cells 62.5 30); split; discriminate.
Defined.

(** A score above the range overflows the bar: the uncapped system risk
    of a fully failing run fills far more than the 30 cells of its bar. *)
Example risk_bar_overflows : (240 < length (bar_cells 820 30))%nat.
Proof. vm_compute. lia. Qed.

End DashboardFacts.

(** * Properties of the hallucination checker *)

Section SeverityFacts.

Import HallucinationChecker.

Lemma mem_In (x : string) (xs : list string) : mem x xs = true <-> In x xs.
Proof.
  unfold mem. rewrite existsb_exists. split.
  - intros (y & Hy & E). apply String.eqb_eq in E. subst. exact Hy.
  - intros H. exists x. split; [exact H | apply String.eqb_refl].
Qed.

Lemma mem_severity (s : string) (hs : list Hallucination) :
  mem s (map h_severity hs) = true <-> exists h, In h hs /\ h_severity h = s.
Proof.
  rewrite mem_In, in_map_iff. split; intros (h & H1 & H2); exists h; tauto.
Qed.

(* What [_calculate_severity] returns. *)
Lemma calculate_severity_spec (hs : list Hallucination) :
  let has s := exists h, In h hs /\ h_severity h = s in
  (_calculate_severity hs = "NONE" <-> hs = [])
  /\ (_calculate_severity hs = "CRITICAL" <-> has "CRITICAL")
  /\ (_calculate_severity hs = "HIGH" <-> ~ has "CRITICAL" /\ has "HIGH")
  /\ (_calculate_severity hs = "MEDIUM"
      <-> ~ has "CRITICAL" /\ ~ has "HIGH" /\ has "MEDIUM")
  /\ (_calculate_severity hs = "LOW"
      <-> hs <> [] /\ ~ has "CRITICAL" /\ ~ has "HIGH" /\ ~ has "MEDIUM").
Proof.
  cbv zeta. unfold _calculate_severity.
  destruct hs as [| h0 hs0] eqn:Ehs.
  - cbn [is_empty].
    repeat split; intros; try discriminate; try reflexivity;
      repeat match goal with
             | H : exists _, _ |- _ => destruct H as (? & ? & ?)
             | H : _ /\ _ |- _ => destruct H
             | H : In _ [] |- _ => destruct H
             end; congruence.
  - rewrite <- Ehs. replace (is_empty hs) with false by (subst; reflexivity).
    pose proof (mem_severity "CRITICAL" hs) as Hc.
    pose proof (mem_severity "HIGH" hs) as Hh.
    pose proof (mem_severity "MEDIUM" hs) as Hm.
    assert (Hne : hs <> []) by (subst; discriminate).
    clear Ehs.
    destruct (mem "CRITICAL" (map h_severity hs));
      [| destruct (mem "HIGH" (map h_severity hs));
         [| destruct (mem "MEDIUM" (map h_severity hs))]];
      repeat split; intros; try discriminate; try reflexivity; try assumption;
      try contradiction;
      try (apply Hc; reflexivity); try (apply Hh; reflexivity);
      try (apply Hm; reflexivity);
      try (intros X; apply Hc in X; discriminate X);
      try (intros X; apply Hh in X; discriminate X);
      try (intros X; apply Hm in X; discriminate X);
      repeat match goal with
             | H : _ /\ _ |- _ => destruct H
             end;
      try (exfalso;
           match goal with
           | N : ~ _ |- _ => apply N; first [apply Hc | apply Hh | apply Hm]; reflexivity
           | X : exists _, _ |- _ =>
               first [apply Hc in X | apply Hh in X | apply Hm in X]; discriminate X
           end).
Qed.

(** The severity of a check is the worst severity among its findings, in
    the order CRITICAL, HIGH, MEDIUM; it is LOW when none of them has one
    of these three, and NONE only without a finding. *)
Theorem calculate_severity_is_worst (hs : list Hallucination) :
  let has s := exists h, In h hs /\ h_severity h = s in
  (_calculate_severity hs = "NONE" <-> hs = [])
  /\ (_calculate_severity hs = "CRITICAL" <-> has "CRITICAL")
  /\ (_calculate_severity hs = "HIGH" <-> ~ has "CRITICAL" /\ has "HIGH")
  /\ (_calculate_severity hs = "MEDIUM"
      <-> ~ has "CRITICAL" /\ ~ has "HIGH" /\ has "MEDIUM")
  /\ (_calculate_severity hs = "LOW"
      <-> hs <> [] /\ ~ has "CRITICAL" /\ ~ has "HIGH" /\ ~ has "MEDIUM").
Proof. exact (calculate_severity_spec hs). Qed.

Lemma severity_score_bounds (s : string) : 0.5 <= severity_score s <= 0.95.
Proof.
  unfold severity_score.
  destruct (String.eqb s "CRITICAL"); [split; discriminate |].
  destruct (String.eqb s "HIGH"); [split; discriminate |].
  destruct (String.eqb s "MEDIUM"); [split; discriminate |].
  destruct (String.eqb s "LOW"); split; discriminate.
Qed.

(* What [_calculate_confidence] returns. *)
Lemma calculate_confidence_spec (hs : list Hallucination) :
  exists c,
    _calculate_confidence hs = inr c
    /\ (hs = [] -> c == 0)
    /\ (hs <> [] -> 0.5 <= c <= 0.95).
Proof.
  unfold _calculate_confidence.
  destruct (is_empty hs) eqn:E.
  - exists 0. split; [reflexivity |]. split; [reflexivity |].
    intros H. destruct hs; [contradiction | discriminate E].
  - pose proof (is_empty_false_length _ E) as Hn.
    rewrite truediv_returns by (apply of_int_pos in Hn; lra).
    rewrite bind_returns. eexists. split; [reflexivity |].
    split; [intros ->; discriminate E |]. intros _.
    pose proof (sum_bounds (map (fun h => severity_score (h_severity h)) hs) 0.5 0.95) as Hs.
    rewrite length_map in Hs.
    assert (Hall : forall x, In x (map (fun h => severity_score (h_severity h)) hs) ->
                             0.5 <= x <= 0.95).
    { intros x Hx. apply in_map_iff in Hx as (h & <- & _). apply severity_score_bounds. }
    specialize (Hs Hall). pose proof (of_int_pos _ Hn) as Hp.
    set (total := PyMore.sum (map (fun h => severity_score (h_severity h)) hs)) in *.
    assert (E5 : round2 0.5 == 0.5) by reflexivity.
    assert (E95 : round2 0.95 == 0.95) by reflexivity.
    assert (Hlo : 0.5 <= total / of_int (length hs))
      by (apply Qle_shift_div_l; [exact Hp | lra]).
    assert (Hhi : total / of_int (length hs) <= 0.95)
      by (apply Qle_shift_div_r; [exact Hp | lra]).
    apply round2_mono in Hlo. apply round2_mono in Hhi. lra.
Qed.

(** The confidence of a check is returned for every list of findings: 0
    without a finding (no division), and otherwise the rounded mean of the
    per-severity scores, between 0.5 and 0.95. *)
Theorem calculate_confidence_bounds (hs : list Hallucination) :
  exists c,
    _calculate_confidence hs = inr c
    /\ (hs = [] -> c == 0)
    /\ (hs <> [] -> 0.5 <= c <= 0.95).
Proof. exact (calculate_confidence_spec hs). Qed.

End SeverityFacts.

Section CheckerFacts.

Import HallucinationChecker.

Variable str_of_number : Q -> string.
Variable G : Type.
Variable random : G -> Q * G.
Variable randbelow : nat -> G -> nat * G.

#[local] Existing Instance Monad_stateT.

(* What [_validate_risk_score] reports. *)
Lemma validate_risk_score_spec (score : Q) (answer : Answer) :
  let alert := get (fraud_alert_triggered answer) false in
  (_validate_risk_score str_of_number score answer = None
   <-> 0 <= score <= 100
       /\ ~ (90 < score /\ alert = false) /\ ~ (score < 30 /\ alert = true))
  /\ (score < 0 \/ 100 < score
      <-> exists h, _validate_risk_score str_of_number score answer = Some h
                    /\ h_severity h = "CRITICAL" /\ h_type h = "incorrect_calculations")
  /\ (forall h, _validate_risk_score str_of_number score answer = Some h ->
                h_field h = "risk_score"
                /\ (h_severity h = "CRITICAL" \/ h_severity h = "HIGH")).
Proof.
  cbv zeta. unfold _validate_risk_score.
  destruct (ltb score 0) eqn:E0; [apply ltb_true in E0 | apply ltb_false in E0];
    cbn [orb].
  { split; [split; [discriminate | intros (H & _); lra] |].
    split; [split; [intros _; eexists; repeat split | intros _; left; exact E0] |].
    intros h H. injection H as <-. cbn. tauto. }
  destruct (gtb score 100) eqn:E1; [apply gtb_true in E1 | apply gtb_false in E1].
  { split; [split; [discriminate | intros (H & _); lra] |].
    split; [split; [intros _; eexists; repeat split | intros _; right; exact E1] |].
    intros h H. injection H as <-. cbn. tauto. }
  destruct (gtb score 90) eqn:E90; [apply gtb_true in E90 | apply gtb_false in E90];
    destruct (ltb score 30) eqn:E30; [apply ltb_true in E30 | apply ltb_false in E30
                                      | apply ltb_true in E30 | apply ltb_false in E30];
    destruct (get (fraud_alert_triggered answer) false); cbn [andb negb];
    (split; [split; [first [discriminate | intros _; repeat split; try lra;
                                            intros [? ?]; first [lra | discriminate]]
                    | first [reflexivity
                            | intros (_ & N1 & N2); exfalso;
                              first [apply N1; split; [lra | reflexivity]
                                    | apply N2; split; [lra | reflexivity]]]] |]);
    (split; [split; [intros [? | ?]; lra
                    | intros (h & H & Hs & _);
                      first [discriminate H | injection H as <-; discriminate Hs]] |]);
    intros h H; first [discriminate H | injection H as <-; cbn; tauto].
Qed.

(** The score check flags exactly the scores outside [0, 100] (as
    CRITICAL), the scores above 90 without an alert and the scores below 30
    with an alert (as HIGH); a missing alert flag counts as no alert. *)
Theorem validate_risk_score_flags (score : Q) (answer : Answer) :
  let alert := get (fraud_alert_triggered answer) false in
  (_validate_risk_score str_of_number score answer = None
   <-> 0 <= score <= 100
       /\ ~ (90 < score /\ alert = false) /\ ~ (score < 30 /\ alert = true))
  /\ (score < 0 \/ 100 < score
      <-> exists h, _validate_risk_score str_of_number score answer = Some h
                    /\ h_severity h = "CRITICAL" /\ h_type h = "incorrect_calculations")
  /\ (forall h, _validate_risk_score str_of_number score answer = Some h ->
                h_field h = "risk_score"
                /\ (h_severity h = "CRITICAL" \/ h_severity h = "HIGH")).
Proof. exact (validate_risk_score_spec score answer). Qed.

(** *** Running the checker *)

Lemma run_bind {A B : Type} (c : rnd G A) (k : A -> rnd G B) (g : G) :
  runStateT (bind c k) g
  = match runStateT c g with
    | inl e => inl e
    | inr (v, g') => runStateT (k v) g'
    end.
Proof.
  cbn. destruct (runStateT c g) as [e | [v g']]; reflexivity.
Qed.

Lemma run_ret {A : Type} (x : A) (g : G) :
  runStateT (ret x : rnd G A) g = inr (x, g).
Proof. reflexivity. Qed.

Lemma run_random (g : G) : runStateT (random_random G random) g = inr (random g).
Proof. reflexivity. Qed.

Lemma validate_indicators_returns (indicators invalid : list string) (g : G) :
  exists out g', runStateT (validate_indicators_from G random indicators invalid) g
                 = inr (out, g').
Proof.
  revert invalid g. induction indicators as [| i rest IH]; intros invalid g.
  - do 2 eexists. reflexivity.
  - cbn [validate_indicators_from]. rewrite run_bind.
    destruct (String.eqb i "high_value").
    + rewrite run_bind, run_random. destruct (random g) as [x g1].
      rewrite run_ret. apply IH.
    + destruct (String.eqb i "unusual_time").
      * rewrite run_bind, run_random. destruct (random g) as [x g1].
        rewrite run_ret. apply IH.
      * rewrite run_ret. apply IH.
Qed.

(** Whatever is drawn, the findings of a result are returned, and a
    finding of the score check is among them. *)
Lemma detect_returns (r : CheckedResult) (g : G) :
  exists hs g',
    runStateT (_detect_hallucinations str_of_number G random randbelow r) g = inr (hs, g')
    /\ forall score h,
         risk_score (cr_actual_result r) = Some score ->
         _validate_risk_score str_of_number score (cr_actual_result r) = Some h -> In h hs.
Proof.
  unfold _detect_hallucinations. cbv zeta.
  set (a := cr_actual_result r).
  rewrite run_bind.
  match goal with
  | |- context [match ?X with inl _ => _ | inr _ => _ end] =>
      assert (H1 : exists hs1 g1, X = inr (hs1, g1))
  end.
  { destruct (fraud_indicators a) as [inds |].
    - rewrite run_bind. unfold _validate_fraud_indicators.
      destruct (validate_indicators_returns inds [] g) as (out & g1 & ->).
      rewrite run_ret. do 2 eexists. reflexivity.
    - do 2 eexists. reflexivity. }
  destruct H1 as (hs1 & g1 & ->).
  rewrite run_bind.
  unfold _detect_contradictions at 1. cbv zeta.
  rewrite run_bind, run_random. destruct (random g1) as [x2 g2]. rewrite run_ret.
  rewrite run_bind, run_random. destruct (random g2) as [x3 g3].
  match goal with
  | |- context [ltb x3 0.05 && is_empty ?l] => set (hs4 := l)
  end.
  assert (Hin : forall score h,
             risk_score a = Some score ->
             _validate_risk_score str_of_number score a = Some h -> In h hs4).
  { intros score h Hs Hv. subst hs4. rewrite Hs, Hv.
    assert (Hx : In h (append hs1 h))
      by (unfold append; apply in_or_app; right; left; reflexivity).
    revert Hx. generalize (append hs1 h). intros found Hx.
    destruct (confidence a);
      [destruct (_validate_confidence str_of_number a) |];
      unfold append;
      repeat (apply in_or_app; left);
      exact Hx. }
  destruct (ltb x3 0.05 && is_empty hs4).
  - rewrite run_bind. unfold random_choice at 1. cbn [runStateT].
    destruct (randbelow _ g3) as [i1 g4]. cbn [ret Monad_py Monad_either].
    rewrite run_bind. unfold random_choice at 1. cbn [runStateT].
    destruct (randbelow _ g4) as [i2 g5]. cbn [ret Monad_py Monad_either].
    rewrite run_ret. do 2 eexists. split; [reflexivity |].
    intros score h Hs Hv. unfold append. apply in_or_app. left.
    apply (Hin score h Hs Hv).
  - rewrite run_ret. do 2 eexists. split; [reflexivity | exact Hin].
Qed.

Lemma verify_from_spec (results : list CheckedResult) :
  forall (acc : list HallucinationCheck) (g : G),
  exists new g',
    runStateT (verify_from str_of_number G random randbelow results acc) g
    = inr ((acc ++ new)%list, g')
    /\ Forall well_formed_check new
    /\ (length new <= length (filter is_checked results))%nat
    /\ (forall c, In c new ->
                  exists r, In r results /\ is_checked r = true
                            /\ cr_test_case_id r = hc_test_case_id c)
    /\ (forall r score,
          In r results -> is_checked r = true ->
          risk_score (cr_actual_result r) = Some score ->
          score < 0 \/ 100 < score ->
          exists c, In c new /\ hc_test_case_id c = cr_test_case_id r
                    /\ severity c = "CRITICAL").
Proof.
  induction results as [| r rest IH]; intros acc g.
  - exists [], g. rewrite app_nil_r. split; [reflexivity |].
    split; [constructor |]. split; [cbn; lia |].
    split; [intros c [] | intros r score []].
  - cbn [verify_from filter].
    assert (Eck : is_checked r
                  = negb (contains "Performance" (cr_test_case_id r)
                          || contains "Compliance" (cr_test_case_id r)))
      by reflexivity.
    destruct (contains "Performance" (cr_test_case_id r)
              || contains "Compliance" (cr_test_case_id r)) eqn:Eskip;
      cbn [negb] in Eck; rewrite Eck.
    + destruct (IH acc g) as (new & g' & Hrun & Hwf & Hlen & Hids & Hcrit).
      exists new, g'. split; [exact Hrun |]. split; [exact Hwf |].
      split; [exact Hlen |]. split.
      * intros c Hc. destruct (Hids c Hc) as (r0 & Hr0 & Hr1).
        exists r0. split; [right; exact Hr0 | exact Hr1].
      * intros r0 score [<- | Hr0] Hck Hs Hout.
        -- rewrite Eck in Hck. discriminate Hck.
        -- apply (Hcrit r0 score Hr0 Hck Hs Hout).
    + rewrite run_bind.
      destruct (detect_returns r g) as (hs & g1 & -> & Hin).
      rewrite run_bind.
      destruct (is_empty hs) eqn:Ehs; cbn [negb].
      * rewrite run_ret.
        destruct (IH acc g1) as (new & g' & Hrun & Hwf & Hlen & Hids & Hcrit).
        exists new, g'. split; [exact Hrun |]. split; [exact Hwf |].
        split; [cbn [length]; lia |]. split.
        -- intros c Hc. destruct (Hids c Hc) as (r0 & Hr0 & Hr1).
           exists r0. split; [right; exact Hr0 | exact Hr1].
        -- intros r0 score [<- | Hr0] Hck Hs Hout.
           ++ exfalso.
              destruct (validate_risk_score_spec score (cr_actual_result r))
                as (_ & Hflag & _).
              apply Hflag in Hout as (h & Hh & _).
              specialize (Hin score h Hs Hh).
              destruct hs; [destruct Hin | discriminate Ehs].
           ++ apply (Hcrit r0 score Hr0 Hck Hs Hout).
      * rewrite run_bind. cbn [runStateT].
        assert (Hne : hs <> []) by (intros ->; discriminate Ehs).
        destruct (calculate_confidence_spec hs) as (conf & -> & _ & Hconf).
        rewrite bind_returns. cbn [ret Monad_py Monad_either].
        rewrite run_ret.
        set (check := {| hc_test_case_id := cr_test_case_id r;
                         hallucinations_detected := hs;
                         severity := _calculate_severity hs;
                         confidence_score := conf |}).
        destruct (IH (append acc check) g1)
          as (new & g' & Hrun & Hwf & Hlen & Hids & Hcrit).
        exists (check :: new), g'.
        split; [rewrite Hrun; unfold append; rewrite <- app_assoc; reflexivity |].
        split.
        { constructor; [| exact Hwf].
          unfold well_formed_check. cbn [hallucinations_detected severity confidence_score].
          split; [exact Hne |]. split; [reflexivity |].
          split; [| apply Hconf, Hne].
          intros Hnone. apply calculate_severity_spec in Hnone. contradiction. }
        split; [cbn [length]; lia |]. split.
        -- intros c [<- | Hc].
           ++ exists r. split; [left; reflexivity |]. split; [exact Eck | reflexivity].
           ++ destruct (Hids c Hc) as (r0 & Hr0 & Hr1).
              exists r0. split; [right; exact Hr0 | exact Hr1].
        -- intros r0 score [<- | Hr0] Hck Hs Hout.
           ++ exists check. split; [left; reflexivity |]. split; [reflexivity |].
              cbn [severity].
              destruct (validate_risk_score_spec score (cr_actual_result r))
                as (_ & Hflag & _).
              apply Hflag in Hout as (h & Hh & Hsev & _).
              apply calculate_severity_spec.
              exists h. split; [apply (Hin score h Hs Hh) | exact Hsev].
           ++ destruct (Hcrit r0 score Hr0 Hck Hs Hout) as (c & Hc & Hc').
              exists c. split; [right; exact Hc | exact Hc'].
Qed.

(* The checks follow the results: a mask tells which of the results that
   are not skipped got a check. *)
Lemma verify_from_order (results : list CheckedResult) :
  forall (acc : list HallucinationCheck) (g : G),
  exists new g' mask,
    runStateT (verify_from str_of_number G random randbelow results acc) g
    = inr ((acc ++ new)%list, g')
    /\ length mask = length (filter is_checked results)
    /\ map hc_test_case_id new
       = map cr_test_case_id
             (map fst (filter snd (combine (filter is_checked results) mask))).
Proof.
  induction results as [| r rest IH]; intros acc g.
  - exists [], g, []. rewrite app_nil_r. repeat split.
  - cbn [verify_from filter].
    assert (Eck : is_checked r
                  = negb (contains "Performance" (cr_test_case_id r)
                          || contains "Compliance" (cr_test_case_id r)))
      by reflexivity.
    destruct (contains "Performance" (cr_test_case_id r)
              || contains "Compliance" (cr_test_case_id r)) eqn:Eskip;
      cbn [negb] in Eck; rewrite Eck.
    + apply IH.
    + rewrite run_bind.
      destruct (detect_returns r g) as (hs & g1 & -> & _).
      rewrite run_bind.
      destruct (is_empty hs) eqn:Ehs; cbn [negb].
      * rewrite run_ret.
        destruct (IH acc g1) as (new & g' & mask & Hrun & Hlen & Hids).
        exists new, g', (false :: mask). split; [exact Hrun |].
        split; [cbn [length]; lia |].
        cbn [combine filter snd]. exact Hids.
      * rewrite run_bind. cbn [runStateT].
        destruct (calculate_confidence_spec hs) as (conf & -> & _).
        rewrite bind_returns. cbn [ret Monad_py Monad_either].
        rewrite run_ret.
        set (check := {| hc_test_case_id := cr_test_case_id r;
                         hallucinations_detected := hs;
                         severity := _calculate_severity hs;
                         confidence_score := conf |}).
        destruct (IH (append acc check) g1) as (new & g' & mask & Hrun & Hlen & Hids).
        exists (check :: new), g', (true :: mask).
        split; [rewrite Hrun; unfold append; rewrite <- app_assoc; reflexivity |].
        split; [cbn [length]; lia |].
        cbn [combine filter snd map fst hc_test_case_id]. rewrite Hids. reflexivity.
Qed.

(** Whatever the random source draws, [verify_results] returns; every
    check it returns carries at least one finding, has the worst severity
    of its findings (never NONE) and a confidence between 0.5 and 0.95, and
    belongs to a result whose id has neither "Performance" nor
    "Compliance".  The checks follow the order of these results with at
    most one check for each: their ids are the ids of the results picked
    out by a mask over the results that are not skipped. *)
Theorem verify_results_checks (results : list CheckedResult) (g : G) :
  exists checks g',
    runStateT (verify_results str_of_number G random randbelow results) g
    = inr (checks, g')
    /\ Forall well_formed_check checks
    /\ (length checks <= length (filter is_checked results))%nat
    /\ (forall c, In c checks ->
                  exists r, In r results /\ is_checked r = true
                            /\ cr_test_case_id r = hc_test_case_id c)
    /\ (exists mask : list bool,
          length mask = length (filter is_checked results)
          /\ map hc_test_case_id checks
             = map cr_test_case_id
                   (map fst (filter snd (combine (filter is_checked results) mask)))).
Proof.
  unfold verify_results.
  destruct (verify_from_spec results [] g) as (new & g' & Hrun & Hwf & Hlen & Hids & _).
  destruct (verify_from_order results [] g) as (new' & g'' & mask & Hrun' & Hmlen & Hmask).
  rewrite Hrun in Hrun'. injection Hrun' as Enew _. cbn [app] in Enew. subst new'.
  exists new, g'. split; [exact Hrun |]. split; [exact Hwf |].
  split; [exact Hlen |]. split; [exact Hids |].
  exists mask. split; assumption.
Qed.

(** A risk score outside [0, 100] is always reported: whatever the random
    source draws, a result that is not skipped and whose score is out of
    range gets a check of severity CRITICAL. *)
Theorem out_of_range_score_is_critical
    (results : list CheckedResult) (g : G) (r : CheckedResult) (score : Q) :
  In r results -> is_checked r = true ->
  risk_score (cr_actual_result r) = Some score ->
  score < 0 \/ 100 < score ->
  exists checks g' c,
    runStateT (verify_results str_of_number G random randbelow results) g
    = inr (checks, g')
    /\ In c checks /\ hc_test_case_id c = cr_test_case_id r
    /\ severity c = "CRITICAL".
Proof.
  intros Hr Hck Hs Hout. unfold verify_results.
  destruct (verify_from_spec results [] g) as (new & g' & Hrun & _ & _ & _ & Hcrit).
  destruct (Hcrit r score Hr Hck Hs Hout) as (c & Hc & Hid & Hsev).
  exists new, g', c. repeat split; assumption.
Qed.

(** The summary of a checked run: as every check carries a finding, the
    figure reported as ['hallucination_rate'] is at least 100 whenever a
    check was returned. *)
Theorem verified_run_rate_at_least_hundred (results : list CheckedResult) (g : G) :
  exists checks g' s,
    runStateT (verify_results str_of_number G random randbelow results) g
    = inr (checks, g')
    /\ SummaryMetrics._summarize_hallucinations checks = inr s
    /\ (checks <> [] -> 100 <= SummaryMetrics.hallucination_rate s).
Proof.
  unfold verify_results.
  destruct (verify_from_spec results [] g) as (checks & g' & Hrun & Hwf & _).
  destruct (summarize_hallucinations_spec checks) as (s & Hs & _ & _ & _ & Hrate).
  exists checks, g', s. split; [exact Hrun |]. split; [exact Hs |].
  intros Hne. apply Hrate; [exact Hne |].
  apply Forall_impl with (2 := Hwf). intros c Hc. apply Hc.
Qed.

End CheckerFacts.

Lemma out_of_range_score_is_critical_witness :
  exists checks g' c,
    runStateT (HallucinationChecker.verify_results Samples.render_number nat CheckerSamples.draws_half
                              CheckerSamples.draws_first
                              [CheckerSamples.score_out_of_range]) 0%nat
    = inr (checks, g')
    /\ In c checks
    /\ hc_test_case_id c = HallucinationChecker.cr_test_case_id CheckerSamples.score_out_of_range
    /\ severity c = "CRITICAL".
Proof.
  apply (out_of_range_score_is_critical
           Samples.render_number nat CheckerSamples.draws_half
           CheckerSamples.draws_first
           [CheckerSamples.score_out_of_range] 0%nat
           CheckerSamples.score_out_of_range 150).
  - left. reflexivity.
  - reflexivity.
  - reflexivity.
  - right. reflexivity.
Defined.

(** * Properties of the reports *)

Section ReportFacts.

Import HallucinationReport.

Lemma report_fold (checks : list HallucinationCheck) (sev typ : dict nat) :
  fold_left report_step checks (sev, typ)
  = (fold_left (fun acc c => dict_incr acc (severity c)) checks sev,
     fold_left (fun acc h => dict_incr acc (h_type h))
               (flat_map hallucinations_detected checks) typ).
Proof.
  revert sev typ. induction checks as [| c cs IH]; intros sev typ; [reflexivity |].
  cbn [fold_left flat_map]. unfold report_step at 2. cbv zeta.
  rewrite IH, fold_left_app. reflexivity.
Qed.

Lemma length_flat_map (checks : list HallucinationCheck) :
  length (flat_map hallucinations_detected checks)
  = list_sum (map (fun c => length (hallucinations_detected c)) checks).
Proof.
  induction checks as [| c cs IH]; [reflexivity |].
  cbn [flat_map map]. rewrite length_app, IH. reflexivity.
Qed.

(** The hallucination report is returned for every list of checks; its
    per-severity counts add up to the number of checks and its per-type
    counts to the number of findings, each type's entry being the number
    of findings of that type; the key ['critical_issues'] is present
    exactly for a non-empty list, and then agrees with the per-severity
    entry of CRITICAL. *)
Theorem hallucination_report_counts (checks : list HallucinationCheck) :
  exists rep,
    generate_hallucination_report checks = inr rep
    /\ total_tests_checked rep = length checks
    /\ dict_total (by_severity rep) = total_tests_checked rep
    /\ dict_total (by_type rep) = hallucinations_found rep
    /\ (forall t : string,
          dict_get (by_type rep) t 0%nat
          = count (fun h => String.eqb (h_type h) t)
                  (flat_map hallucinations_detected checks))
    /\ (critical_issues rep = None <-> checks = [])
    /\ (checks <> [] ->
        critical_issues rep = Some (dict_get (by_severity rep) "CRITICAL" 0%nat)).
Proof.
  unfold generate_hallucination_report. cbv zeta.
  destruct checks as [| c cs] eqn:E.
  - eexists. split; [reflexivity |]. cbn.
    repeat split; try reflexivity; try contradiction.
  - rewrite <- E. assert (Hn : (0 < length checks)%nat) by (subst; cbn; lia).
    replace (length checks =? 0)%nat with false by (symmetry; apply Nat.eqb_neq; lia).
    rewrite report_fold. rewrite truediv_count by exact Hn. rewrite bind_returns.
    eexists. split; [reflexivity |].
    cbn [total_tests_checked by_severity by_type hallucinations_found critical_issues].
    destruct (tally_spec severity checks []) as [Hst Hsg].
    destruct (tally_spec h_type (flat_map hallucinations_detected checks) [])
      as [Htt Htg].
    split; [reflexivity |].
    split; [rewrite Hst; reflexivity |].
    split; [rewrite Htt, length_flat_map; reflexivity |].
    split; [intros t; rewrite Htg; reflexivity |].
    split; [split; [discriminate | intros H; rewrite H in Hn; cbn in Hn; lia] |].
    intros _. rewrite Hsg. reflexivity.
Qed.

End ReportFacts.

Section InsightFacts.

Import SummaryDocument.

Variable str_of_number : Q -> string.
Variable format_1f : Q -> string.

Lemma length_append {A : Type} (xs : list A) (x : A) :
  length (append xs x) = S (length xs).
Proof. unfold append. rewrite length_app. cbn. lia. Qed.

(* When [_generate_insights] returns, and how many insights. *)
Lemma generate_insights_spec
    (test_results : list TestResult)
    (accuracy_metrics : TestSummaryGenerator.AccuracyMetrics)
    (hallucination_checks : list HallucinationCheck)
    (risk_assessment : option RiskAssessment) :
  (test_results = [] /\ hallucination_checks <> [] ->
   _generate_insights str_of_number format_1f test_results accuracy_metrics
                      hallucination_checks risk_assessment
   = inl ZeroDivisionError)
  /\ (test_results <> [] \/ hallucination_checks = [] ->
      exists insights,
        _generate_insights str_of_number format_1f test_results accuracy_metrics
                           hallucination_checks risk_assessment
        = inr insights
        /\ (2 <= length insights <= 6)%nat).
Proof.
  unfold _generate_insights. split.
  - intros [-> Hc]. destruct hallucination_checks; [contradiction |]. reflexivity.
  - intros Hok.
    assert (Hdiv : is_empty hallucination_checks = false ->
                   truediv (of_int (length hallucination_checks))
                           (of_int (length test_results))
                   = inr (of_int (length hallucination_checks)
                          / of_int (length test_results))).
    { intros Hne. apply truediv_count.
      destruct Hok as [Hr | ->]; [| discriminate Hne].
      destruct test_results; [contradiction | cbn; lia]. }
    cbv zeta.
    destruct (is_empty hallucination_checks) eqn:Ec; cbn [negb];
      [| rewrite (Hdiv eq_refl)]; py_simpl; clear Hdiv;
      repeat match goal with
             | |- context [@append string _ ?m] =>
                 tryif is_var m then fail
                 else (let s := fresh "message" in generalize m; intro s)
             end;
      repeat match goal with
             | |- context [if ?c then _ else _] => destruct c
             | |- context [match ?c with Some _ => _ | None => _ end] => destruct c
             end;
      (eexists; split; [reflexivity |]);
      rewrite ?length_append; cbn [length]; lia.
Qed.

(** The insights are returned unless hallucination checks are given for an
    empty run, in which case the share of checked tests divides by zero;
    when returned there are between two and six of them. *)
Theorem insights_between_two_and_six
    (test_results : list TestResult)
    (accuracy_metrics : TestSummaryGenerator.AccuracyMetrics)
    (hallucination_checks : list HallucinationCheck)
    (risk_assessment : option RiskAssessment) :
  (test_results = [] /\ hallucination_checks <> [] ->
   _generate_insights str_of_number format_1f test_results accuracy_metrics
                      hallucination_checks risk_assessment
   = inl ZeroDivisionError)
  /\ (test_results <> [] \/ hallucination_checks = [] ->
      exists insights,
        _generate_insights str_of_number format_1f test_results accuracy_metrics
                           hallucination_checks risk_assessment
        = inr insights
        /\ (2 <= length insights <= 6)%nat).
Proof. exact (generate_insights_spec test_results accuracy_metrics hallucination_checks risk_assessment). Qed.

End InsightFacts.

Section CreateSummaryFacts.

Import SummaryDocument.

Variable str_of_number : Q -> string.
Variable format_1f : Q -> string.

(** [create_summary] raises [ZeroDivisionError] exactly when hallucination
    checks are passed along with an empty list of results; on every other
    input it returns, no part raising, with the given timestamp, between
    two and six insights, and a risk summary exactly when a risk
    assessment was given. *)
Theorem create_summary_returns_unless_checks_without_results
    (now : string) (test_results : list TestResult)
    (hallucination_checks : list HallucinationCheck)
    (risk_assessment : option RiskAssessment) :
  (test_results = [] /\ hallucination_checks <> [] ->
   create_summary str_of_number format_1f now test_results hallucination_checks
                  risk_assessment
   = inl (Arithmetic ZeroDivisionError))
  /\ (test_results <> [] \/ hallucination_checks = [] ->
      exists s,
        create_summary str_of_number format_1f now test_results hallucination_checks
                       risk_assessment
        = inr s
        /\ timestamp s = now
        /\ (2 <= length (insights s) <= 6)%nat
        /\ failure_analysis s = SummaryMetrics._analyze_failures test_results
        /\ (risk_assessment_summary s = None <-> risk_assessment = None)).
Proof.
  unfold create_summary.
  destruct (calculate_overall_metrics_spec format_1f test_results) as (om & -> & _).
  cbn [lift]. rewrite bindx_returns.
  destruct (accuracy_metrics_returns test_results) as (am & -> & _).
  cbn [lift]. rewrite bindx_returns.
  destruct (calculate_performance_metrics_spec test_results) as (pm & -> & _).
  rewrite bindx_returns.
  destruct (summarize_hallucinations_spec hallucination_checks) as (hs & -> & _).
  cbn [lift]. rewrite bindx_returns.
  destruct (generate_insights_spec str_of_number format_1f test_results am
                                   hallucination_checks risk_assessment)
    as [Hraise Hret].
  split.
  - intros H. rewrite (Hraise H). reflexivity.
  - intros H. destruct (Hret H) as (ins & -> & Hlen).
    cbn [lift]. rewrite bindx_returns.
    eexists. split; [reflexivity |].
    cbn [timestamp insights failure_analysis risk_assessment_summary].
    split; [reflexivity |]. split; [exact Hlen |]. split; [reflexivity |].
    destruct risk_assessment; split; intros E; try discriminate E; reflexivity.
Qed.

End CreateSummaryFacts.

(** * Properties of the report sections *)

Section HallucinationSectionFacts.

Import ReportSections.

(** The example that the report keeps of a finding. *)
Let example_of (check : HallucinationCheck) (h : Hallucination) : Example :=
  {| ex_test_case_id := hc_test_case_id check;
     ex_type := h_type h;
     ex_description := h_description h;
     ex_severity := h_severity h |}.

Lemma firstn_cap {A : Type} (n : nat) (pre : list A) (e : A) :
  (if (length (firstn n pre) <? n)%nat then append (firstn n pre) e else firstn n pre)
  = firstn n (pre ++ [e]).
Proof.
  unfold append. rewrite firstn_app.
  destruct (Nat.lt_ge_cases (length pre) n) as [Hlt | Hge].
  - rewrite firstn_all2 by lia.
    replace (length pre <? n)%nat with true by (symmetry; apply Nat.ltb_lt; exact Hlt).
    rewrite firstn_all2 by (cbn; lia). reflexivity.
  - rewrite length_firstn, Nat.min_l by exact Hge.
    rewrite Nat.ltb_irrefl.
    replace (n - length pre)%nat with 0%nat by lia.
    cbn. rewrite app_nil_r. reflexivity.
Qed.

Lemma example_fold (check : HallucinationCheck) (hs : list Hallucination)
    (typ : dict nat) (pre : list Example) :
  fold_left (example_step check) hs (typ, firstn 5 pre)
  = (fold_left (fun acc h => dict_incr acc (h_type h)) hs typ,
     firstn 5 (pre ++ map (example_of check) hs)).
Proof.
  revert typ pre. induction hs as [| h hs IH]; intros typ pre.
  - cbn. rewrite app_nil_r. reflexivity.
  - cbn [fold_left map]. unfold example_step at 2.
    fold (example_of check h).
    rewrite (firstn_cap 5 pre (example_of check h)).
    rewrite IH, <- app_assoc. reflexivity.
Qed.

Lemma section_fold (checks : list HallucinationCheck)
    (sev typ : dict nat) (pre : list Example) :
  fold_left section_step checks (sev, typ, firstn 5 pre)
  = (fold_left (fun acc c => dict_incr acc (severity c)) checks sev,
     fold_left (fun acc h => dict_incr acc (h_type h))
               (flat_map hallucinations_detected checks) typ,
     firstn 5 (pre ++ flat_map (fun c => map (example_of c) (hallucinations_detected c))
                               checks)).
Proof.
  revert sev typ pre. induction checks as [| c cs IH]; intros sev typ pre.
  - cbn. rewrite app_nil_r. reflexivity.
  - cbn [fold_left flat_map]. unfold section_step at 2.
    rewrite example_fold, IH, fold_left_app, <- app_assoc. reflexivity.
Qed.

(** The report's hallucination section is returned for every list of
    checks; its per-severity counts add up to the number of checks and its
    per-type counts, present exactly for a non-empty list, to the number
    of findings; its examples are the first five findings in the order of
    the checks, so there are [min 5 issues_found] of them. *)
Theorem hallucination_section_keeps_first_five (checks : list HallucinationCheck) :
  exists sec,
    _create_hallucination_report checks = inr sec
    /\ total_checks sec = length checks
    /\ issues_found sec = length (flat_map hallucinations_detected checks)
    /\ dict_total (by_severity sec) = total_checks sec
    /\ (by_type sec = None <-> checks = [])
    /\ (forall counts, by_type sec = Some counts ->
                       dict_total counts = issues_found sec)
    /\ examples sec
       = firstn 5 (flat_map (fun c => map (fun h =>
                                             {| ex_test_case_id := hc_test_case_id c;
                                                ex_type := h_type h;
                                                ex_description := h_description h;
                                                ex_severity := h_severity h |})
                                          (hallucinations_detected c))
                            checks)
    /\ length (examples sec) = Nat.min 5 (issues_found sec).
Proof.
  unfold _create_hallucination_report.
  destruct checks as [| c cs] eqn:E.
  - eexists. split; [reflexivity |]. cbn.
    repeat split; try reflexivity; try discriminate.
  - rewrite <- E. assert (Hn : (0 < length checks)%nat) by (subst; cbn; lia).
    replace (is_empty checks) with false by (subst; reflexivity).
    change (@nil Example) with (firstn 5 (@nil Example)).
    rewrite section_fold. rewrite truediv_count by exact Hn. rewrite bind_returns.
    eexists. split; [reflexivity |].
    cbn [total_checks issues_found by_severity by_type examples app].
    destruct (tally_spec severity checks []) as [Hst _].
    destruct (tally_spec h_type (flat_map hallucinations_detected checks) [])
      as [Htt _].
    assert (Hlen : length (flat_map hallucinations_detected checks)
                   = list_sum (map (fun c0 => length (hallucinations_detected c0)) checks))
      by apply length_flat_map.
    split; [reflexivity |].
    split; [symmetry; exact Hlen |].
    split; [rewrite Hst; reflexivity |].
    split; [split; [discriminate | intros H; rewrite H in Hn; cbn in Hn; lia] |].
    split.
    { intros counts Hc. injection Hc as <-. rewrite Htt, Hlen. reflexivity. }
    split; [reflexivity |].
    rewrite length_firstn, <- Hlen. f_equal.
    clear. induction checks as [| c cs IH]; [reflexivity |].
    cbn [flat_map]. rewrite !length_app, length_map, IH. reflexivity.
Qed.

End HallucinationSectionFacts.

Section ComplianceSectionFacts.

Import ReportSections.
Import FraudRiskAnalyzer.

Lemma violations_fold (xs : list TestResult) (acc : list string) :
  fold_left (fun violations result =>
               if TestStatus_eqb (status result) FAILED
               then (violations ++ errors result)%list
               else violations) xs acc
  = (acc ++ flat_map errors (filter is_failed xs))%list.
Proof.
  revert acc. induction xs as [| r rs IH]; intros acc.
  - cbn. rewrite app_nil_r. reflexivity.
  - cbn [fold_left filter]. rewrite IH. unfold is_failed at 2.
    destruct (TestStatus_eqb (status r) FAILED).
    + cbn [flat_map]. rewrite app_assoc. reflexivity.
    + reflexivity.
Qed.

Lemma count_two_le {A : Type} (p q : A -> bool) (xs : list A) :
  (forall x, p x = true -> q x = true -> False) ->
  (count p xs + count q xs <= length xs)%nat.
Proof.
  intros H. induction xs as [| x xs IH]; [cbn; lia |].
  unfold count in *. cbn [filter].
  destruct (p x) eqn:Ep, (q x) eqn:Eq; cbn [length]; try lia.
  exfalso. exact (H x Ep Eq).
Qed.

(* What [_create_compliance_section] computes. *)
Lemma create_compliance_section_spec (l : list TestResult) :
  exists sec,
    _create_compliance_section l = inr sec
    /\ (sec = None <-> forall r, In r l -> is_compliance_test r = false)
    /\ (forall s, sec = Some s ->
          total_tests s = length (filter is_compliance_test l)
          /\ (passed s + failed s <= total_tests s)%nat
          /\ 0 <= compliance_rate s <= 100
          /\ violations s
             = flat_map errors (filter is_failed (filter is_compliance_test l))
          /\ (cs_status s = "🔴 VIOLATIONS DETECTED"
              <-> exists r, In r l /\ is_compliance_test r = true /\ status r = FAILED)
          /\ (cs_status s = "✅ COMPLIANT"
              <-> forall r, In r l -> is_compliance_test r = true -> status r <> FAILED)).
Proof.
  unfold _create_compliance_section.
  change (filter (fun r => contains "Compliance" (test_case_id r)
                           || contains "COMP" (test_case_id r)) l)
    with (filter is_compliance_test l).
  set (cts := filter is_compliance_test l).
  assert (Hin : forall r, In r cts <-> In r l /\ is_compliance_test r = true)
    by (intros r; apply filter_In).
  destruct (is_empty cts) eqn:Ee.
  - eexists. split; [reflexivity |]. split.
    + split; [| reflexivity]. intros _ r Hr.
      destruct (is_compliance_test r) eqn:Ec; [| reflexivity].
      assert (Hc : In r cts) by (apply Hin; split; assumption).
      destruct cts; [destruct Hc | discriminate Ee].
    + intros s Hs. discriminate Hs.
  - pose proof (is_empty_false_length _ Ee) as Hn.
    rewrite truediv_count by exact Hn. rewrite bind_returns.
    eexists. split; [reflexivity |]. split.
    + split; [discriminate |]. intros Hall. exfalso.
      destruct cts as [| r rs] eqn:Ecs; [discriminate Ee |].
      assert (Hr : In r (r :: rs)) by (left; reflexivity).
      apply Hin in Hr. destruct Hr as [Hr Hc]. rewrite (Hall r Hr) in Hc. discriminate Hc.
    + intros s Hs. injection Hs as <-.
      cbn [total_tests passed failed compliance_rate violations cs_status].
      assert (Hpf : (count (fun r => TestStatus_eqb (status r) PASSED) cts
                     + count (fun r => TestStatus_eqb (status r) FAILED) cts
                     <= length cts)%nat).
      { apply count_two_le. intros x Hp Hf.
        destruct (status x); discriminate. }
      assert (Hfail : (0 < count (fun r => TestStatus_eqb (status r) FAILED) cts)%nat
                      <-> exists r, In r l /\ is_compliance_test r = true
                                    /\ status r = FAILED).
      { rewrite count_pos_iff. split.
        - intros (r & Hr & Hf). apply Hin in Hr as [Hr Hc].
          exists r. repeat split; try assumption.
          destruct (status r); try discriminate Hf; reflexivity.
        - intros (r & Hr & Hc & Hf). exists r. split; [apply Hin; split; assumption |].
          rewrite Hf. reflexivity. }
      split; [reflexivity |].
      split; [exact Hpf |].
      split.
      { destruct (proportion_bounds
                    (count (fun r => TestStatus_eqb (status r) PASSED) cts)
                    (length cts) (count_le_length _ _) Hn) as [H0 H1].
        split.
        - apply round2_nonneg.
          apply Qmult_le_0_compat; [exact H0 | discriminate].
        - assert (H : round2 (of_int (count (fun r => TestStatus_eqb (status r) PASSED) cts)
                              / of_int (length cts) * 100) <= round2 100).
          { apply round2_mono.
            setoid_replace 100 with (1 * 100) at 2 by reflexivity.
            apply Qmult_le_compat_r; [exact H1 | discriminate]. }
          assert (E100 : round2 100 == 100) by reflexivity.
          lra. }
      split; [rewrite violations_fold; reflexivity |].
      destruct (count (fun r => TestStatus_eqb (status r) FAILED) cts =? 0)%nat eqn:Ez.
      * apply Nat.eqb_eq in Ez. split.
        -- split; [discriminate |]. intros Hex. apply Hfail in Hex. lia.
        -- split; [| reflexivity]. intros _ r Hr Hc Hf.
           assert (Hex : exists r, In r l /\ is_compliance_test r = true
                                   /\ status r = FAILED)
             by (exists r; repeat split; assumption).
           apply Hfail in Hex. lia.
      * apply Nat.eqb_neq in Ez. split.
        -- split; [| reflexivity]. intros _. apply Hfail. lia.
        -- split; [discriminate |]. intros Hall. exfalso.
           assert (Hex : (0 < count (fun r => TestStatus_eqb (status r) FAILED) cts)%nat)
             by lia.
           apply Hfail in Hex. destruct Hex as (r & Hr & Hc & Hf).
           exact (Hall r Hr Hc Hf).
Qed.

(** The compliance section is returned for every run, the division being
    guarded by the availability test.  It is unavailable exactly when no
    result has a compliance id; otherwise passed and failed together do not
    exceed the total, the compliance rate is a percentage, the violations
    are the error texts of the failed compliance tests in order, and the
    status is VIOLATIONS DETECTED exactly when a compliance test failed and
    COMPLIANT otherwise, a blocked or skipped test counting as neither.
    The section agrees with the risk analyzer: for an assessment returned
    by [calculate_risk] on the same run, the risk report's verdict is the
    compliance block exactly when the status is VIOLATIONS DETECTED. *)
Theorem compliance_section_consistent (l : list TestResult) :
  exists sec,
    _create_compliance_section l = inr sec
    /\ (sec = None <-> forall r, In r l -> is_compliance_test r = false)
    /\ (forall s, sec = Some s ->
          total_tests s = length (filter is_compliance_test l)
          /\ (passed s + failed s <= total_tests s)%nat
          /\ 0 <= compliance_rate s <= 100
          /\ violations s
             = flat_map errors (filter is_failed (filter is_compliance_test l))
          /\ (cs_status s = "🔴 VIOLATIONS DETECTED"
              <-> exists r, In r l /\ is_compliance_test r = true /\ status r = FAILED)
          /\ (cs_status s = "✅ COMPLIANT"
              <-> forall r, In r l -> is_compliance_test r = true -> status r <> FAILED))
    /\ (forall a, calculate_risk l = inr a ->
          (_get_deployment_recommendation a
           = "🛑 DO NOT DEPLOY - Compliance violations (BLOCKING)"
           <-> exists s, sec = Some s /\ cs_status s = "🔴 VIOLATIONS DETECTED")).
Proof.
  destruct (create_compliance_section_spec l) as (sec & Hsec & Hnone & Hsome).
  exists sec. split; [exact Hsec |]. split; [exact Hnone |]. split; [exact Hsome |].
  intros a Ha. rewrite (compliance_block_spec l a Ha). split.
  - intros (r & Hr & Hc & Hf).
    destruct sec as [s |].
    + exists s. split; [reflexivity |].
      apply (Hsome s eq_refl). exists r. repeat split; assumption.
    + rewrite (proj1 Hnone eq_refl r Hr) in Hc. discriminate Hc.
  - intros (s & -> & Hs). apply (Hsome s eq_refl). exact Hs.
Qed.

End ComplianceSectionFacts.

Section AppendixFacts.

Import ReportSections.

Lemma timeline_fold (xs : list TestResult) (acc : list TimelineEntry) :
  fold_left (fun timeline result =>
               append timeline {| test_id := test_case_id result;
                                  tl_timestamp := timestamp result;
                                  duration_ms := execution_time_ms result;
                                  tl_status := status_value (status result) |})
            xs acc
  = (acc ++ map (fun result => {| test_id := test_case_id result;
                                  tl_timestamp := timestamp result;
                                  duration_ms := execution_time_ms result;
                                  tl_status := status_value (status result) |}) xs)%list.
Proof.
  revert acc. induction xs as [| r rs IH]; intros acc.
  - cbn. rewrite app_nil_r. reflexivity.
  - cbn [fold_left map]. rewrite IH. unfold append. rewrite <- app_assoc. reflexivity.
Qed.

(** The appendix: the category counts add up to the number of test cases,
    each being the number of test cases of that category; the timeline
    holds the first ten results in order, so it has [min 10 n] entries for
    [n] results, and a status value names its status. *)
Theorem appendix_counts (test_cases : list TestCase) (test_results : list TestResult) :
  let appendix := _create_appendix test_cases test_results in
  dict_total (test_categories appendix) = total_test_cases appendix
  /\ (forall c : string,
        dict_get (test_categories appendix) c 0%nat
        = count (fun tc => String.eqb (category tc) c) test_cases)
  /\ length (execution_timeline appendix) = Nat.min 10 (total_test_results appendix)
  /\ map test_id (execution_timeline appendix)
     = map test_case_id (firstn 10 test_results)
  /\ (forall s s' : TestStatus, status_value s = status_value s' -> s = s').
Proof.
  cbv zeta. unfold _create_appendix.
  cbn [test_categories total_test_cases execution_timeline total_test_results].
  unfold _categorize_tests, _create_timeline.
  destruct (tally_spec category test_cases []) as [Ht Hg].
  rewrite timeline_fold. cbn [app].
  split; [rewrite Ht; reflexivity |].
  split; [intros c; rewrite Hg; reflexivity |].
  split; [rewrite length_map, length_firstn; reflexivity |].
  split; [rewrite map_map; reflexivity |].
  intros s s' H. destruct s, s'; try reflexivity; discriminate H.
Qed.

End AppendixFacts.

Section PatternFacts.

Import ReportSections.

Lemma dict_mem_In {V : Type} (d : dict V) (k : string) :
  dict_mem d k = true <-> In k (map fst d).
Proof.
  unfold dict_mem. rewrite existsb_exists. split.
  - intros ([k0 v0] & Hin & Heq). apply String.eqb_eq in Heq. cbn in Heq. subst k0.
    apply in_map_iff. exists (k, v0). split; [reflexivity | exact Hin].
  - intros Hin. apply in_map_iff in Hin. destruct Hin as ([k0 v0] & Hk & Hin).
    cbn in Hk. subst k0. exists (k, v0). split; [exact Hin | apply String.eqb_refl].
Qed.

Lemma dict_get_absent {V : Type} (d : dict V) (k : string) (default : V) :
  dict_mem d k = false -> dict_get d k default = default.
Proof.
  unfold dict_mem. induction d as [| [k0 v0] d IH]; cbn [existsb dict_get fst].
  - reflexivity.
  - intros H. apply orb_false_iff in H as [H0 H1]. rewrite H0. apply IH. exact H1.
Qed.

Lemma dict_set_set {V : Type} (d : dict V) (k : string) (v v' : V) :
  dict_set (dict_set d k v) k v' = dict_set d k v'.
Proof.
  induction d as [| [k0 v0] d IH]; cbn [dict_set].
  - rewrite String.eqb_refl. reflexivity.
  - destruct (String.eqb k0 k) eqn:E; cbn [dict_set]; rewrite E.
    + reflexivity.
    + rewrite IH. reflexivity.
Qed.

Lemma dict_set_keys {V : Type} (d : dict V) (k : string) (v : V) :
  map fst (dict_set d k v)
  = if dict_mem d k then map fst d else (map fst d ++ [k])%list.
Proof.
  unfold dict_mem. induction d as [| [k0 v0] d IH]; cbn [dict_set existsb map fst].
  - reflexivity.
  - destruct (String.eqb k0 k) eqn:E; cbn [orb map fst].
    + reflexivity.
    + rewrite IH. destruct (existsb _ d); reflexivity.
Qed.

Lemma dict_get_entry {V : Type} (d : dict V) (k : string) (v default : V) :
  NoDup (map fst d) -> In (k, v) d -> dict_get d k default = v.
Proof.
  induction d as [| [k0 v0] d IH]; cbn [map fst dict_get]; intros Hnd Hin.
  - destruct Hin.
  - inversion Hnd as [| ? ? Hnotin Hnd']. subst.
    destruct Hin as [Heq | Hin].
    + injection Heq as -> ->. rewrite String.eqb_refl. reflexivity.
    + destruct (String.eqb_spec k0 k) as [-> | _].
      * exfalso. apply Hnotin. apply in_map_iff. exists (k, v). split; [reflexivity | exact Hin].
      * apply IH; assumption.
Qed.

Lemma count_app_one {A : Type} (f : A -> bool) (xs : list A) (x : A) :
  count f (xs ++ [x]) = (count f xs + if f x then 1 else 0)%nat.
Proof.
  unfold count. rewrite filter_app, length_app. cbn [filter].
  destruct (f x); reflexivity.
Qed.

Lemma skipn_nth_error {A : Type} (xs : list A) (i : nat) (x : A) :
  nth_error xs i = Some x -> skipn i xs = x :: skipn (S i) xs.
Proof.
  revert i. induction xs as [| y ys IH]; intros [| i] H; try discriminate H.
  - injection H as ->. reflexivity.
  - cbn [nth_error] in H. apply IH in H. cbn [skipn] in *. exact H.
Qed.

(** The uses of a pattern: one for each pattern of each test case that is
    read with a result. *)
Let uses_of (pairs : list (TestCase * TestResult)) : list (string * TestResult) :=
  flat_map (fun pr => map (fun p => (p, snd pr)) (fraud_patterns_tested (fst pr))) pairs.

Let stats_of (uses : list (string * TestResult)) (p : string) : PatternStats :=
  {| total := count (fun u => String.eqb (fst u) p) uses;
     detected := count (fun u => String.eqb (fst u) p
                                 && TestStatus_eqb (status (snd u)) PASSED) uses;
     missed := count (fun u => String.eqb (fst u) p
                               && negb (TestStatus_eqb (status (snd u)) PASSED)) uses |}.

Let tallied (d : dict PatternStats) (uses : list (string * TestResult)) : Prop :=
  NoDup (map fst d)
  /\ (forall p, In p (map fst d) <-> In p (map fst uses))
  /\ (forall p, dict_get d p {| total := 0; detected := 0; missed := 0 |} = stats_of uses p).

Lemma pattern_step_eq (r : TestResult) (d : dict PatternStats) (p : string) :
  pattern_step r d p
  = let s := dict_get d p {| total := 0; detected := 0; missed := 0 |} in
    dict_set d p
      (if TestStatus_eqb (status r) PASSED
       then {| total := total s + 1; detected := detected s + 1; missed := missed s |}
       else {| total := total s + 1; detected := detected s; missed := missed s + 1 |}).
Proof.
  unfold pattern_step. cbv zeta.
  destruct (dict_mem d p) eqn:E; cbn [negb].
  - destruct (TestStatus_eqb (status r) PASSED); reflexivity.
  - rewrite dict_get_set, String.eqb_refl, dict_set_set, (dict_get_absent d p _ E).
    destruct (TestStatus_eqb (status r) PASSED); reflexivity.
Qed.

Lemma tallied_step (r : TestResult) (d : dict PatternStats)
    (uses : list (string * TestResult)) (p : string) :
  tallied d uses -> tallied (pattern_step r d p) (uses ++ [(p, r)]).
Proof.
  intros (Hnd & Hkeys & Hget). rewrite pattern_step_eq. cbv zeta.
  set (v := if TestStatus_eqb (status r) PASSED then _ else _).
  assert (Hk : map fst (dict_set d p v)
               = if dict_mem d p then map fst d else (map fst d ++ [p])%list)
    by apply dict_set_keys.
  split; [| split].
  - rewrite Hk. destruct (dict_mem d p) eqn:E; [exact Hnd |].
    apply NoDup_app; [exact Hnd | repeat constructor; intros [] | ].
    intros x Hx [<- | []].
    apply dict_mem_In in Hx. congruence.
  - intros q. rewrite Hk, map_app, in_app_iff. cbn [map fst In].
    destruct (dict_mem d p) eqn:E.
    + rewrite Hkeys. split; [intros H; left; exact H |].
      intros [H | [<- | []]]; [exact H |].
      apply Hkeys. apply dict_mem_In. exact E.
    + rewrite in_app_iff, Hkeys. cbn [In]. reflexivity.
  - intros q. rewrite dict_get_set. unfold stats_of.
    rewrite !count_app_one. cbn [fst snd].
    destruct (String.eqb_spec p q) as [-> | Hpq].
    + subst v. rewrite (Hget q). unfold stats_of. cbn [total detected missed].
      destruct (TestStatus_eqb (status r) PASSED); cbn [andb negb];
        f_equal; lia.
    + rewrite (Hget q). unfold stats_of. cbn [andb]. f_equal; lia.
Qed.

Lemma tallied_fold (r : TestResult) (ps : list string) (d : dict PatternStats)
    (uses : list (string * TestResult)) :
  tallied d uses ->
  tallied (fold_left (pattern_step r) ps d) (uses ++ map (fun p => (p, r)) ps).
Proof.
  revert d uses. induction ps as [| p ps IH]; intros d uses H.
  - cbn. rewrite app_nil_r. exact H.
  - cbn [fold_left map].
    replace (uses ++ (p, r) :: map (fun p0 => (p0, r)) ps)%list
      with ((uses ++ [(p, r)]) ++ map (fun p0 => (p0, r)) ps)%list
      by (rewrite <- app_assoc; reflexivity).
    apply IH, tallied_step, H.
Qed.

Lemma tallied_group (test_cases : list TestCase) (i : nat)
    (test_results : list TestResult) (d : dict PatternStats)
    (uses : list (string * TestResult)) :
  tallied d uses ->
  tallied (group_by_pattern test_cases i test_results d)
          (uses ++ uses_of (combine test_cases (skipn i test_results))).
Proof.
  revert i d uses. induction test_cases as [| tc rest IH]; intros i d uses H.
  - cbn. rewrite app_nil_r. exact H.
  - cbn [group_by_pattern].
    destruct (nth_error test_results i) as [r |] eqn:E.
    + rewrite (skipn_nth_error _ _ _ E). cbn [combine].
      unfold uses_of. cbn [flat_map fst snd]. fold (uses_of (combine rest (skipn (S i) test_results))).
      rewrite app_assoc. apply IH.
      replace (if is_empty (fraud_patterns_tested tc) then d
               else fold_left (pattern_step r) (fraud_patterns_tested tc) d)
        with (fold_left (pattern_step r) (fraud_patterns_tested tc) d)
        by (destruct (fraud_patterns_tested tc); reflexivity).
      apply tallied_fold, H.
    + apply nth_error_None in E.
      specialize (IH (S i) d uses H).
      rewrite skipn_all2 in IH by lia. rewrite skipn_all2 by exact E.
      rewrite combine_nil in *. exact IH.
Qed.

Lemma analyse_patterns_spec (d : dict PatternStats) :
  exists analysis,
    analyse_patterns d = inr analysis
    /\ map fst analysis = map fst d
    /\ forall p a, In (p, a) analysis ->
                   exists s, In (p, s) d /\ analyse_pattern s = inr a.
Proof.
  induction d as [| [p s] d (analysis & IH & Hkeys & Hin)].
  - exists []. repeat split. intros p a [].
  - cbn [analyse_patterns].
    assert (Hs : exists a, analyse_pattern s = inr a).
    { unfold analyse_pattern. destruct (0 <? total s)%nat eqn:E.
      - apply Nat.ltb_lt in E. rewrite truediv_count by exact E.
        eexists. reflexivity.
      - eexists. reflexivity. }
    destruct Hs as [a Ha]. rewrite Ha, bind_returns, IH, bind_returns.
    eexists. split; [reflexivity |]. split.
    + cbn [map fst]. rewrite Hkeys. reflexivity.
    + intros q b [Heq | Hb].
      * injection Heq as <- <-. exists s. split; [left; reflexivity | exact Ha].
      * destruct (Hin q b Hb) as (s' & Hs' & Hb'). exists s'.
        split; [right; exact Hs' | exact Hb'].
Qed.

(** The fraud pattern analysis is returned for every list of test cases and
    results.  With the test cases read against the results at the same
    index, it has one entry per pattern that such a test case tests, and
    the entry counts the uses of the pattern: [test_cases] all of them,
    [detected] those with a PASSED result, [missed] the others.  So
    detected and missed add up to the total, the total is at least one (the
    guard of the ratio never fails), and the rate is the percentage of
    detected uses to within a hundredth: 100 with the green mark when none
    is missed, 0 with the red mark when none is detected.  The mark is the
    green one from 90 percent on and never at 89 or below, the red one at
    74 percent or below and never from 75 on. *)
Theorem pattern_analysis_tallies
    (test_cases : list TestCase) (test_results : list TestResult) :
  let uses :=
    flat_map (fun pr => map (fun p => (p, snd pr)) (fraud_patterns_tested (fst pr)))
             (combine test_cases test_results) in
  exists analysis,
    _create_fraud_pattern_analysis test_cases test_results = inr analysis
    /\ NoDup (map fst analysis)
    /\ (forall p, In p (map fst analysis) <-> In p (map fst uses))
    /\ forall p a, In (p, a) analysis ->
         pa_test_cases a = count (fun u => String.eqb (fst u) p) uses
         /\ pa_detected a
            = count (fun u => String.eqb (fst u) p
                              && TestStatus_eqb (status (snd u)) PASSED) uses
         /\ (pa_detected a + pa_missed a = pa_test_cases a)%nat
         /\ (1 <= pa_test_cases a)%nat
         /\ Qabs (detection_rate a
                  - of_int (pa_detected a) / of_int (pa_test_cases a) * 100)
            <= 1 # 100
         /\ 0 <= detection_rate a <= 100
         /\ (pa_missed a = 0%nat -> detection_rate a == 100 /\ pa_status a = "✅")
         /\ (pa_detected a = 0%nat -> detection_rate a == 0 /\ pa_status a = "🔴")
         /\ (90 <= of_int (pa_detected a) / of_int (pa_test_cases a) * 100 ->
             pa_status a = "✅")
         /\ (of_int (pa_detected a) / of_int (pa_test_cases a) * 100 <= 89 ->
             pa_status a <> "✅")
         /\ (75 <= of_int (pa_detected a) / of_int (pa_test_cases a) * 100 ->
             pa_status a <> "🔴")
         /\ (of_int (pa_detected a) / of_int (pa_test_cases a) * 100 <= 74 ->
             pa_status a = "🔴").
Proof.
  cbv zeta. unfold _create_fraud_pattern_analysis.
  assert (H0 : tallied [] []).
  { split; [constructor |]. split; [intros p; reflexivity |].
    intros p. reflexivity. }
  pose proof (tallied_group test_cases 0 test_results [] [] H0) as (Hnd & Hkeys & Hget).
  cbn [skipn app] in Hnd, Hkeys, Hget.
  fold (uses_of (combine test_cases test_results)).
  set (uses := uses_of (combine test_cases test_results)) in *.
  set (d := group_by_pattern test_cases 0 test_results []) in *.
  destruct (analyse_patterns_spec d) as (analysis & Hrun & Hk & Hin).
  exists analysis. split; [exact Hrun |].
  split; [rewrite Hk; exact Hnd |].
  split; [intros p; rewrite Hk; apply Hkeys |].
  intros p a Ha. destruct (Hin p a Ha) as (s & Hs & Hrun_s).
  assert (Es : s = stats_of uses p).
  { rewrite <- (Hget p). symmetry. apply dict_get_entry; assumption. }
  assert (Hpos : (1 <= total s)%nat).
  { rewrite Es. unfold stats_of. cbn [total].
    assert (Hp : In p (map fst uses)).
    { apply Hkeys. apply in_map_iff. exists (p, s). split; [reflexivity | exact Hs]. }
    apply in_map_iff in Hp. destruct Hp as ([q r] & Hq & Hu). cbn in Hq. subst q.
    apply (proj2 (count_pos_iff _ uses)). exists (p, r).
    split; [exact Hu | apply String.eqb_refl]. }
  assert (Hsum : (detected s + missed s = total s)%nat).
  { rewrite Es. unfold stats_of. cbn [total detected missed]. unfold count.
    clear. induction uses as [| u us IH]; [reflexivity |].
    cbn [filter]. destruct (String.eqb (fst u) p); cbn [andb]; [| exact IH].
    destruct (TestStatus_eqb (status (snd u)) PASSED); cbn [negb length]; lia. }
  unfold analyse_pattern in Hrun_s.
  replace (0 <? total s)%nat with true in Hrun_s by (symmetry; apply Nat.ltb_lt; lia).
  rewrite truediv_count in Hrun_s by lia.
  cbn [bind ret Monad_py Monad_either] in Hrun_s.
  injection Hrun_s as <-.
  cbn [pa_test_cases pa_detected pa_missed detection_rate pa_status].
  destruct (proportion_bounds (detected s) (total s) ltac:(lia) ltac:(lia)) as [Hlo Hhi].
  set (x := of_int (detected s) / of_int (total s)) in *.
  split; [rewrite Es; reflexivity |].
  split; [rewrite Es; reflexivity |].
  split; [exact Hsum |].
  split; [exact Hpos |].
  split; [apply round2_within |].
  split.
  { split.
    - apply round2_nonneg. lra.
    - assert (H : round2 (x * 100) <= round2 100) by (apply round2_mono; lra).
      assert (E100 : round2 100 == 100) by reflexivity. lra. }
  assert (Hall : missed s = 0%nat -> x == 1).
  { intros Hm. subst x. replace (detected s) with (total s) by lia.
    apply Qmult_inv_r.
    assert (Hp : 0 < of_int (total s)) by (apply of_int_pos; lia). lra. }
  assert (Hnone : detected s = 0%nat -> x == 0).
  { intros Hd. subst x. rewrite Hd. apply zero_rate. }
  assert (E100 : round2 100 == 100) by reflexivity.
  assert (E0 : round2 0 == 0) by reflexivity.
  destruct (geb (x * 100) 90) eqn:E90;
    [apply geb_true in E90 | apply geb_false in E90].
  - split.
    { intros Hm. specialize (Hall Hm). split; [| reflexivity].
      assert (Hc : round2 (x * 100) == round2 100) by (apply round2_compat; lra).
      lra. }
    split.
    { intros Hd. specialize (Hnone Hd). lra. }
    split; [reflexivity |].
    split; [intros H; lra |].
    split; [discriminate |].
    intros H. lra.
  - destruct (geb (x * 100) 75) eqn:E75;
      [apply geb_true in E75 | apply geb_false in E75].
    + split.
      { intros Hm. specialize (Hall Hm). lra. }
      split.
      { intros Hd. specialize (Hnone Hd). lra. }
      split; [intros H; lra |].
      split; [discriminate |].
      split; [discriminate |].
      intros H. lra.
    + split.
      { intros Hm. specialize (Hall Hm). lra. }
      split.
      { intros Hd. specialize (Hnone Hd). split; [| reflexivity].
        assert (Hc : round2 (x * 100) == round2 0) by (apply round2_compat; lra).
        lra. }
      split; [intros H; lra |].
      split; [discriminate |].
      split; [intros H; lra |].
      reflexivity.
Qed.

End PatternFacts.

(** * Properties of the simulated runs *)

Section SimulationFacts.

Import Simulation.

Variable G : Type.
Variable random : G -> Q * G.
Variable uniform : Q -> Q -> G -> Q * G.
Variable randint : Z -> Z -> G -> Z * G.
Variable sample : list string -> Z -> G -> list string * G.
Variable time : G -> Q * G.
Variable now : G -> string * G.
Variable sleep : Q -> G -> G.
Variable str_of_number : Q -> string.
Variable str_of_list : list string -> string.

Lemma run_state_bind {A B : Type} (c : state G A) (k : A -> state G B) (g : G) :
  runState (bind c k) g = let (v, g') := runState c g in runState (k v) g'.
Proof. reflexivity. Qed.


Lemma max_le_l (a b : Q) : a <= max a b.
Proof.
  unfold max. destruct (gtb b a) eqn:E; [| lra]. apply gtb_true in E. lra.
Qed.

Lemma max_lub (a b c : Q) : a <= c -> b <= c -> max a b <= c.
Proof. unfold max. destruct (gtb b a); auto. Qed.

(** *** The suite *)

Lemma execute_single_test_spec (case : SuiteCase G) (g : G) :
  let r := fst (runState (_execute_single_test G random uniform randint sample time now
                                               str_of_number str_of_list case) g) in
  test_case_id r = case_id G case
  /\ match case with
     | WellTyped _ _ _ =>
         status r = (if is_empty (errors r) then PASSED else FAILED)
     | IllTyped _ _ _ =>
         status r = BLOCKED /\ warnings r = []
         /\ exists e, errors r = ["Test execution failed: " ++ e]
     end.
Proof.
  unfold _execute_single_test. cbv zeta.
  rewrite run_state_bind. cbn [runState]. destruct (time g) as [t0 g0].
  destruct case as [test_case data | id body_raises].
  - rewrite run_state_bind.
    destruct (runState (_simulate_fraud_detection G random uniform randint sample now
                                                  test_case data) g0) as [answer g1].
    rewrite run_state_bind. cbn [runState]. destruct (time g1) as [t1 g2].
    rewrite run_state_bind. cbn [runState]. destruct (now g2) as [stamp g3].
    rewrite run_state_bind. cbn [runState]. destruct (uniform 10 60 g3) as [cpu g4].
    rewrite run_state_bind. cbn [runState]. destruct (uniform 100 500 g4) as [mem g5].
    cbn [ret Monad_state runState fst test_case_id status errors case_id].
    split; [reflexivity | apply validate_status].
  - rewrite run_state_bind. cbn [runState]. destruct (body_raises g0) as [e g1].
    rewrite run_state_bind. cbn [runState]. destruct (time g1) as [t1 g2].
    rewrite run_state_bind. cbn [runState]. destruct (now g2) as [stamp g3].
    cbn [ret Monad_state runState fst test_case_id status errors warnings case_id].
    split; [reflexivity |]. split; [reflexivity |]. split; [reflexivity |].
    exists e. reflexivity.
Qed.

Lemma execute_from_spec (test_cases : list (SuiteCase G)) :
  forall (results : list TestResult) (g : G),
  exists new,
    fst (runState (execute_from G random uniform randint sample time now sleep
                                str_of_number str_of_list test_cases results) g)
    = (results ++ new)%list
    /\ Forall2 (fun case r =>
                  test_case_id r = case_id G case
                  /\ match case with
                     | WellTyped _ _ _ =>
                         status r = (if is_empty (errors r) then PASSED else FAILED)
                     | IllTyped _ _ _ =>
                         status r = BLOCKED /\ warnings r = []
                         /\ exists e, errors r = ["Test execution failed: " ++ e]
                     end)
               test_cases new.
Proof.
  induction test_cases as [| case rest IH]; intros results g.
  - exists []. cbn. rewrite app_nil_r. split; [reflexivity | constructor].
  - cbn [execute_from]. rewrite run_state_bind.
    pose proof (execute_single_test_spec case g) as Hr. cbv zeta in Hr.
    destruct (runState (_execute_single_test G random uniform randint sample time now
                                             str_of_number str_of_list case) g)
      as [r g1].
    cbn [fst] in Hr.
    rewrite run_state_bind. cbn [runState].
    destruct (IH (append results r) (sleep 0.1 g1)) as (new & Hrun & Hall).
    exists (r :: new). split.
    + rewrite Hrun. unfold append. rewrite <- app_assoc. reflexivity.
    + constructor; assumption.
Qed.

Lemma unfinished_are_blocked (xs : list TestResult) :
  Forall (fun r => status r <> SKIPPED) xs ->
  count is_unfinished xs = count (fun r => TestStatus_eqb (status r) BLOCKED) xs.
Proof.
  unfold count, is_unfinished. induction 1 as [| r xs Hr _ IH]; [reflexivity |].
  cbn [filter]. destruct (status r); cbn; try (rewrite IH; reflexivity); try exact IH.
  contradiction.
Qed.

Lemma no_unfinished (xs : list TestResult) :
  Forall (fun r => status r = PASSED \/ status r = FAILED) xs ->
  count is_unfinished xs = 0%nat.
Proof.
  unfold count, is_unfinished. induction 1 as [| r xs Hr _ IH]; [reflexivity |].
  cbn [filter]. destruct Hr as [-> | ->]; cbn; exact IH.
Qed.

(** Whatever the world draws, the suite yields one result per test case,
    in order and under its id.  The result of a case on which the body
    runs through is PASSED or FAILED, FAILED exactly when it carries an
    error; the result of a case on which the body raises is BLOCKED, with
    the exception as its one error and no warning; none is SKIPPED.  So the
    confusion matrix of the summary falls short of the totals by the
    blocked tests, and is complete on a suite of which no case raises. *)
Theorem suite_results_follow_test_cases (test_cases : list (SuiteCase G)) (g : G) :
  let results :=
    fst (runState (execute_test_suite G random uniform randint sample time now sleep
                                      str_of_number str_of_list test_cases) g) in
  let blocked := fun r : TestResult => TestStatus_eqb (status r) BLOCKED in
  map test_case_id results = map (case_id G) test_cases
  /\ Forall2 (fun case r =>
                match case with
                | WellTyped _ _ _ =>
                    (status r = FAILED <-> errors r <> [])
                    /\ (status r = PASSED <-> errors r = [])
                | IllTyped _ _ _ =>
                    status r = BLOCKED /\ warnings r = []
                    /\ exists e, errors r = ["Test execution failed: " ++ e]
                end)
             test_cases results
  /\ Forall (fun r => status r <> SKIPPED) results
  /\ exists m,
       TestSummaryGenerator._calculate_accuracy_metrics results = inr m
       /\ (TestSummaryGenerator.true_positives (TestSummaryGenerator.confusion_matrix m)
           + TestSummaryGenerator.false_negatives (TestSummaryGenerator.confusion_matrix m)
           + count blocked (TestSummaryGenerator.fraud_tests results)
           = TestSummaryGenerator.total_fraud_tests m)%nat
       /\ (TestSummaryGenerator.true_negatives (TestSummaryGenerator.confusion_matrix m)
           + TestSummaryGenerator.false_positives (TestSummaryGenerator.confusion_matrix m)
           + count blocked (TestSummaryGenerator.legit_tests results)
           = TestSummaryGenerator.total_legitimate_tests m)%nat
       /\ ((forall case, In case test_cases ->
                         exists test_case data, case = WellTyped G test_case data) ->
           (TestSummaryGenerator.true_positives (TestSummaryGenerator.confusion_matrix m)
            + TestSummaryGenerator.false_negatives (TestSummaryGenerator.confusion_matrix m)
            = TestSummaryGenerator.total_fraud_tests m)%nat
           /\ (TestSummaryGenerator.true_negatives (TestSummaryGenerator.confusion_matrix m)
               + TestSummaryGenerator.false_positives
                   (TestSummaryGenerator.confusion_matrix m)
               = TestSummaryGenerator.total_legitimate_tests m)%nat).
Proof.
  cbv zeta. unfold execute_test_suite.
  destruct (execute_from_spec test_cases [] g) as (results & -> & Hall).
  cbn [app].
  assert (Hids : map test_case_id results = map (case_id G) test_cases).
  { clear -Hall. induction Hall as [| c r cs rs [Hid _] _ IH]; [reflexivity |].
    cbn [map]. rewrite Hid, IH. reflexivity. }
  assert (Hnoskip : Forall (fun r => status r <> SKIPPED) results).
  { clear -Hall. induction Hall as [| c r cs rs [_ Hst] _ IH]; constructor; [| exact IH].
    destruct c.
    - rewrite Hst. destruct (is_empty (errors r)); discriminate.
    - destruct Hst as [-> _]. discriminate. }
  assert (Hwell : (forall case, In case test_cases ->
                                exists test_case data, case = WellTyped G test_case data) ->
                  Forall (fun r => status r = PASSED \/ status r = FAILED) results).
  { clear -Hall. induction Hall as [| c r cs rs [_ Hst] _ IH]; intros Hw; constructor.
    - destruct (Hw c (or_introl eq_refl)) as (tc & d & ->).
      rewrite Hst. destruct (is_empty (errors r)); [left | right]; reflexivity.
    - apply IH. intros c' Hc'. apply Hw. right. exact Hc'. }
  split; [exact Hids |].
  split.
  { clear -Hall. induction Hall as [| c r cs rs [_ Hst] _ IH]; constructor; [| exact IH].
    destruct c; [| exact Hst].
    rewrite Hst. destruct (errors r); cbn [is_empty]; split; split;
      intros H; try reflexivity; try discriminate H; try congruence. }
  split; [exact Hnoskip |].
  destruct (accuracy_metrics_returns results)
    as (m & Hm & Htp & Hfn & Htn & Hfp & Hf & Hl & _).
  exists m. split; [exact Hm |].
  rewrite Htp, Hfn, Htn, Hfp, Hf, Hl.
  assert (Hsub : forall (P : TestResult -> Prop) p,
             Forall P results -> Forall P (filter p results)).
  { intros P p HP. apply Forall_forall. intros r Hr. apply filter_In in Hr as [Hr _].
    exact (proj1 (Forall_forall _ _) HP r Hr). }
  pose proof (status_counts_partition (TestSummaryGenerator.fraud_tests results)) as Hpf.
  pose proof (status_counts_partition (TestSummaryGenerator.legit_tests results)) as Hpl.
  split; [| split].
  - rewrite <- (unfinished_are_blocked (TestSummaryGenerator.fraud_tests results)
                                        (Hsub _ _ Hnoskip)).
    exact Hpf.
  - rewrite <- (unfinished_are_blocked (TestSummaryGenerator.legit_tests results)
                                        (Hsub _ _ Hnoskip)).
    lia.
  - intros Hw. specialize (Hwell Hw).
    rewrite (no_unfinished (TestSummaryGenerator.fraud_tests results) (Hsub _ _ Hwell))
      in Hpf.
    rewrite (no_unfinished (TestSummaryGenerator.legit_tests results) (Hsub _ _ Hwell))
      in Hpl.
    lia.
Qed.

(** *** The simulators, for a [uniform] that keeps to its bounds *)

Hypothesis uniform_range :
  forall (a b : Q) (g : G), a <= b -> a <= fst (uniform a b g) <= b.

Ltac draw_uniform :=
  match goal with
  | |- context [uniform ?a ?b ?g] =>
      let H := fresh "Hu" in
      let v := fresh "v" in
      let g' := fresh "g" in
      pose proof (uniform_range a b g) as H;
      destruct (uniform a b g) as [v g']; cbn [fst] in H
  end.


(** A simulated fraud answer keeps to its ranges whatever is drawn: the
    risk score lies in [[0, 100]], a confidence, when present, in
    [[0.5, 0.99]]; the fraud indicators are present exactly when the alert
    is raised; and off the edge cases the score stays within 10.005 of an
    expected score in [[0, 100]], so the validator's warning for a
    variance above 15 cannot fire. *)
Theorem simulated_fraud_answer_in_range
    (test_case : TestCase) (expected : ExpectedResult) (g : G) :
  let answer :=
    fst (runState (_simulate_fraud_test G random uniform now test_case expected) g) in
  0 <= fr_risk_score answer <= 100
  /\ (forall c, fr_confidence answer = Some c -> 0.5 <= c <= 0.99)
  /\ (fr_fraud_indicators answer <> None <-> fr_fraud_alert_triggered answer = true)
  /\ (contains "EDGE" (tc_test_case_id test_case) = false ->
      forall s, exp_risk_score expected = Some s -> 0 <= s <= 100 ->
                abs (s - fr_risk_score answer) <= 10 + (1 # 200)
                /\ gtb (abs (s - fr_risk_score answer)) 15 = false).
Proof.
  cbv zeta. unfold _simulate_fraud_test. cbv zeta.
  set (expected_score := get (exp_risk_score expected) 50).
  set (expected_alert := get (exp_fraud_alert_triggered expected) false).
  rewrite run_state_bind. cbn [runState]. draw_uniform. specialize (Hu ltac:(lra)).
  rewrite run_state_bind. cbn [runState]. destruct (random g0) as [draw g1].
  set (alert := if ltb draw 0.95 then expected_alert else negb expected_alert).
  rewrite run_state_bind. cbn [runState]. destruct (now g1) as [stamp g2].
  rewrite run_state_bind. cbn [runState]. draw_uniform. clear Hu0.
  set (clamped := max 0 (min 100 (expected_score + v))).
  assert (Hclamp : 0 <= clamped <= 100).
  { subst clamped. split; [apply max_le_l |].
    apply max_lub; [lra | apply min_le_l]. }
  assert (Hscore : 0 <= round2 clamped <= 100).
  { split; [apply round2_nonneg; lra |].
    assert (H : round2 clamped <= round2 100) by (apply round2_mono; lra).
    assert (E100 : round2 100 == 100) by reflexivity. lra. }
  assert (Hnear : forall s, exp_risk_score expected = Some s -> 0 <= s <= 100 ->
                            s - 10 <= clamped <= s + 10).
  { intros s Hs Hrange. subst clamped expected_score. rewrite Hs. cbn [get].
    unfold max, min.
    destruct (ltb (s + v) 100) eqn:E1;
      [apply ltb_true in E1 | apply ltb_false in E1];
      destruct (gtb _ 0) eqn:E2;
      try (apply gtb_true in E2); try (apply gtb_false in E2); lra. }
  rewrite run_state_bind.
  destruct alert eqn:Ealert.
  - rewrite run_state_bind. cbn [runState]. draw_uniform. specialize (Hu0 ltac:(lra)).
    cbn [ret Monad_state runState].
    rewrite run_state_bind.
    destruct (contains "EDGE" (tc_test_case_id test_case)) eqn:Eedge.
    + rewrite run_state_bind. cbn [runState]. draw_uniform. specialize (Hu1 ltac:(lra)).
      rewrite run_state_bind. cbn [runState]. draw_uniform. specialize (Hu2 ltac:(lra)).
      cbn [ret Monad_state runState].
      rewrite run_state_bind. cbn [runState]. destruct (random g6) as [draw2 g7].
      cbn [ret Monad_state runState fst].
      destruct (ltb draw2 0.05);
        cbn [fr_risk_score fr_confidence fr_fraud_indicators fr_fraud_alert_triggered];
        (split; [lra |]);
        (split; [intros c Hc; injection Hc as <-; lra |]);
        (split; [split; [reflexivity | discriminate] |]);
        discriminate.
    + cbn [ret Monad_state runState].
      rewrite run_state_bind. cbn [runState]. destruct (random g4) as [draw2 g5].
      cbn [ret Monad_state runState fst].
      assert (Hvar : forall s, exp_risk_score expected = Some s -> 0 <= s <= 100 ->
                               abs (s - round2 clamped) <= 10 + (1 # 200)
                               /\ gtb (abs (s - round2 clamped)) 15 = false).
      { intros s Hs Hrange. pose proof (Hnear s Hs Hrange) as Hn.
        pose proof (round2_close clamped) as Hc.
        assert (Habs : abs (s - round2 clamped) <= 10 + (1 # 200)).
        { unfold abs. apply Qabs_Qle_condition. lra. }
        split; [exact Habs | apply gtb_false; lra]. }
      destruct (ltb draw2 0.05);
        cbn [fr_risk_score fr_confidence fr_fraud_indicators fr_fraud_alert_triggered];
        (split; [exact Hscore |]);
        (split; [intros c Hc; injection Hc as <-; lra |]);
        (split; [split; [reflexivity | discriminate] |]);
        intros _; exact Hvar.
  - cbn [ret Monad_state runState].
    rewrite run_state_bind.
    destruct (contains "EDGE" (tc_test_case_id test_case)) eqn:Eedge.
    + rewrite run_state_bind. cbn [runState]. draw_uniform. specialize (Hu0 ltac:(lra)).
      rewrite run_state_bind. cbn [runState]. draw_uniform. specialize (Hu1 ltac:(lra)).
      cbn [ret Monad_state runState].
      rewrite run_state_bind. cbn [runState]. destruct (random g5) as [draw2 g6].
      cbn [ret Monad_state runState fst].
      destruct (ltb draw2 0.05);
        cbn [fr_risk_score fr_confidence fr_fraud_indicators fr_fraud_alert_triggered];
        (split; [lra |]);
        (split; [intros c Hc; injection Hc as <-; lra |]);
        (split; [split; [intros H; contradiction | discriminate] |]);
        discriminate.
    + cbn [ret Monad_state runState].
      rewrite run_state_bind. cbn [runState]. destruct (random g3) as [draw2 g4].
      cbn [ret Monad_state runState fst].
      assert (Hvar : forall s, exp_risk_score expected = Some s -> 0 <= s <= 100 ->
                               abs (s - round2 clamped) <= 10 + (1 # 200)
                               /\ gtb (abs (s - round2 clamped)) 15 = false).
      { intros s Hs Hrange. pose proof (Hnear s Hs Hrange) as Hn.
        pose proof (round2_close clamped) as Hc.
        assert (Habs : abs (s - round2 clamped) <= 10 + (1 # 200)).
        { unfold abs. apply Qabs_Qle_condition. lra. }
        split; [exact Habs | apply gtb_false; lra]. }
      destruct (ltb draw2 0.05);
        cbn [fr_risk_score fr_confidence fr_fraud_indicators fr_fraud_alert_triggered];
        (split; [exact Hscore |]);
        (split; [intros c Hc; discriminate Hc |]);
        (split; [split; [intros H; contradiction | discriminate] |]);
        intros _; exact Hvar.
Qed.

End SimulationFacts.

Lemma steady_uniform_range (a b : Q) (g : nat) :
  a <= b -> a <= fst (WorldSamples.steady_uniform a b g) <= b.
Proof. intros H. cbn. split; [apply Qle_refl | exact H]. Qed.


Lemma simulated_fraud_answer_in_range_witness :
  (forall (a b : Q) (g : nat), a <= b -> a <= fst (WorldSamples.steady_uniform a b g) <= b)
  /\ let answer :=
       fst (runState (Simulation._simulate_fraud_test
                        nat WorldSamples.steady_random WorldSamples.steady_uniform
                        WorldSamples.steady_now WorldSamples.fraud_case
                        (expected_result WorldSamples.fraud_case)) 0%nat) in
     0 <= Simulation.fr_risk_score answer <= 100
     /\ (forall c, Simulation.fr_confidence answer = Some c -> 0.5 <= c <= 0.99)
     /\ (Simulation.fr_fraud_indicators answer <> None
         <-> Simulation.fr_fraud_alert_triggered answer = true)
     /\ (contains "EDGE" (tc_test_case_id WorldSamples.fraud_case) = false ->
         forall s, exp_risk_score (expected_result WorldSamples.fraud_case) = Some s ->
                   0 <= s <= 100 ->
                   abs (s - Simulation.fr_risk_score answer) <= 10 + (1 # 200)
                   /\ gtb (abs (s - Simulation.fr_risk_score answer)) 15 = false).
Proof.
  split; [exact steady_uniform_range |].
  apply (simulated_fraud_answer_in_range
           nat WorldSamples.steady_random WorldSamples.steady_uniform
           WorldSamples.steady_now steady_uniform_range
           WorldSamples.fraud_case (expected_result WorldSamples.fraud_case) 0%nat).
Defined.
